(** * PetCare: reminder recurrence, reconciliation and timeline aggregation

    A shallow embedding of the client-side logic of the PetCare tracking
    components:

    - [VaccineTab.tsx]   ([parseDateString], [formatDateString],
                          [createReminders], [handleSubmit], [handleEdit],
                          [handleUpdate], [handleDelete]);
    - [DewormingTab]     ([createNextReminder] and its four handlers);
    - [TimelineTab.tsx]  ([fetchAllEvents]);
    - [WeightTab]        ([allWeightRecords] and the records table);
    - [CalendarPage]     ([markAsCompleted], [selectedDateReminders],
                          [getDatesWithReminders], [getUpcomingReminders]).

    The components are written against two collaborators that are not part of
    the repository: the ECMAScript [Date] object and the hosted store reached
    through [supabase.from(...)].  Both are modelled here from their public
    definitions (ECMA-262 for [Date], PostgreSQL/PostgREST for [like]), in
    modules [JS] and [Supabase]; everything else follows the TypeScript text
    line by line. *)

From Stdlib Require Import ZArith List String Ascii Bool Lia.
From Stdlib Require Import Permutation Sorted.
Import ListNotations.

Local Open Scope string_scope.
Local Open Scope Z_scope.

(* ================================================================== *)
(** * The ECMAScript built-ins the components rely on *)
(* ================================================================== *)

Module JS.

(** ** Numbers

    Every number handled by the modelled code is an integer or [NaN]; a
    JavaScript number is therefore an [option Z], [None] being [NaN]. *)

Definition number := option Z.

Definition NaN : number := None.

(** [a + b]: [NaN] is absorbing. *)
Definition num_add (a b : number) : number :=
  match a, b with
  | Some x, Some y => Some (x + y)
  | _, _ => None
  end.

(** [a - b]. *)
Definition num_sub (a b : number) : number :=
  match a, b with
  | Some x, Some y => Some (x - y)
  | _, _ => None
  end.

(** Truthiness of a number: [0] and [NaN] are falsy. *)
Definition truthy (a : number) : bool :=
  match a with
  | Some x => negb (x =? 0)
  | None => false
  end.

(** ** Decimal strings *)

Definition digit_of_ascii (c : ascii) : option Z :=
  let n := Z.of_N (N_of_ascii c) in
  if (48 <=? n) && (n <=? 57) then Some (n - 48) else None.

Definition ascii_of_digit (k : Z) : ascii := ascii_of_N (Z.to_N (48 + k)).

Fixpoint StringToDigits (s : string) (acc : Z) : option Z :=
  match s with
  | EmptyString => Some acc
  | String c s' =>
      match digit_of_ascii c with
      | Some k => StringToDigits s' (10 * acc + k)
      | None => None
      end
  end.

(** [Number(s)] on the strings this program feeds it: a run of decimal
    digits (leading zeros allowed) is its value and the empty string is [0].
    Any other string is mapped to [NaN]; ECMAScript also accepts signs,
    fractions, exponents, radix prefixes and surrounding blanks, which never
    occur in a date string and are left out of the model. *)
Definition Number (s : string) : number := StringToDigits s 0.

Fixpoint digits_fuel (fuel : nat) (n : Z) (acc : string) : string :=
  match fuel with
  | O => acc
  | S fuel' =>
      let acc' := String (ascii_of_digit (n mod 10)) acc in
      if n / 10 =? 0 then acc' else digits_fuel fuel' (n / 10) acc'
  end.

(** Decimal digits of a non-negative integer, most significant first. *)
Definition digits (n : Z) : string :=
  digits_fuel (S (Z.to_nat (Z.log2 n))) n EmptyString.

(** [String(x)] (also what a template literal does to a number). *)
Definition ToString (x : number) : string :=
  match x with
  | None => "NaN"
  | Some n => if n <? 0 then String "-" (digits (- n)) else digits n
  end.

(** [s.padStart(2, '0')]. *)
Definition padStart2 (s : string) : string :=
  match s with
  | EmptyString => "00"
  | String c EmptyString => String "0" (String c EmptyString)
  | _ => s
  end.

(** [s.split(sep)] for a one-character separator. *)
Fixpoint split (sep : ascii) (s : string) : list string :=
  match s with
  | EmptyString => [EmptyString]
  | String c s' =>
      if Ascii.eqb c sep then EmptyString :: split sep s'
      else match split sep s' with
           | h :: t => String c h :: t
           | [] => [String c EmptyString]
           end
  end.

(** ** Day arithmetic (ECMA-262, "Time Values and Time Range")

    A day is counted from 1970-01-01.  The components only build local
    midnights, so a time value is represented by its local day number. *)

Definition DayFromYear (y : Z) : Z :=
  365 * (y - 1970) + (y - 1969) / 4 - (y - 1901) / 100 + (y - 1601) / 400.

Definition InLeapYear (y : Z) : bool :=
  if negb (y mod 4 =? 0) then false
  else if negb (y mod 100 =? 0) then true
  else if negb (y mod 400 =? 0) then false
  else true.

Definition DaysInYear (y : Z) : Z := if InLeapYear y then 366 else 365.

(** The largest [y] with [DayFromYear y <= d]: a first guess from the mean
    length of a year, corrected by at most one. *)
Definition YearFromDay (d : Z) : Z :=
  let y0 := 1970 + (400 * d) / 146097 in
  if DayFromYear (y0 + 1) <=? d then y0 + 1
  else if DayFromYear y0 <=? d then y0
  else y0 - 1.

Definition DayWithinYear (d : Z) : Z := d - DayFromYear (YearFromDay d).

Definition leap_day (y : Z) : Z := if InLeapYear y then 1 else 0.

(** Day within the year on which month [m] (0 = January) starts. *)
Definition MonthStart (leap m : Z) : Z :=
  match m with
  | 0 => 0
  | 1 => 31
  | 2 => 59 + leap
  | 3 => 90 + leap
  | 4 => 120 + leap
  | 5 => 151 + leap
  | 6 => 181 + leap
  | 7 => 212 + leap
  | 8 => 243 + leap
  | 9 => 273 + leap
  | 10 => 304 + leap
  | 11 => 334 + leap
  | _ => 365 + leap
  end.

Definition MonthFromDay (d : Z) : Z :=
  let w := DayWithinYear d in
  let leap := leap_day (YearFromDay d) in
  if w <? 31 then 0
  else if w <? 59 + leap then 1
  else if w <? 90 + leap then 2
  else if w <? 120 + leap then 3
  else if w <? 151 + leap then 4
  else if w <? 181 + leap then 5
  else if w <? 212 + leap then 6
  else if w <? 243 + leap then 7
  else if w <? 273 + leap then 8
  else if w <? 304 + leap then 9
  else if w <? 334 + leap then 10
  else 11.

Definition DateFromDay (d : Z) : Z :=
  DayWithinYear d + 1
  - MonthStart (leap_day (YearFromDay d)) (MonthFromDay d).

(** [MakeDay(year, month, date)]: months outside 0..11 carry into the year,
    and the day of the month is added as an offset, whatever its size. *)
Definition MakeDay (year month date : Z) : Z :=
  let ym := year + month / 12 in
  let mn := month mod 12 in
  DayFromYear ym + MonthStart (leap_day ym) mn + date - 1.

(** Two views used to reason about [MakeDay]: the day on which the month
    [k] months after January of year 0 starts, and the number of whole
    months between that January and the month of a day. *)
Definition MonthDay (k : Z) : Z := MakeDay 0 k 1.

Definition absMonth (d : Z) : Z := 12 * YearFromDay d + MonthFromDay d.

(** ** [Date] objects

    A [Date] holds a time value or [NaN] ("Invalid Date").  [TimeClip]
    rejects instants more than 100,000,000 days away from the epoch; the
    bound is applied to the local day number, as on a host in UTC (elsewhere
    the last valid day is the same or its neighbour). *)

Inductive Date : Type :=
| DateAt (day : Z)
| InvalidDate.

Definition maxDay : Z := 100000000.

Definition TimeClip (day : Z) : Date :=
  if (- maxDay <=? day) && (day <=? maxDay) then DateAt day else InvalidDate.

(** [new Date(year, monthIndex, day)]: a two-digit year counts from 1900. *)
Definition newDate (year monthIndex day : number) : Date :=
  match year, monthIndex, day with
  | Some y, Some m, Some d =>
      let yr := if (0 <=? y) && (y <=? 99) then 1900 + y else y in
      TimeClip (MakeDay yr m d)
  | _, _, _ => InvalidDate
  end.

Definition getFullYear (t : Date) : number :=
  match t with
  | DateAt d => Some (YearFromDay d)
  | InvalidDate => NaN
  end.

Definition getMonth (t : Date) : number :=
  match t with
  | DateAt d => Some (MonthFromDay d)
  | InvalidDate => NaN
  end.

Definition getDate (t : Date) : number :=
  match t with
  | DateAt d => Some (DateFromDay d)
  | InvalidDate => NaN
  end.

(** [t.setFullYear(year)]: month and day of the month are kept and the result
    is normalised again (29 February becomes 1 March in a common year).  On
    an invalid date the month and day are those of the epoch. *)
Definition setFullYear (t : Date) (year : number) : Date :=
  match year with
  | None => InvalidDate
  | Some y =>
      match t with
      | DateAt d => TimeClip (MakeDay y (MonthFromDay d) (DateFromDay d))
      | InvalidDate => TimeClip (MakeDay y 0 1)
      end
  end.

(** [t.setMonth(month)]: an invalid date stays invalid. *)
Definition setMonth (t : Date) (month : number) : Date :=
  match t with
  | InvalidDate => InvalidDate
  | DateAt d =>
      match month with
      | None => InvalidDate
      | Some m => TimeClip (MakeDay (YearFromDay d) m (DateFromDay d))
      end
  end.

(** [a < b] and [a <= b] on dates compare the time values; a comparison with
    an invalid date is false.  Every date these components build is the
    first instant of a local day: its midnight, or the hour after it where
    the time zone skips that midnight.  Dates of different days therefore
    compare as their day numbers do, and [a < b] is false for two dates of
    one day.  [a <= b] is taken to hold for two dates of one day, as it does
    for two midnights; the one case it leaves out is a date built from a
    skipped midnight against a midnight of the same day. *)
Definition date_lt (a b : Date) : bool :=
  match a, b with
  | DateAt x, DateAt y => x <? y
  | _, _ => false
  end.

Definition date_le (a b : Date) : bool :=
  match a, b with
  | DateAt x, DateAt y => x <=? y
  | _, _ => false
  end.

(** ** [while] loops

    [while fuel cond body s] runs [while (cond) body] from state [s] for at
    most [fuel] iterations: [None] means the loop was still running when the
    fuel ran out. *)
Fixpoint while {S : Type} (fuel : nat) (cond : S -> bool) (body : S -> S)
  (s : S) : option S :=
  if cond s then
    match fuel with
    | O => None
    | Datatypes.S fuel' => while fuel' cond body (body s)
    end
  else Some s.

End JS.

(** Option bind, for computations that may run out of fuel. *)
Notation "x <- c ;; k" :=
  (match c with
   | Some x => k
   | None => None
   end) (at level 61, c at next level, right associativity).

(* ================================================================== *)
(** * The date helpers shared by [VaccineTab] and [DewormingTab] *)
(* ================================================================== *)

Module DateUtil.
Import JS.

(** [const [year, month, day] = dateString.split('-').map(Number);
     return new Date(year, month - 1, day);]
    A component the destructuring does not find is [undefined], which the
    constructor turns into [NaN]. *)
Definition parseDateString (dateString : string) : Date :=
  match map Number (split "-" dateString) with
  | year :: month :: day :: _ => newDate year (num_sub month (Some 1)) day
  | _ => InvalidDate
  end.

(** [`${year}-${month}-${day}`] with month and day padded to two places;
    the year is printed as it is. *)
Definition formatDateString (date : Date) : string :=
  let year := getFullYear date in
  let month := padStart2 (ToString (num_add (getMonth date) (Some 1))) in
  let day := padStart2 (ToString (getDate date)) in
  (ToString year ++ "-" ++ month ++ "-" ++ day)%string.

(** [parseInt(s)]: an optional sign, then the value of the leading run of
    decimal digits; [NaN] when there is no digit.  (Leading blanks and a
    radix prefix, which [parseInt] also accepts, do not occur in the value
    of a frequency selector and are not modelled.) *)
Fixpoint leading_digits (s : string) : string :=
  match s with
  | EmptyString => EmptyString
  | String c s' =>
      match digit_of_ascii c with
      | Some _ => String c (leading_digits s')
      | None => EmptyString
      end
  end.

Definition parseDigits (s : string) : number :=
  match leading_digits s with
  | EmptyString => NaN
  | ds => Number ds
  end.

Definition parseInt (s : string) : number :=
  match s with
  | String c s' =>
      if Ascii.eqb c "-" then option_map Z.opp (parseDigits s')
      else if Ascii.eqb c "+" then parseDigits s'
      else parseDigits s
  | EmptyString => NaN
  end.

End DateUtil.

(* ================================================================== *)
(** * The hosted store *)
(* ================================================================== *)

Module Supabase.

(** A row of [reminders], with the columns the tracking components write
    or filter on ([id], the timestamps and [reminder_time] are filled by the
    store and never read here). *)
Record Reminder : Type := mkReminder {
  user_id : string;
  pet_id : option string;
  title : string;
  description : option string;
  reminder_date : string;
  type : string;
  completed : bool
}.

Record Vaccine : Type := mkVaccine {
  v_id : nat;
  v_pet_id : string;
  v_user_id : string;
  vaccine_type : string;
  v_date : string;
  v_notes : option string;
  v_create_reminder : bool;
  reminder_frequency_years : JS.number
}.

Record Deworming : Type := mkDeworming {
  d_id : nat;
  d_pet_id : string;
  d_user_id : string;
  deworming_type : string;
  d_date : string;
  d_notes : option string;
  d_create_reminder : bool;
  reminder_frequency_type : option string;
  reminder_frequency_value : JS.number
}.

(** The three tables the care-event handlers touch; [next_id] stands for
    the store's identifier generator.  Requests are modelled as the store
    answers them when it is reachable and accepts them; a request it rejects
    changes nothing. *)
Record DB : Type := mkDB {
  reminders : list Reminder;
  vaccinations : list Vaccine;
  dewormings : list Deworming;
  next_id : nat
}.

Definition empty_db : DB := mkDB [] [] [] 0.

(** ** [like]

    [.like(column, pattern)] is PostgREST's [like] filter, that is SQL [LIKE]:
    the comparison is case-sensitive, [%] stands for any run of characters,
    [_] for any one character and a backslash makes the next character
    literal.  PostgREST reads [*] in the pattern as [%].  Characters are the
    bytes of the string, so that [_] stands for one byte: for a pattern
    with [_] the model agrees with the store on values of one-byte
    characters, and for a pattern without [_] on every value. *)

Inductive like_token : Type :=
| AnyString
| AnyChar
| Literal (c : ascii).

Definition star (c : ascii) : ascii :=
  if Ascii.eqb c "*" then "%"%char else c.

Fixpoint map_string (f : ascii -> ascii) (s : string) : string :=
  match s with
  | EmptyString => EmptyString
  | String c s' => String (f c) (map_string f s')
  end.

(** [None] for a pattern that ends in an unfinished escape, which SQL
    rejects. *)
Fixpoint like_tokens (p : string) : option (list like_token) :=
  match p with
  | EmptyString => Some []
  | String c p' =>
      if Ascii.eqb c "\" then
        match p' with
        | EmptyString => None
        | String c' p'' => option_map (cons (Literal c')) (like_tokens p'')
        end
      else if Ascii.eqb c "%" then option_map (cons AnyString) (like_tokens p')
      else if Ascii.eqb c "_" then option_map (cons AnyChar) (like_tokens p')
      else option_map (cons (Literal c)) (like_tokens p')
  end.

Fixpoint like_match (p : list like_token) (s : string) : bool :=
  match p with
  | [] => match s with EmptyString => true | _ => false end
  | AnyString :: p' =>
      (fix skip (s : string) : bool :=
         like_match p' s
         || match s with
            | EmptyString => false
            | String _ s' => skip s'
            end) s
  | AnyChar :: p' =>
      match s with
      | EmptyString => false
      | String _ s' => like_match p' s'
      end
  | Literal c :: p' =>
      match s with
      | EmptyString => false
      | String c' s' => Ascii.eqb c c' && like_match p' s'
      end
  end.

(** [value LIKE pattern].  A rejected pattern makes the whole request fail;
    the handlers log that failure and carry on, so that no row is selected
    by it. *)
Definition like (pattern value : string) : bool :=
  match like_tokens (map_string star pattern) with
  | Some p => like_match p value
  | None => false
  end.

(** The rows picked by
    [.eq("pet_id", petId).like("title", titlePattern)
     .like("description", descriptionPattern)];
    a null column satisfies no filter. *)
Definition selected (petId titlePattern descriptionPattern : string)
  (r : Reminder) : bool :=
  match pet_id r with
  | Some p => String.eqb p petId
  | None => false
  end
  && like titlePattern (title r)
  && match description r with
     | Some d => like descriptionPattern d
     | None => false
     end.

(** [supabase.from("reminders").delete().eq(..).like(..).like(..)] *)
Definition delete_reminders (petId titlePattern descriptionPattern : string)
  (db : DB) : DB :=
  mkDB (filter (fun r => negb (selected petId titlePattern descriptionPattern r))
               (reminders db))
       (vaccinations db) (dewormings db) (next_id db).

(** [supabase.from("reminders").insert(rows)] *)
Definition insert_reminders (rows : list Reminder) (db : DB) : DB :=
  mkDB (reminders db ++ rows) (vaccinations db) (dewormings db) (next_id db).

End Supabase.

(* ================================================================== *)
(** * [VaccineTab] *)
(* ================================================================== *)

Module VaccineTab.
Import JS DateUtil Supabase.

(** The form state read by the handlers. *)
Record Form : Type := mkForm {
  vaccineType : string;
  date : string;
  notes : string;
  createReminder : bool;
  reminderFrequency : string
}.

(** [x || null] on a string. *)
Definition or_null (s : string) : option string :=
  match s with
  | EmptyString => None
  | _ => Some s
  end.

Definition is_empty (s : string) : bool :=
  match s with
  | EmptyString => true
  | _ => false
  end.

(** [d.setFullYear(d.getFullYear() + frequencyYears)] *)
Definition addYears (frequencyYears : number) (d : Date) : Date :=
  setFullYear d (num_add (getFullYear d) frequencyYears).

(** Lines 116-126 of [createReminders]: the first candidate is one interval
    after the vaccine; when the vaccine lies before today the candidate is
    pushed forward until it is no longer before today. *)
Definition nextReminderDate (fuel : nat) (today : Z) (vaccineDateObj : Date)
  (frequencyYears : number) : option Date :=
  let next := addYears frequencyYears vaccineDateObj in
  if date_lt vaccineDateObj (DateAt today) then
    while fuel (fun next => date_lt next (DateAt today))
          (addYears frequencyYears) next
  else Some next.

(** [maxDate]: today, ten years on. *)
Definition maxDate (today : Z) : Date :=
  setFullYear (DateAt today) (num_add (getFullYear (DateAt today)) (Some 10)).

Definition reminderFor (petId userId vaccineType : string) (d : Date)
  : Reminder :=
  {| user_id := userId;
     pet_id := Some petId;
     title := "Vacuna: " ++ vaccineType;
     description := Some ("Recordatorio para aplicar la vacuna " ++ vaccineType);
     reminder_date := formatDateString d;
     type := "vaccination";
     completed := false |}.

(** Lines 111-147 of [createReminders]: the rows to insert.  The state of
    the second loop is the array built so far and [currentReminderDate]. *)
Definition remindersToCreate (fuel : nat) (today : Z)
  (petId userId vaccineType : string) (vaccineDateObj : Date)
  (frequencyYears : number) : option (list Reminder) :=
  next <- nextReminderDate fuel today vaccineDateObj frequencyYears ;;
  st <- while fuel
          (fun st : list Reminder * Date => date_le (snd st) (maxDate today))
          (fun st => ((fst st ++ [reminderFor petId userId vaccineType (snd st)])%list,
                      addYears frequencyYears (snd st)))
          ([], next) ;;
  Some (fst st).

(** [createReminders]; [None] when one of its loops does not come to an
    end within [fuel] iterations. *)
Definition createReminders (fuel : nat) (today : Z)
  (petId userId vaccineType vaccineDate : string) (frequencyYears : number)
  (db : DB) : option DB :=
  rows <- remindersToCreate fuel today petId userId vaccineType
            (parseDateString vaccineDate) frequencyYears ;;
  Some (if (0 <? List.length rows)%nat then insert_reminders rows db else db).

Definition insert_vaccination (petId userId : string) (f : Form)
  (frequencyYears : number) (db : DB) : DB :=
  mkDB (reminders db)
       (vaccinations db ++
        [mkVaccine (next_id db) petId userId (vaccineType f) (date f)
           (or_null (notes f)) (createReminder f) frequencyYears])
       (dewormings db) (S (next_id db)).

Definition update_vaccination (id : nat) (f : Form) (frequencyYears : number)
  (db : DB) : DB :=
  mkDB (reminders db)
       (map (fun v =>
               if Nat.eqb (v_id v) id then
                 mkVaccine (v_id v) (v_pet_id v) (v_user_id v) (vaccineType f)
                   (date f) (or_null (notes f)) (createReminder f)
                   frequencyYears
               else v)
            (vaccinations db))
       (dewormings db) (next_id db).

Definition delete_vaccination (id : nat) (db : DB) : DB :=
  mkDB (reminders db)
       (filter (fun v => negb (Nat.eqb (v_id v) id)) (vaccinations db))
       (dewormings db) (next_id db).

(** [createReminder ? parseInt(reminderFrequency) : null] *)
Definition frequencyYearsOf (f : Form) : number :=
  if createReminder f then parseInt (reminderFrequency f) else None.

(** [handleSubmit].  [user] is the signed-in user, if any; without one, or
    with a required field missing, the handler reports and changes nothing. *)
Definition handleSubmit (fuel : nat) (today : Z) (selectedPetId : string)
  (user : option string) (f : Form) (db : DB) : option DB :=
  if is_empty selectedPetId || is_empty (vaccineType f) || is_empty (date f)
  then Some db
  else
    match user with
    | None => Some db
    | Some userId =>
        let frequencyYears := frequencyYearsOf f in
        let db1 := insert_vaccination selectedPetId userId f frequencyYears db in
        if createReminder f && truthy frequencyYears then
          createReminders fuel today selectedPetId userId (vaccineType f)
            (date f) frequencyYears db1
        else Some db1
    end.

(** [handleUpdate]: old reminders out, the vaccination row rewritten, new
    reminders in, in that order. *)
Definition handleUpdate (fuel : nat) (today : Z) (selectedPetId : string)
  (user : option string) (editingVaccine : option Vaccine) (f : Form)
  (db : DB) : option DB :=
  match editingVaccine with
  | None => Some db
  | Some editing =>
      if is_empty (vaccineType f) || is_empty (date f) then Some db
      else
        match user with
        | None => Some db
        | Some userId =>
            let db1 :=
              delete_reminders selectedPetId
                ("%" ++ vaccine_type editing ++ "%") "%Vacuna%" db in
            let frequencyYears := frequencyYearsOf f in
            let db2 := update_vaccination (v_id editing) f frequencyYears db1 in
            if createReminder f && truthy frequencyYears then
              createReminders fuel today selectedPetId userId (vaccineType f)
                (date f) frequencyYears db2
            else Some db2
        end
  end.

(** [handleDelete] *)
Definition handleDelete (selectedPetId : string) (vaccineId : nat)
  (vaccineType : string) (db : DB) : DB :=
  let db1 :=
    delete_reminders selectedPetId ("%" ++ vaccineType ++ "%") "%Vacuna%" db in
  delete_vaccination vaccineId db1.

(** [handleEdit]: the row being edited and the form it fills.
    [vaccine.notes || ""] and
    [vaccine.reminder_frequency_years?.toString() || "1"]. *)
Definition handleEdit (vaccine : Vaccine) : option Vaccine * Form :=
  (Some vaccine,
   mkForm (vaccine_type vaccine) (v_date vaccine)
     (match v_notes vaccine with
      | Some s => s
      | None => EmptyString
      end)
     (v_create_reminder vaccine)
     (match reminder_frequency_years vaccine with
      | Some n => ToString (Some n)
      | None => "1"
      end)).

End VaccineTab.

(* ================================================================== *)
(** * [DewormingTab] *)
(* ================================================================== *)

Module DewormingTab.
Import JS DateUtil Supabase.

Record Form : Type := mkForm {
  dewormingType : string;
  date : string;
  notes : string;
  createReminder : bool;
  reminderFrequency : string
}.

(** One step of the cadence:
    [if (frequencyType === 'months') setMonth(getMonth() + frequencyValue)
     else if (frequencyType === 'year') setFullYear(getFullYear() + frequencyValue)];
    any other unit leaves the date as it is. *)
Definition advance (frequencyType : string) (frequencyValue : number)
  (d : Date) : Date :=
  if String.eqb frequencyType "months" then
    setMonth d (num_add (getMonth d) frequencyValue)
  else if String.eqb frequencyType "year" then
    setFullYear d (num_add (getFullYear d) frequencyValue)
  else d.

(** Lines 711-729 of [createNextReminder]. *)
Definition nextReminderDate (fuel : nat) (today : Z) (dewormingDateObj : Date)
  (frequencyType : string) (frequencyValue : number) : option Date :=
  let next := advance frequencyType frequencyValue dewormingDateObj in
  if date_lt dewormingDateObj (DateAt today) then
    while fuel (fun next => date_lt next (DateAt today))
          (advance frequencyType frequencyValue) next
  else Some next.

Definition maxDate (today : Z) : Date :=
  setFullYear (DateAt today) (num_add (getFullYear (DateAt today)) (Some 10)).

Definition reminderFor (petId userId dewormingType : string) (d : Date)
  : Reminder :=
  {| user_id := userId;
     pet_id := Some petId;
     title := "Desparasitación: " ++ dewormingType;
     description :=
       Some ("Recordatorio para aplicar la desparasitación " ++ dewormingType);
     reminder_date := formatDateString d;
     type := "deworming";
     completed := false |}.

(** The rows [createNextReminder] inserts: the next occurrence when it is
    within the horizon, nothing otherwise. *)
Definition remindersToCreate (fuel : nat) (today : Z)
  (petId userId dewormingType : string) (dewormingDateObj : Date)
  (frequencyType : string) (frequencyValue : number)
  : option (list Reminder) :=
  next <- nextReminderDate fuel today dewormingDateObj frequencyType
            frequencyValue ;;
  Some (if date_le next (maxDate today)
        then [reminderFor petId userId dewormingType next]
        else []).

(** [createNextReminder] *)
Definition createNextReminder (fuel : nat) (today : Z)
  (petId userId dewormingType dewormingDate frequencyType : string)
  (frequencyValue : number) (db : DB) : option DB :=
  rows <- remindersToCreate fuel today petId userId dewormingType
            (parseDateString dewormingDate) frequencyType frequencyValue ;;
  Some (insert_reminders rows db).

(** [const [value, type] = reminderFrequency.split('-');
     frequencyValue = parseInt(value);
     frequencyType = type === 'month' ? 'months' : 'year';] *)
Definition frequencyOf (f : Form) : option string * number :=
  if createReminder f then
    match split "-" (reminderFrequency f) with
    | value :: rest =>
        (Some (match rest with
               | ty :: _ => if String.eqb ty "month" then "months" else "year"
               | [] => "year"
               end),
         parseInt value)
    | [] => (Some "year", NaN)
    end
  else (None, None).

Definition insert_deworming (petId userId : string) (f : Form)
  (fr : option string * number) (db : DB) : DB :=
  mkDB (reminders db) (vaccinations db)
       (dewormings db ++
        [mkDeworming (next_id db) petId userId (dewormingType f) (date f)
           (VaccineTab.or_null (notes f)) (createReminder f) (fst fr) (snd fr)])
       (S (next_id db)).

Definition update_deworming (id : nat) (f : Form)
  (fr : option string * number) (db : DB) : DB :=
  mkDB (reminders db) (vaccinations db)
       (map (fun d =>
               if Nat.eqb (d_id d) id then
                 mkDeworming (d_id d) (d_pet_id d) (d_user_id d)
                   (dewormingType f) (date f) (VaccineTab.or_null (notes f))
                   (createReminder f) (fst fr) (snd fr)
               else d)
            (dewormings db))
       (next_id db).

Definition delete_deworming (id : nat) (db : DB) : DB :=
  mkDB (reminders db) (vaccinations db)
       (filter (fun d => negb (Nat.eqb (d_id d) id)) (dewormings db))
       (next_id db).

(** The call guarded by
    [createReminder && frequencyType && frequencyValue]. *)
Definition createIfRequested (fuel : nat) (today : Z)
  (selectedPetId userId : string) (f : Form) (fr : option string * number)
  (db : DB) : option DB :=
  match fst fr with
  | Some frequencyType =>
      if createReminder f && negb (VaccineTab.is_empty frequencyType)
         && truthy (snd fr)
      then createNextReminder fuel today selectedPetId userId
             (dewormingType f) (date f) frequencyType (snd fr) db
      else Some db
  | None => Some db
  end.

(** [handleSubmit] *)
Definition handleSubmit (fuel : nat) (today : Z) (selectedPetId : string)
  (user : option string) (f : Form) (db : DB) : option DB :=
  if VaccineTab.is_empty selectedPetId || VaccineTab.is_empty (dewormingType f)
     || VaccineTab.is_empty (date f)
  then Some db
  else
    match user with
    | None => Some db
    | Some userId =>
        let fr := frequencyOf f in
        let db1 := insert_deworming selectedPetId userId f fr db in
        createIfRequested fuel today selectedPetId userId f fr db1
    end.

(** [handleUpdate] *)
Definition handleUpdate (fuel : nat) (today : Z) (selectedPetId : string)
  (user : option string) (editingDeworming : option Deworming) (f : Form)
  (db : DB) : option DB :=
  match editingDeworming with
  | None => Some db
  | Some editing =>
      if VaccineTab.is_empty (dewormingType f) || VaccineTab.is_empty (date f)
      then Some db
      else
        match user with
        | None => Some db
        | Some userId =>
            let db1 :=
              delete_reminders selectedPetId
                ("%" ++ deworming_type editing ++ "%") "%Desparasitación%" db in
            let fr := frequencyOf f in
            let db2 := update_deworming (d_id editing) f fr db1 in
            createIfRequested fuel today selectedPetId userId f fr db2
        end
  end.

(** [handleDelete] *)
Definition handleDelete (selectedPetId : string) (dewormingId : nat)
  (dewormingType : string) (db : DB) : DB :=
  let db1 :=
    delete_reminders selectedPetId ("%" ++ dewormingType ++ "%")
      "%Desparasitación%" db in
  delete_deworming dewormingId db1.

(** [handleEdit]: the selector is set to
    [`${value}-${type}`], with [type] being ['month'] for a stored ['months']
    and ['year'] otherwise, when a unit and a non-zero value are stored, and
    to ["1-month"] when they are not. *)
Definition handleEdit (deworming : Deworming) : option Deworming * Form :=
  (Some deworming,
   mkForm (deworming_type deworming) (d_date deworming)
     (match d_notes deworming with
      | Some s => s
      | None => EmptyString
      end)
     (d_create_reminder deworming)
     (match reminder_frequency_type deworming with
      | Some ty =>
          if negb (VaccineTab.is_empty ty)
             && truthy (reminder_frequency_value deworming)
          then (ToString (reminder_frequency_value deworming) ++ "-"
                ++ (if String.eqb ty "months" then "month" else "year"))%string
          else "1-month"
      | None => "1-month"
      end)).

End DewormingTab.

(* ================================================================== *)
(** * Dates read from strings, and sorting *)
(* ================================================================== *)

Module JSArray.
Import JS.

(** Length of month [m] (0 = January) of year [y]. *)
Definition DaysInMonth (y m : Z) : Z :=
  MonthStart (leap_day y) (m + 1) - MonthStart (leap_day y) m.

(** [new Date(s)] for a date-only string [YYYY-MM-DD], which ECMAScript
    reads as midnight UTC of that day.  What an engine makes of any other
    string is its own business; such strings are modelled as invalid. *)
Definition newDateFromString (s : string) : Date :=
  match split "-" s with
  | [ys; ms; ds] =>
      if ((String.length ys =? 4) && (String.length ms =? 2)
          && (String.length ds =? 2))%nat
      then
        match Number ys, Number ms, Number ds with
        | Some y, Some m, Some d =>
            if (1 <=? m) && (m <=? 12) && (1 <=? d)
               && (d <=? DaysInMonth y (m - 1))
            then DateAt (MakeDay y (m - 1) d)
            else InvalidDate
        | _, _, _ => InvalidDate
        end
      else InvalidDate
  | _ => InvalidDate
  end.

Definition msPerDay : Z := 86400000.

(** [d.getTime()] of a midnight. *)
Definition getTime (d : Date) : number :=
  match d with
  | DateAt day => Some (day * msPerDay)
  | InvalidDate => NaN
  end.

(** [Array.prototype.sort(comparefn)].  The sort is stable, and a comparator
    result of [NaN] counts as [0].  For a comparator that orders the
    elements consistently every stable sort returns the same array; it is
    computed here by insertion, an element going in front of the first
    later element it does not exceed. *)
Definition exceeds {A : Type} (comparefn : A -> A -> number) (x y : A) : bool :=
  match comparefn x y with
  | Some v => 0 <? v
  | None => false
  end.

Fixpoint insert {A : Type} (comparefn : A -> A -> number) (x : A)
  (l : list A) : list A :=
  match l with
  | [] => [x]
  | y :: l' =>
      if exceeds comparefn x y then y :: insert comparefn x l'
      else x :: l
  end.

Fixpoint sort {A : Type} (comparefn : A -> A -> number) (l : list A) : list A :=
  match l with
  | [] => []
  | x :: l' => insert comparefn x (sort comparefn l')
  end.

End JSArray.

(* ================================================================== *)
(** * [TimelineTab] *)
(* ================================================================== *)

Module TimelineTab.
Import JS JSArray Supabase.

Inductive EventType : Type :=
| weight
| vaccine
| deworming.

(** [TimelineEvent]; the icon is fixed by [type] and is not represented. *)
Record TimelineEvent : Type := mkEvent {
  id : nat;
  type : EventType;
  date : string;
  title : string;
  description : option string;
  color : string
}.

Section Timeline.

(** The numeric type of the [weight] column and its rendering in a template
    literal. *)
Variable num : Type.
Variable show : num -> string.

(** A row of [weight_history]. *)
Record WeightRow : Type := mkWeightRow {
  w_id : nat;
  w_pet_id : string;
  w_weight : num;
  w_date : string;
  w_notes : option string
}.

Definition weightEvent (record : WeightRow) : TimelineEvent :=
  {| id := w_id record;
     type := weight;
     date := w_date record;
     title := show (w_weight record) ++ " kg";
     description := w_notes record;
     color := "text-blue-600 dark:text-blue-400" |}.

Definition vaccineEvent (record : Vaccine) : TimelineEvent :=
  {| id := v_id record;
     type := vaccine;
     date := v_date record;
     title := vaccine_type record;
     description := v_notes record;
     color := "text-green-600 dark:text-green-400" |}.

Definition dewormingEvent (record : Deworming) : TimelineEvent :=
  {| id := d_id record;
     type := deworming;
     date := d_date record;
     title := deworming_type record;
     description := d_notes record;
     color := "text-orange-600 dark:text-orange-400" |}.

(** The three [forEach] loops: every row pushed in turn. *)
Definition allEvents (weightData : list WeightRow) (vaccineData : list Vaccine)
  (dewormingData : list Deworming) : list TimelineEvent :=
  (map weightEvent weightData ++ map vaccineEvent vaccineData
   ++ map dewormingEvent dewormingData)%list.

(** [(a, b) => new Date(b.date).getTime() - new Date(a.date).getTime()] *)
Definition mostRecentFirst (a b : TimelineEvent) : number :=
  let dateA := newDateFromString (date a) in
  let dateB := newDateFromString (date b) in
  num_sub (getTime dateB) (getTime dateA).

(** [fetchAllEvents], as the new value of the [events] state: without a
    signed-in user the function returns before touching it. *)
Definition fetchAllEvents (user : option string) (weightData : list WeightRow)
  (vaccineData : list Vaccine) (dewormingData : list Deworming)
  (events : list TimelineEvent) : list TimelineEvent :=
  match user with
  | None => events
  | Some _ => sort mostRecentFirst (allEvents weightData vaccineData dewormingData)
  end.

End Timeline.

End TimelineTab.

(* ================================================================== *)
(** * [WeightTab] *)
(* ================================================================== *)

Module WeightTab.
Import JS JSArray.

Section Weights.

(** The numeric type of the weights.  [parseFloat(w.toString())] gives back
    the number it was given and is not represented. *)
Variable num : Type.

Record Pet : Type := mkPet {
  id : string;
  name : string;
  species : string;
  weight : option num;
  created_at : string
}.

Record WeightRecord : Type := mkWeightRecord {
  r_id : string;
  r_pet_id : string;
  r_weight : num;
  r_date : string;
  r_notes : option string;
  r_created_at : string
}.

(** An element of [allWeightRecords]:
    [{ date; weight; isInitial?; id? }]. *)
Record Entry : Type := mkEntry {
  e_date : string;
  e_weight : num;
  isInitial : option bool;
  e_id : option string
}.

(** [timestamp.split('T')[0]] *)
Definition timestampToDateString (timestamp : string) : string :=
  match split "T" timestamp with
  | d :: _ => d
  | [] => EmptyString
  end.

(** [pets.find(p => p.id === selectedPetId)] *)
Definition selectedPet (pets : list Pet) (selectedPetId : string) : option Pet :=
  find (fun p => String.eqb (id p) selectedPetId) pets.

(** The entry pushed by lines 204-215, if any. *)
Definition initialEntry (pets : list Pet) (selectedPetId : string)
  (weightRecords : list WeightRecord) : list Entry :=
  match selectedPet pets selectedPetId with
  | Some pet =>
      match weight pet with
      | Some w =>
          let initialDate := timestampToDateString (created_at pet) in
          let hasRecordOnInitialDate :=
            existsb (fun record => String.eqb (r_date record) initialDate)
                    weightRecords in
          if negb hasRecordOnInitialDate
          then [mkEntry initialDate w (Some true) None]
          else []
      | None => []
      end
  | None => []
  end.

Definition recordEntry (record : WeightRecord) : Entry :=
  mkEntry (r_date record) (r_weight record) (Some false) (Some (r_id record)).

(** [(a, b) => new Date(a.date).getTime() - new Date(b.date).getTime()] *)
Definition oldestFirst (a b : Entry) : number :=
  let dateA := newDateFromString (e_date a) in
  let dateB := newDateFromString (e_date b) in
  num_sub (getTime dateA) (getTime dateB).

(** [allWeightRecords] after the [sort] of line 226. *)
Definition allWeightRecords (pets : list Pet) (selectedPetId : string)
  (weightRecords : list WeightRecord) : list Entry :=
  sort oldestFirst
    (initialEntry pets selectedPetId weightRecords
     ++ map recordEntry weightRecords)%list.

(** A row of the records table (lines 359-420): the card of the initial
    weight, the card of a weight record with its React key, the notes shown
    and the id its delete button passes to [handleDelete], or nothing
    ([return null]). *)
Inductive TableRow : Type :=
| InitialRow (weight : num) (date : string)
| RecordRow (key : string) (weight : num) (date : string)
    (notes : option string) (deleteId : string)
| NoRow.

(** The callback of the [map]:
    [weightRecords.find(wr => wr.date === record.date)] supplies the key, the
    notes and the id to delete; the weight and the date are the entry's. *)
Definition tableRow (weightRecords : list WeightRecord) (record : Entry)
  : TableRow :=
  match isInitial record with
  | Some true => InitialRow (e_weight record) (e_date record)
  | _ =>
      match find (fun wr => String.eqb (r_date wr) (e_date record))
                 weightRecords with
      | Some weightRecord =>
          RecordRow (r_id weightRecord) (e_weight record) (e_date record)
            (r_notes weightRecord) (r_id weightRecord)
      | None => NoRow
      end
  end.

(** [allWeightRecords.slice().reverse().map(...)] *)
Definition table (pets : list Pet) (selectedPetId : string)
  (weightRecords : list WeightRecord) : list TableRow :=
  map (tableRow weightRecords)
      (rev (allWeightRecords pets selectedPetId weightRecords)).

End Weights.

End WeightTab.

(* ================================================================== *)
(** * [CalendarPage] *)
(* ================================================================== *)

Module CalendarPage.
Import JS DateUtil Supabase.

(** A row of [reminders] as the page holds it: its [id] and the stored
    columns.  The array is the result of
    [.eq('user_id', user.id).order('reminder_date', { ascending: true })]. *)
Record Row : Type := mkRow {
  id : string;
  columns : Reminder
}.

(** The page's own [parseDateString], with the body of the tabs' helper. *)
Definition parseDateString (dateString : string) : Date :=
  DateUtil.parseDateString dateString.

(** [markAsCompleted], when the update succeeds:
    [reminders.map(r => r.id === reminderId ? { ...r, completed: true } : r)]. *)
Definition markAsCompleted (reminderId : string) (reminders : list Row)
  : list Row :=
  map (fun r =>
         if String.eqb (id r) reminderId
         then mkRow (id r)
                (mkReminder (user_id (columns r)) (pet_id (columns r))
                   (title (columns r)) (description (columns r))
                   (reminder_date (columns r)) (type (columns r)) true)
         else r)
      reminders.

(** [isSameDay] of date-fns: both dates valid and on the same day. *)
Definition isSameDay (a b : Date) : bool :=
  match a, b with
  | DateAt x, DateAt y => x =? y
  | _, _ => false
  end.

(** [selectedDateReminders] *)
Definition selectedDateReminders (selectedDate : option Date)
  (reminders : list Row) : list Row :=
  match selectedDate with
  | Some selected =>
      filter (fun reminder =>
                isSameDay (parseDateString (reminder_date (columns reminder)))
                          selected)
             reminders
  | None => []
  end.

(** [getDatesWithReminders] *)
Definition getDatesWithReminders (reminders : list Row) : list Date :=
  map (fun reminder => parseDateString (reminder_date (columns reminder)))
      reminders.

(** The filter of [getUpcomingReminders]:
    [reminderDate >= today && !reminder.completed], both dates at midnight. *)
Definition isUpcoming (today : Z) (reminder : Row) : bool :=
  date_le (DateAt today) (parseDateString (reminder_date (columns reminder)))
  && negb (completed (columns reminder)).

(** [getUpcomingReminders]: [reminders.filter(..).slice(0, 5)]. *)
Definition getUpcomingReminders (today : Z) (reminders : list Row)
  : list Row :=
  firstn 5 (filter (isUpcoming today) reminders).

End CalendarPage.

(* ================================================================== *)
(** * Facts about the calendar *)
(* ================================================================== *)

Module CalendarFacts.
Import JS.

Ltac euclid := Z.to_euclidean_division_equations; lia.

Lemma quot4_succ y :
  (y + 1 - 1969) / 4 = (y - 1969) / 4 + (if y mod 4 =? 0 then 1 else 0).
Proof. destruct (Z.eqb_spec (y mod 4) 0); euclid. Qed.

Lemma quot100_succ y :
  (y + 1 - 1901) / 100 = (y - 1901) / 100 + (if y mod 100 =? 0 then 1 else 0).
Proof. destruct (Z.eqb_spec (y mod 100) 0); euclid. Qed.

Lemma quot400_succ y :
  (y + 1 - 1601) / 400 = (y - 1601) / 400 + (if y mod 400 =? 0 then 1 else 0).
Proof. destruct (Z.eqb_spec (y mod 400) 0); euclid. Qed.

Lemma DayFromYear_succ y : DayFromYear (y + 1) = DayFromYear y + DaysInYear y.
Proof.
  unfold DayFromYear, DaysInYear, InLeapYear.
  rewrite quot4_succ, quot100_succ, quot400_succ.
  destruct (Z.eqb_spec (y mod 4) 0), (Z.eqb_spec (y mod 100) 0),
    (Z.eqb_spec (y mod 400) 0); cbn [negb]; try lia; euclid.
Qed.

Lemma DaysInYear_leap y : DaysInYear y = 365 + leap_day y.
Proof. unfold DaysInYear, leap_day. destruct (InLeapYear y); reflexivity. Qed.

Lemma leap_day_range y : 0 <= leap_day y <= 1.
Proof. unfold leap_day. destruct (InLeapYear y); lia. Qed.

Lemma estimate_low d : DayFromYear (1970 + (400 * d) / 146097 - 1) <= d.
Proof. unfold DayFromYear. euclid. Qed.

Lemma estimate_high d : d < DayFromYear (1970 + (400 * d) / 146097 + 2).
Proof. unfold DayFromYear. euclid. Qed.

Lemma YearFromDay_spec d :
  DayFromYear (YearFromDay d) <= d < DayFromYear (YearFromDay d + 1).
Proof.
  unfold YearFromDay.
  pose proof (estimate_low d) as Hlo. pose proof (estimate_high d) as Hhi.
  set (y0 := 1970 + (400 * d) / 146097) in *.
  destruct (Z.leb_spec (DayFromYear (y0 + 1)) d).
  - replace (y0 + 1 + 1) with (y0 + 2) by lia. lia.
  - destruct (Z.leb_spec (DayFromYear y0) d).
    + lia.
    + replace (y0 - 1 + 1) with y0 by lia. lia.
Qed.

Lemma DayWithinYear_range d :
  0 <= DayWithinYear d < 365 + leap_day (YearFromDay d).
Proof.
  unfold DayWithinYear. pose proof (YearFromDay_spec d) as H.
  rewrite DayFromYear_succ, DaysInYear_leap in H. lia.
Qed.

(** The year is the only one whose span contains the day. *)
Lemma YearFromDay_unique d y :
  DayFromYear y <= d < DayFromYear (y + 1) -> YearFromDay d = y.
Proof.
  intros H. pose proof (YearFromDay_spec d) as S.
  assert (mono : forall a b, a <= b -> DayFromYear a <= DayFromYear b).
  { intros a b Hab. unfold DayFromYear. euclid. }
  destruct (Z.lt_trichotomy (YearFromDay d) y) as [L | [E | G]]; [ | exact E | ].
  - pose proof (mono (YearFromDay d + 1) y ltac:(lia)). lia.
  - pose proof (mono (y + 1) (YearFromDay d) ltac:(lia)). lia.
Qed.

Ltac month_cases :=
  repeat match goal with
         | |- context [ if ?a <? ?b then _ else _ ] =>
             destruct (Z.ltb_spec a b)
         end.

Lemma MonthFromDay_range d : 0 <= MonthFromDay d <= 11.
Proof. unfold MonthFromDay. month_cases; lia. Qed.

Lemma DateFromDay_range d : 1 <= DateFromDay d <= 31.
Proof.
  unfold DateFromDay, MonthFromDay.
  pose proof (DayWithinYear_range d). pose proof (leap_day_range (YearFromDay d)).
  month_cases; cbn [MonthStart]; lia.
Qed.

Lemma MakeDay_small y m dt :
  0 <= m <= 11 ->
  MakeDay y m dt = DayFromYear y + MonthStart (leap_day y) m + dt - 1.
Proof.
  intros Hm. unfold MakeDay.
  replace (m / 12) with 0 by euclid. replace (m mod 12) with m by euclid.
  replace (y + 0) with y by lia. reflexivity.
Qed.

(** Year, month and day of the month give the day back. *)
Lemma MakeDay_components d :
  MakeDay (YearFromDay d) (MonthFromDay d) (DateFromDay d) = d.
Proof.
  rewrite MakeDay_small by apply MonthFromDay_range.
  unfold DateFromDay, DayWithinYear. lia.
Qed.

Lemma MakeDay_MonthDay y m dt : MakeDay y m dt = MonthDay (12 * y + m) + dt - 1.
Proof.
  unfold MonthDay, MakeDay.
  replace (0 + (12 * y + m) / 12) with (y + m / 12) by euclid.
  replace ((12 * y + m) mod 12) with (m mod 12) by euclid.
  lia.
Qed.

Lemma MonthDay_split q r :
  0 <= r <= 11 ->
  MonthDay (12 * q + r) = DayFromYear q + MonthStart (leap_day q) r.
Proof.
  intros Hr. unfold MonthDay, MakeDay.
  replace (0 + (12 * q + r) / 12) with q by euclid.
  replace ((12 * q + r) mod 12) with r by euclid.
  lia.
Qed.

Lemma month_index k :
  exists q r, k = 12 * q + r /\
    (r = 0 \/ r = 1 \/ r = 2 \/ r = 3 \/ r = 4 \/ r = 5 \/ r = 6 \/ r = 7 \/
     r = 8 \/ r = 9 \/ r = 10 \/ r = 11).
Proof. exists (k / 12), (k mod 12). euclid. Qed.

Ltac each_month H :=
  repeat (destruct H as [H | H]); subst.

(** A month has 28 to 31 days. *)
Lemma MonthDay_succ k : 28 <= MonthDay (k + 1) - MonthDay k <= 31.
Proof.
  destruct (month_index k) as (q & r & -> & Hr).
  pose proof (leap_day_range q) as Hl.
  pose proof (DayFromYear_succ q) as Hy. rewrite DaysInYear_leap in Hy.
  assert (Hlast : MonthDay (12 * q + 11 + 1) = DayFromYear (q + 1)).
  { replace (12 * q + 11 + 1) with (12 * (q + 1) + 0) by lia.
    rewrite MonthDay_split by lia. cbn [MonthStart]. lia. }
  each_month Hr;
    try (rewrite Hlast, MonthDay_split by lia; cbn [MonthStart]; lia);
    match goal with
    | |- context [ MonthDay (12 * ?y + ?r + 1) ] =>
        let r' := eval compute in (r + 1) in
        replace (12 * y + r + 1) with (12 * y + r') by lia
    end;
    rewrite !MonthDay_split by lia; cbn [MonthStart]; lia.
Qed.

(** Twelve months have 365 or 366 days. *)
Lemma MonthDay_year k : 365 <= MonthDay (k + 12) - MonthDay k <= 366.
Proof.
  destruct (month_index k) as (q & r & -> & Hr).
  pose proof (leap_day_range q) as Hl. pose proof (leap_day_range (q + 1)) as Hl'.
  pose proof (DayFromYear_succ q) as Hy. rewrite DaysInYear_leap in Hy.
  replace (12 * q + r + 12) with (12 * (q + 1) + r) by lia.
  each_month Hr; rewrite !MonthDay_split by lia; cbn [MonthStart]; lia.
Qed.

(** Bounds on a function of the integers whose steps are bounded. *)
Lemma steps_bounded (f : Z -> Z) (lo hi : Z) :
  (forall k, lo <= f (k + 1) - f k <= hi) ->
  forall n, 0 <= n -> forall k, lo * n <= f (k + n) - f k <= hi * n.
Proof.
  intros Hstep n Hn. pattern n. apply natlike_ind; [ | | exact Hn ].
  - intros k. replace (k + 0) with k by lia. lia.
  - intros m Hm IH k. specialize (IH k). specialize (Hstep (k + m)).
    replace (k + Z.succ m) with (k + m + 1) by lia. lia.
Qed.

Lemma MonthDay_months k n :
  0 <= n -> 28 * n <= MonthDay (k + n) - MonthDay k <= 31 * n.
Proof. intros Hn. apply (steps_bounded MonthDay 28 31 MonthDay_succ n Hn k). Qed.

Lemma MonthDay_years k n :
  0 <= n -> 365 * n <= MonthDay (k + 12 * n) - MonthDay k <= 366 * n.
Proof.
  intros Hn.
  pose proof (steps_bounded (fun j => MonthDay (k + 12 * j)) 365 366) as H.
  cbv beta in H.
  assert (Hs : forall j,
             365 <= MonthDay (k + 12 * (j + 1)) - MonthDay (k + 12 * j) <= 366).
  { intros j. replace (k + 12 * (j + 1)) with (k + 12 * j + 12) by lia.
    apply MonthDay_year. }
  specialize (H Hs n Hn 0).
  replace (k + 12 * (0 + n)) with (k + 12 * n) in H by lia.
  replace (k + 12 * 0) with k in H by lia. exact H.
Qed.

(** A day seen from the start of its month. *)
Lemma day_absMonth d : d = MonthDay (absMonth d) + DateFromDay d - 1.
Proof.
  unfold absMonth. rewrite <- MakeDay_MonthDay. symmetry. apply MakeDay_components.
Qed.

(** Moving a day by [n] months: the day moves by the distance between the
    two month starts. *)
Lemma MakeDay_shift_months d n :
  MakeDay (YearFromDay d) (MonthFromDay d + n) (DateFromDay d)
  = d + (MonthDay (absMonth d + n) - MonthDay (absMonth d)).
Proof.
  rewrite MakeDay_MonthDay. pose proof (day_absMonth d) as H.
  unfold absMonth in *.
  replace (12 * YearFromDay d + (MonthFromDay d + n))
    with (12 * YearFromDay d + MonthFromDay d + n) by lia.
  lia.
Qed.

Lemma MakeDay_shift_years d n :
  MakeDay (YearFromDay d + n) (MonthFromDay d) (DateFromDay d)
  = d + (MonthDay (absMonth d + 12 * n) - MonthDay (absMonth d)).
Proof.
  rewrite MakeDay_MonthDay. pose proof (day_absMonth d) as H.
  unfold absMonth in *.
  replace (12 * (YearFromDay d + n) + MonthFromDay d)
    with (12 * YearFromDay d + MonthFromDay d + 12 * n) by lia.
  lia.
Qed.

(** Signed bounds: a forward move of [n] months covers at least [28 n] days,
    a backward one at least as many the other way. *)
Lemma shift_months_forward d n :
  0 < n ->
  d + 28 * n
  <= MakeDay (YearFromDay d) (MonthFromDay d + n) (DateFromDay d)
  <= d + 31 * n.
Proof.
  intros Hn. rewrite MakeDay_shift_months.
  pose proof (MonthDay_months (absMonth d) n ltac:(lia)). lia.
Qed.

Lemma shift_months_backward d n :
  n < 0 ->
  MakeDay (YearFromDay d) (MonthFromDay d + n) (DateFromDay d) <= d + 28 * n.
Proof.
  intros Hn. rewrite MakeDay_shift_months.
  pose proof (MonthDay_months (absMonth d + n) (- n) ltac:(lia)) as H.
  replace (absMonth d + n + - n) with (absMonth d) in H by lia. lia.
Qed.

Lemma shift_years_forward d n :
  0 < n ->
  d + 365 * n
  <= MakeDay (YearFromDay d + n) (MonthFromDay d) (DateFromDay d)
  <= d + 366 * n.
Proof.
  intros Hn. rewrite MakeDay_shift_years.
  pose proof (MonthDay_years (absMonth d) n ltac:(lia)). lia.
Qed.

Lemma shift_years_backward d n :
  n < 0 ->
  MakeDay (YearFromDay d + n) (MonthFromDay d) (DateFromDay d) <= d + 365 * n.
Proof.
  intros Hn. rewrite MakeDay_shift_years.
  pose proof (MonthDay_years (absMonth d + 12 * n) (- n) ltac:(lia)) as H.
  replace (absMonth d + 12 * n + 12 * - n) with (absMonth d) in H by lia. lia.
Qed.

End CalendarFacts.

(* ================================================================== *)
(** * Facts about loops *)
(* ================================================================== *)

Module LoopFacts.
Import JS.

Section While.

Context {S : Type} (cond : S -> bool) (body : S -> S).

Lemma while_more_fuel fuel fuel' s r :
  while fuel cond body s = Some r -> (fuel <= fuel')%nat ->
  while fuel' cond body s = Some r.
Proof.
  revert fuel' s. induction fuel as [ | fuel IH]; intros fuel' s H Hle.
  - cbn in H. destruct (cond s) eqn:E; [discriminate | ].
    destruct fuel'; cbn; rewrite E; exact H.
  - cbn in H. destruct (cond s) eqn:E.
    + destruct fuel' as [ | fuel']; [lia | ]. cbn. rewrite E.
      apply IH; [exact H | lia].
    + destruct fuel'; cbn; rewrite E; exact H.
Qed.

(** What a finished loop returns: the first iterate at which the condition
    fails. *)
Lemma while_result fuel s r :
  while fuel cond body s = Some r ->
  exists k, (k <= fuel)%nat /\ r = Nat.iter k body s /\ cond r = false /\
            forall i, (i < k)%nat -> cond (Nat.iter i body s) = true.
Proof.
  revert s. induction fuel as [ | fuel IH]; intros s H; cbn in H;
    destruct (cond s) eqn:E; try discriminate.
  - injection H as <-. exists 0%nat. repeat split; auto; intros; lia.
  - destruct (IH _ H) as (k & Hk & -> & Hc & Hbefore).
    exists (Datatypes.S k). repeat split.
    + lia.
    + symmetry. apply Nat.iter_succ_r.
    + exact Hc.
    + intros [ | i] Hi; [exact E | ]. rewrite Nat.iter_succ_r. apply Hbefore. lia.
  - injection H as <-. exists 0%nat. repeat split; auto; intros; lia.
Qed.

(** A loop whose body lowers a measure comes to an end. *)
Lemma while_terminates (m : S -> nat) :
  (forall s, cond s = true -> (m (body s) < m s)%nat) ->
  forall fuel s, (m s <= fuel)%nat -> exists r, while fuel cond body s = Some r.
Proof.
  intros Hm fuel. induction fuel as [ | fuel IH]; intros s Hle; cbn;
    destruct (cond s) eqn:E; eauto.
  - specialize (Hm s E). lia.
  - apply IH. specialize (Hm s E). lia.
Qed.

(** A loop whose body leaves the state alone never ends. *)
Lemma while_stuck s :
  cond s = true -> body s = s -> forall fuel, while fuel cond body s = None.
Proof.
  intros Hc Hb fuel. induction fuel as [ | fuel IH]; cbn; rewrite Hc.
  - reflexivity.
  - rewrite Hb. exact IH.
Qed.

End While.

(** The loop that collects one row per date while the date passes a test. *)
Section Collect.

Context {R : Type} (test : Date -> bool) (row : Date -> R) (step : Date -> Date).

Definition collect_cond (st : list R * Date) : bool := test (snd st).

Definition collect_body (st : list R * Date) : list R * Date :=
  ((fst st ++ [row (snd st)])%list, step (snd st)).

Lemma collect_result fuel acc x st :
  while fuel collect_cond collect_body (acc, x) = Some st ->
  exists k,
    fst st = (acc ++ map (fun i => row (Nat.iter i step x)) (seq 0 k))%list /\
    snd st = Nat.iter k step x /\
    test (Nat.iter k step x) = false /\
    forall i, (i < k)%nat -> test (Nat.iter i step x) = true.
Proof.
  revert acc x. induction fuel as [ | fuel IH]; intros acc x H; cbn in H;
    unfold collect_cond in H at 1; cbn [snd] in H;
    destruct (test x) eqn:E; try discriminate.
  - injection H as <-. exists 0%nat. cbn. rewrite app_nil_r.
    repeat split; auto; intros; lia.
  - unfold collect_body in H at 2. cbn [fst snd] in H.
    destruct (IH _ _ H) as (k & Hf & Hs & Ht & Hbefore).
    exists (Datatypes.S k). repeat split.
    + rewrite Hf, <- app_assoc. f_equal. cbn [seq map app]. f_equal.
      rewrite <- seq_shift, map_map. apply map_ext. intros i.
      now rewrite Nat.iter_succ_r.
    + rewrite Hs. symmetry. apply Nat.iter_succ_r.
    + rewrite Nat.iter_succ_r. exact Ht.
    + intros [ | i] Hi; [exact E | ]. rewrite Nat.iter_succ_r. apply Hbefore. lia.
  - injection H as <-. exists 0%nat. cbn. rewrite app_nil_r.
    repeat split; auto; intros; lia.
Qed.

Lemma collect_terminates (m : Date -> nat) :
  (forall d, test d = true -> (m (step d) < m d)%nat) ->
  forall fuel acc x, (m x <= fuel)%nat ->
  exists st, while fuel collect_cond collect_body (acc, x) = Some st.
Proof.
  intros Hm fuel acc x Hle.
  apply (while_terminates collect_cond collect_body (fun st => m (snd st))).
  - intros [l d] Hc. cbn. apply Hm. exact Hc.
  - exact Hle.
Qed.

End Collect.

End LoopFacts.

(* ================================================================== *)
(** * Facts about the cadence steps *)
(* ================================================================== *)

Module StepFacts.
Import JS CalendarFacts LoopFacts.

(** A step moves every valid date strictly forward (or backward) to a date
    within the range of [Date], or makes it invalid; an invalid date stays
    invalid. *)
Definition ascending (step : Date -> Date) : Prop :=
  step InvalidDate = InvalidDate /\
  forall d x, step (DateAt d) = DateAt x -> d < x /\ - maxDay <= x <= maxDay.

Definition descending (step : Date -> Date) : Prop :=
  step InvalidDate = InvalidDate /\
  forall d x, step (DateAt d) = DateAt x -> x < d /\ - maxDay <= x <= maxDay.

Definition up_measure (t : Date) : nat :=
  match t with
  | DateAt x => S (Z.to_nat (maxDay + 1 - x))
  | InvalidDate => 0
  end.

Definition down_measure (t : Date) : nat :=
  match t with
  | DateAt x => S (Z.to_nat (x + maxDay + 1))
  | InvalidDate => 0
  end.

Lemma TimeClip_inv x y :
  TimeClip x = DateAt y -> y = x /\ - maxDay <= x <= maxDay.
Proof.
  unfold TimeClip.
  destruct (Z.leb_spec (- maxDay) x), (Z.leb_spec x maxDay); cbn;
    intros E; inversion E; subst; unfold maxDay in *; lia.
Qed.

Lemma TimeClip_in_range x : - maxDay <= x <= maxDay -> TimeClip x = DateAt x.
Proof.
  intros Hr. unfold TimeClip.
  destruct (Z.leb_spec (- maxDay) x), (Z.leb_spec x maxDay); cbn; auto;
    unfold maxDay in *; lia.
Qed.

Lemma date_lt_valid a b : date_lt a b = true -> exists x, a = DateAt x.
Proof. destruct a; cbn; [eauto | discriminate]. Qed.

Lemma date_le_valid a b : date_le a b = true -> exists x, a = DateAt x.
Proof. destruct a; cbn; [eauto | discriminate]. Qed.

Lemma ascending_measure step :
  ascending step ->
  forall x, (up_measure (step (DateAt x)) < up_measure (DateAt x))%nat.
Proof.
  intros [_ Hs] x. destruct (step (DateAt x)) as [y | ] eqn:E; cbn [up_measure down_measure]; [ | lia].
  destruct (Hs _ _ E). unfold maxDay in *. lia.
Qed.

Lemma descending_measure step :
  descending step ->
  forall x, (down_measure (step (DateAt x)) < down_measure (DateAt x))%nat.
Proof.
  intros [_ Hs] x. destruct (step (DateAt x)) as [y | ] eqn:E; cbn [up_measure down_measure]; [ | lia].
  destruct (Hs _ _ E). unfold maxDay in *. lia.
Qed.

Lemma iter_invalid step k :
  step InvalidDate = InvalidDate -> Nat.iter k step InvalidDate = InvalidDate.
Proof.
  intros H. induction k as [ | k IH]; [reflexivity | ].
  now rewrite Nat.iter_succ, IH.
Qed.

(** Under an ascending step the iterates of a date are in increasing order
    for as long as they are valid. *)
Lemma ascending_iter step k x y :
  ascending step ->
  Nat.iter k step (DateAt x) = DateAt y -> x + Z.of_nat k <= y.
Proof.
  intros [Hi Hs]. revert y. induction k as [ | k IH]; intros y H.
  - cbn in H. inversion H. lia.
  - rewrite Nat.iter_succ in H.
    destruct (Nat.iter k step (DateAt x)) as [z | ] eqn:E.
    + specialize (IH z eq_refl). destruct (Hs _ _ H). lia.
    + rewrite Hi in H. discriminate.
Qed.

(** ** The steps of the two engines *)

Lemma addYears_eq n d :
  VaccineTab.addYears (Some n) (DateAt d)
  = TimeClip (MakeDay (YearFromDay d + n) (MonthFromDay d) (DateFromDay d)).
Proof. reflexivity. Qed.

Lemma addYears_ascending n : 0 < n -> ascending (VaccineTab.addYears (Some n)).
Proof.
  intros Hn. split; [reflexivity | ]. intros d x H. rewrite addYears_eq in H.
  apply TimeClip_inv in H. destruct H as [-> Hr].
  pose proof (shift_years_forward d n Hn). lia.
Qed.

Lemma addYears_descending n : n < 0 -> descending (VaccineTab.addYears (Some n)).
Proof.
  intros Hn. split; [reflexivity | ]. intros d x H. rewrite addYears_eq in H.
  apply TimeClip_inv in H. destruct H as [-> Hr].
  pose proof (shift_years_backward d n Hn). lia.
Qed.

Lemma setMonth_eq n d :
  setMonth (DateAt d) (num_add (getMonth (DateAt d)) (Some n))
  = TimeClip (MakeDay (YearFromDay d) (MonthFromDay d + n) (DateFromDay d)).
Proof. reflexivity. Qed.

Lemma advance_unfold ty v t :
  DewormingTab.advance ty v t
  = if String.eqb ty "months" then setMonth t (num_add (getMonth t) v)
    else if String.eqb ty "year" then VaccineTab.addYears v t
    else t.
Proof. reflexivity. Qed.

Lemma advance_months n t :
  DewormingTab.advance "months" (Some n) t
  = match t with
    | DateAt d =>
        TimeClip (MakeDay (YearFromDay d) (MonthFromDay d + n) (DateFromDay d))
    | InvalidDate => InvalidDate
    end.
Proof.
  rewrite advance_unfold.
  change (String.eqb "months" "months") with true. cbv iota.
  destruct t; [apply setMonth_eq | reflexivity].
Qed.

Lemma advance_year n t :
  DewormingTab.advance "year" (Some n) t = VaccineTab.addYears (Some n) t.
Proof.
  rewrite advance_unfold.
  change (String.eqb "year" "months") with false.
  change (String.eqb "year" "year") with true.
  reflexivity.
Qed.

Lemma advance_ascending ty n :
  0 < n -> ty = "months" \/ ty = "year" ->
  ascending (DewormingTab.advance ty (Some n)).
Proof.
  intros Hn [-> | ->].
  - split; [reflexivity | ]. intros d x H. rewrite advance_months in H.
    apply TimeClip_inv in H. destruct H as [-> Hr].
    pose proof (shift_months_forward d n Hn). lia.
  - destruct (addYears_ascending n Hn) as [Hi Hs].
    split; [reflexivity | ]. intros d x H. rewrite advance_year in H. eauto.
Qed.

Lemma advance_descending ty n :
  n < 0 -> ty = "months" \/ ty = "year" ->
  descending (DewormingTab.advance ty (Some n)).
Proof.
  intros Hn [-> | ->].
  - split; [reflexivity | ]. intros d x H. rewrite advance_months in H.
    apply TimeClip_inv in H. destruct H as [-> Hr].
    pose proof (shift_months_backward d n Hn). lia.
  - destruct (addYears_descending n Hn) as [Hi Hs].
    split; [reflexivity | ]. intros d x H. rewrite advance_year in H. eauto.
Qed.

(** A step of zero years or months gives a date in range back. *)
Lemma addYears_zero d :
  - maxDay <= d <= maxDay -> VaccineTab.addYears (Some 0) (DateAt d) = DateAt d.
Proof.
  intros H. rewrite addYears_eq. replace (YearFromDay d + 0) with (YearFromDay d) by lia.
  rewrite MakeDay_components. now apply TimeClip_in_range.
Qed.

Lemma advance_zero ty d :
  - maxDay <= d <= maxDay -> DewormingTab.advance ty (Some 0) (DateAt d) = DateAt d.
Proof.
  intros H. rewrite advance_unfold.
  destruct (String.eqb ty "months").
  - rewrite setMonth_eq.
    replace (MonthFromDay d + 0) with (MonthFromDay d) by lia.
    rewrite MakeDay_components. now apply TimeClip_in_range.
  - destruct (String.eqb ty "year"); [ | reflexivity].
    exact (addYears_zero d H).
Qed.

End StepFacts.

(* ================================================================== *)
(** * Anniversaries *)
(* ================================================================== *)

Module AnniversaryFacts.
Import JS CalendarFacts StepFacts JSArray.

Ltac next_month :=
  repeat match goal with
         | |- context [ MonthStart ?l (?a + 1) ] =>
             let v := eval compute in (a + 1) in change (a + 1) with v
         | H : context [ MonthStart ?l (?a + 1) ] |- _ =>
             let v := eval compute in (a + 1) in change (a + 1) with v in H
         end;
  cbn [MonthStart] in *.

(** A day of the month never exceeds the length of its month. *)
Lemma DateFromDay_in_month d :
  DateFromDay d <= DaysInMonth (YearFromDay d) (MonthFromDay d).
Proof.
  unfold DaysInMonth, DateFromDay, MonthFromDay.
  pose proof (DayWithinYear_range d). pose proof (leap_day_range (YearFromDay d)).
  month_cases; next_month; lia.
Qed.

(** Year, month and day of the month of a day built from a proper date. *)
Lemma MakeDay_proper y m dt :
  0 <= m <= 11 -> 1 <= dt <= DaysInMonth y m ->
  YearFromDay (MakeDay y m dt) = y /\
  MonthFromDay (MakeDay y m dt) = m /\
  DateFromDay (MakeDay y m dt) = dt.
Proof.
  intros Hm Hdt. rewrite MakeDay_small by exact Hm.
  pose proof (leap_day_range y) as Hl.
  set (d := DayFromYear y + MonthStart (leap_day y) m + dt - 1).
  assert (Hw : MonthStart (leap_day y) m <= d - DayFromYear y
               < MonthStart (leap_day y) (m + 1)).
  { unfold DaysInMonth in Hdt. unfold d. lia. }
  assert (Hy : YearFromDay d = y).
  { apply YearFromDay_unique. rewrite DayFromYear_succ, DaysInYear_leap.
    assert (0 <= MonthStart (leap_day y) m) by
      (assert (C : m = 0 \/ m = 1 \/ m = 2 \/ m = 3 \/ m = 4 \/ m = 5 \/ m = 6 \/
                   m = 7 \/ m = 8 \/ m = 9 \/ m = 10 \/ m = 11) by lia;
       repeat (destruct C as [C | C]); subst; cbn [MonthStart]; lia).
    assert (MonthStart (leap_day y) (m + 1) <= 365 + leap_day y) by
      (assert (C : m = 0 \/ m = 1 \/ m = 2 \/ m = 3 \/ m = 4 \/ m = 5 \/ m = 6 \/
                   m = 7 \/ m = 8 \/ m = 9 \/ m = 10 \/ m = 11) by lia;
       repeat (destruct C as [C | C]); subst; next_month; lia).
    lia. }
  assert (Hmonth : MonthFromDay d = m).
  { unfold MonthFromDay, DayWithinYear. rewrite Hy.
    assert (C : m = 0 \/ m = 1 \/ m = 2 \/ m = 3 \/ m = 4 \/ m = 5 \/ m = 6 \/
                m = 7 \/ m = 8 \/ m = 9 \/ m = 10 \/ m = 11) by lia.
    repeat (destruct C as [C | C]); subst m; next_month; month_cases; lia. }
  repeat split; auto.
  unfold DateFromDay, DayWithinYear. rewrite Hmonth, Hy. unfold d. lia.
Qed.

(** Only February changes length from year to year. *)
Lemma DaysInMonth_other_year y y' m :
  0 <= m <= 11 -> m <> 1 -> DaysInMonth y m = DaysInMonth y' m.
Proof.
  intros Hm H1. unfold DaysInMonth.
  assert (C : m = 0 \/ m = 2 \/ m = 3 \/ m = 4 \/ m = 5 \/ m = 6 \/
              m = 7 \/ m = 8 \/ m = 9 \/ m = 10 \/ m = 11) by lia.
  repeat (destruct C as [C | C]); subst m; next_month; lia.
Qed.

Lemma DaysInMonth_february y : 28 <= DaysInMonth y 1.
Proof.
  unfold DaysInMonth. pose proof (leap_day_range y). next_month. lia.
Qed.

(** Every date but 29 February. *)
Definition plain_date (d : Z) : Prop :=
  ~ (MonthFromDay d = 1 /\ DateFromDay d = 29).

(** Moving a plain date by whole years keeps its month and its day of the
    month. *)
Lemma addYears_anniversary n d x :
  plain_date d ->
  VaccineTab.addYears (Some n) (DateAt d) = DateAt x ->
  YearFromDay x = YearFromDay d + n /\
  MonthFromDay x = MonthFromDay d /\
  DateFromDay x = DateFromDay d.
Proof.
  intros Hp H. rewrite addYears_eq in H. apply TimeClip_inv in H.
  destruct H as [-> _].
  pose proof (MonthFromDay_range d) as Hm.
  pose proof (DateFromDay_range d) as Hd.
  pose proof (DateFromDay_in_month d) as Hlen.
  apply MakeDay_proper; [exact Hm | ].
  split; [lia | ].
  destruct (Z.eq_dec (MonthFromDay d) 1) as [E | E].
  - rewrite E in *. pose proof (DaysInMonth_february (YearFromDay d + n)).
    assert (DaysInMonth (YearFromDay d) 1 <= 29).
    { unfold DaysInMonth. pose proof (leap_day_range (YearFromDay d)).
      next_month. lia. }
    unfold plain_date in Hp. lia.
  - now rewrite (DaysInMonth_other_year _ (YearFromDay d) _ Hm E).
Qed.

Lemma iter_anniversary n k s x :
  plain_date s ->
  Nat.iter k (VaccineTab.addYears (Some n)) (DateAt s) = DateAt x ->
  YearFromDay x = YearFromDay s + Z.of_nat k * n /\
  MonthFromDay x = MonthFromDay s /\
  DateFromDay x = DateFromDay s.
Proof.
  intros Hp. revert x. induction k as [ | k IH]; intros x H.
  - cbn in H. injection H as <-. repeat split. lia.
  - rewrite Nat.iter_succ in H.
    destruct (Nat.iter k (VaccineTab.addYears (Some n)) (DateAt s)) as [z | ];
      [ | discriminate].
    destruct (IH z eq_refl) as (Hy & Hm & Hd).
    assert (Hz : plain_date z) by (unfold plain_date in *; now rewrite Hm, Hd).
    destruct (addYears_anniversary n z x Hz H) as (Hy' & Hm' & Hd').
    repeat split; try congruence. lia.
Qed.

End AnniversaryFacts.

(* ================================================================== *)
(** * Facts about the two recurrence engines *)
(* ================================================================== *)

Module EngineFacts.
Import JS LoopFacts StepFacts Supabase.

(** Both engines find the next occurrence with the same loop; [backlog] is
    that loop for an arbitrary step. *)
Definition backlog (step : Date -> Date) (today : Z) (fuel : nat)
  (start : Date) : option Date :=
  if date_lt start (DateAt today) then
    while fuel (fun next => date_lt next (DateAt today)) step (step start)
  else Some (step start).

Lemma vaccine_next fuel today start fy :
  VaccineTab.nextReminderDate fuel today start fy
  = backlog (VaccineTab.addYears fy) today fuel start.
Proof. reflexivity. Qed.

Lemma deworming_next fuel today start ty v :
  DewormingTab.nextReminderDate fuel today start ty v
  = backlog (DewormingTab.advance ty v) today fuel start.
Proof. reflexivity. Qed.

Section Backlog.

Variable step : Date -> Date.
Variable today : Z.

Lemma backlog_more_fuel fuel fuel' start next :
  backlog step today fuel start = Some next -> (fuel <= fuel')%nat ->
  backlog step today fuel' start = Some next.
Proof.
  unfold backlog. destruct (date_lt start (DateAt today)); [ | auto].
  apply while_more_fuel.
Qed.

Lemma backlog_terminates start :
  ascending step \/ descending step ->
  exists fuel next, backlog step today fuel start = Some next.
Proof.
  intros Hstep. unfold backlog.
  destruct (date_lt start (DateAt today)); [ | exists 0%nat; eauto].
  destruct Hstep as [Hup | Hdown].
  - exists (up_measure (step start)).
    apply (while_terminates _ _ up_measure); [ | lia].
    intros t Ht. destruct (date_lt_valid _ _ Ht) as [x ->].
    now apply ascending_measure.
  - exists (down_measure (step start)).
    apply (while_terminates _ _ down_measure); [ | lia].
    intros t Ht. destruct (date_lt_valid _ _ Ht) as [x ->].
    now apply descending_measure.
Qed.

(** A start before today: the result is the first iterate of the step,
    counted from one, that is not before today. *)
Lemma backlog_past fuel s next :
  s < today ->
  backlog step today fuel (DateAt s) = Some next ->
  exists k, (1 <= k)%nat /\ next = Nat.iter k step (DateAt s) /\
            date_lt next (DateAt today) = false /\
            forall j, (1 <= j < k)%nat ->
                      date_lt (Nat.iter j step (DateAt s)) (DateAt today) = true.
Proof.
  intros Hs. unfold backlog. cbn [date_lt].
  destruct (Z.ltb_spec s today) as [_ | ?]; [ | lia].
  intros H. apply while_result in H. destruct H as (k & _ & -> & Hc & Hb).
  exists (S k). repeat split.
  - lia.
  - symmetry. apply Nat.iter_succ_r.
  - exact Hc.
  - intros [ | j] Hj; [lia | ]. rewrite Nat.iter_succ_r. apply Hb. lia.
Qed.

(** A start today or later: one step, whatever it gives. *)
Lemma backlog_future fuel s :
  today <= s -> backlog step today fuel (DateAt s) = Some (step (DateAt s)).
Proof.
  intros Hs. unfold backlog. cbn [date_lt].
  destruct (Z.ltb_spec s today); [lia | reflexivity].
Qed.

(** Where the next occurrence lies when the step is ascending. *)
Lemma backlog_ascending fuel s next x :
  ascending step ->
  backlog step today fuel (DateAt s) = Some next -> next = DateAt x ->
  s < x /\ (s < today -> today <= x).
Proof.
  intros Hup H ->. destruct (Z.lt_ge_cases s today) as [Hs | Hs].
  - destruct (backlog_past _ _ _ Hs H) as (k & Hk & E & Hc & _).
    symmetry in E. apply (ascending_iter _ _ _ _ Hup) in E.
    cbn [date_lt] in Hc. destruct (Z.ltb_spec x today); [discriminate | lia].
  - rewrite (backlog_future _ _ Hs) in H. injection H as H.
    destruct Hup as [_ Hup]. destruct (Hup _ _ H). lia.
Qed.

End Backlog.

(** ** The vaccine engine *)

Section Vaccine.

Variable today : Z.
Variables petId userId vaccineType : string.
Variable fy : number.

Local Abbreviation step := (VaccineTab.addYears fy).
Local Abbreviation row := (VaccineTab.reminderFor petId userId vaccineType).
Local Abbreviation test := (fun d => date_le d (VaccineTab.maxDate today)).

Lemma vaccine_rows_unfold fuel start :
  VaccineTab.remindersToCreate fuel today petId userId vaccineType start fy
  = (next <- backlog step today fuel start ;;
     st <- while fuel (collect_cond test) (collect_body row step) ([], next) ;;
     Some (fst st)).
Proof. reflexivity. Qed.

(** The rows of a finished run: one per iterate of the step from the next
    occurrence on, for as long as the iterate is within the horizon. *)
Lemma vaccine_rows_spec fuel start rows :
  VaccineTab.remindersToCreate fuel today petId userId vaccineType start fy
  = Some rows ->
  exists next k,
    backlog step today fuel start = Some next /\
    rows = map (fun i => row (Nat.iter i step next)) (seq 0 k) /\
    test (Nat.iter k step next) = false /\
    forall i, (i < k)%nat -> test (Nat.iter i step next) = true.
Proof.
  rewrite vaccine_rows_unfold.
  destruct (backlog step today fuel start) as [next | ]; [ | discriminate].
  destruct (while fuel _ _ _) as [st | ] eqn:E; [ | discriminate].
  intros H. injection H as <-.
  apply collect_result in E. destruct E as (k & Hf & _ & Ht & Hb).
  exists next, k. cbn [app] in Hf. auto.
Qed.

Lemma vaccine_more_fuel fuel fuel' start rows :
  VaccineTab.remindersToCreate fuel today petId userId vaccineType start fy
  = Some rows ->
  (fuel <= fuel')%nat ->
  VaccineTab.remindersToCreate fuel' today petId userId vaccineType start fy
  = Some rows.
Proof.
  rewrite !vaccine_rows_unfold. intros H Hle.
  destruct (backlog step today fuel start) as [next | ] eqn:E1; [ | discriminate].
  rewrite (backlog_more_fuel _ _ _ _ _ _ E1 Hle).
  destruct (while fuel _ _ _) as [st | ] eqn:E2; [ | discriminate].
  rewrite (while_more_fuel _ _ _ _ _ _ E2 Hle). exact H.
Qed.

Lemma vaccine_terminates start :
  ascending step \/ descending step ->
  exists fuel rows,
    VaccineTab.remindersToCreate fuel today petId userId vaccineType start fy
    = Some rows.
Proof.
  intros Hstep.
  destruct (backlog_terminates step today start Hstep) as (f1 & next & H1).
  assert (exists f2 st,
             while f2 (collect_cond test) (collect_body row step) ([], next)
             = Some st) as (f2 & st & H2).
  { destruct Hstep as [Hup | Hdown].
    - exists (up_measure next).
      apply (collect_terminates test row step up_measure); [ | lia].
      intros t Ht. destruct (date_le_valid _ _ Ht) as [x ->].
      now apply ascending_measure.
    - exists (down_measure next).
      apply (collect_terminates test row step down_measure); [ | lia].
      intros t Ht. destruct (date_le_valid _ _ Ht) as [x ->].
      now apply descending_measure. }
  exists (Nat.max f1 f2), (fst st). rewrite vaccine_rows_unfold.
  rewrite (backlog_more_fuel _ _ _ _ _ _ H1 (Nat.le_max_l f1 f2)).
  rewrite (while_more_fuel _ _ _ _ _ _ H2 (Nat.le_max_r f1 f2)).
  reflexivity.
Qed.

End Vaccine.

(** ** The deworming engine *)

Section Deworming.

Variable today : Z.
Variables petId userId dewormingType : string.
Variable ty : string.
Variable fv : number.

Local Abbreviation step := (DewormingTab.advance ty fv).

Lemma deworming_rows_unfold fuel start :
  DewormingTab.remindersToCreate fuel today petId userId dewormingType start
    ty fv
  = (next <- backlog step today fuel start ;;
     Some (if date_le next (DewormingTab.maxDate today)
           then [DewormingTab.reminderFor petId userId dewormingType next]
           else [])).
Proof. reflexivity. Qed.

Lemma deworming_more_fuel fuel fuel' start rows :
  DewormingTab.remindersToCreate fuel today petId userId dewormingType start
    ty fv = Some rows ->
  (fuel <= fuel')%nat ->
  DewormingTab.remindersToCreate fuel' today petId userId dewormingType start
    ty fv = Some rows.
Proof.
  rewrite !deworming_rows_unfold. intros H Hle.
  destruct (backlog step today fuel start) as [next | ] eqn:E1; [ | discriminate].
  rewrite (backlog_more_fuel _ _ _ _ _ _ E1 Hle). exact H.
Qed.

Lemma deworming_terminates start :
  ascending step \/ descending step ->
  exists fuel rows,
    DewormingTab.remindersToCreate fuel today petId userId dewormingType start
      ty fv = Some rows.
Proof.
  intros Hstep.
  destruct (backlog_terminates step today start Hstep) as (f1 & next & H1).
  exists f1. rewrite deworming_rows_unfold, H1. eauto.
Qed.

End Deworming.

End EngineFacts.

(* ================================================================== *)
(** * The recurrence engines: what a run emits *)
(* ================================================================== *)

Module RecurrenceFacts.
Import JS DateUtil LoopFacts StepFacts EngineFacts Supabase.

Lemma maxDate_eq today :
  VaccineTab.maxDate today = VaccineTab.addYears (Some 10) (DateAt today).
Proof. unfold VaccineTab.maxDate, VaccineTab.addYears. reflexivity. Qed.

Lemma maxDate_same today : DewormingTab.maxDate today = VaccineTab.maxDate today.
Proof. unfold DewormingTab.maxDate, VaccineTab.maxDate. reflexivity. Qed.

(** The horizon is 3650 to 3660 days away. *)
Lemma maxDate_day today m :
  VaccineTab.maxDate today = DateAt m -> today + 3650 <= m <= today + 3660.
Proof.
  rewrite maxDate_eq, addYears_eq. intros H. apply TimeClip_inv in H.
  destruct H as [-> _].
  pose proof (CalendarFacts.shift_years_forward today 10 ltac:(lia)). lia.
Qed.

Lemma maxDate_in_range today :
  - maxDay <= today <= maxDay - 3660 ->
  exists m, VaccineTab.maxDate today = DateAt m /\ today + 3650 <= m.
Proof.
  intros H. rewrite maxDate_eq, addYears_eq.
  pose proof (CalendarFacts.shift_years_forward today 10 ltac:(lia)) as B.
  eexists. split; [apply TimeClip_in_range | ]; unfold maxDay in *; lia.
Qed.

(** Every row of a vaccine run carries a valid date within the horizon. *)
Lemma vaccine_rows_in fuel today petId userId label start fy rows r :
  VaccineTab.remindersToCreate fuel today petId userId label start fy
  = Some rows ->
  In r rows ->
  exists next i d,
    backlog (VaccineTab.addYears fy) today fuel start = Some next /\
    Nat.iter i (VaccineTab.addYears fy) next = DateAt d /\
    r = VaccineTab.reminderFor petId userId label (DateAt d) /\
    date_le (DateAt d) (VaccineTab.maxDate today) = true.
Proof.
  intros H Hin. apply vaccine_rows_spec in H.
  destruct H as (next & k & Hn & -> & _ & Hb).
  apply in_map_iff in Hin. destruct Hin as (i & <- & Hi).
  apply in_seq in Hi. specialize (Hb i ltac:(lia)).
  destruct (date_le_valid _ _ Hb) as [d E].
  exists next, i, d. rewrite E in *. auto.
Qed.

Lemma vaccine_rows_head fuel today petId userId label start fy rows r :
  VaccineTab.remindersToCreate fuel today petId userId label start fy
  = Some rows ->
  hd_error rows = Some r ->
  exists d,
    backlog (VaccineTab.addYears fy) today fuel start = Some (DateAt d) /\
    r = VaccineTab.reminderFor petId userId label (DateAt d).
Proof.
  intros H Hhd. apply vaccine_rows_spec in H.
  destruct H as (next & k & Hn & -> & _ & Hb).
  destruct k as [ | k]; [discriminate | ].
  specialize (Hb 0%nat ltac:(lia)). cbn [Nat.iter nat_rect] in Hb.
  destruct (date_le_valid _ _ Hb) as [d ->].
  cbn [seq map hd_error] in Hhd. injection Hhd as <-. eauto.
Qed.

(** With a positive interval the rows are dated after the vaccine, and not
    before today when the vaccine is in the past. *)
Lemma vaccine_rows_after fuel today petId userId label s n rows r :
  0 < n ->
  VaccineTab.remindersToCreate fuel today petId userId label (DateAt s) (Some n)
  = Some rows ->
  In r rows ->
  exists d, r = VaccineTab.reminderFor petId userId label (DateAt d) /\
            s < d /\ (s < today -> today <= d) /\
            date_le (DateAt d) (VaccineTab.maxDate today) = true.
Proof.
  intros Hn H Hin. pose proof (addYears_ascending n Hn) as Hup.
  destruct (vaccine_rows_in _ _ _ _ _ _ _ _ _ H Hin)
    as (next & i & d & Hb & Hi & -> & Hle).
  destruct next as [x | ].
  - pose proof (ascending_iter _ _ _ _ Hup Hi).
    destruct (backlog_ascending _ _ _ _ _ x Hup Hb eq_refl).
    exists d. repeat split; auto; lia.
  - rewrite iter_invalid in Hi by apply Hup. discriminate.
Qed.

(** The scenario of a rabies vaccine of 2019-03-15 repeated every year,
    seen from 2024-06-01 (day 19875). *)
Definition rabies_due_dates : list string :=
  ["2025-03-15"; "2026-03-15"; "2027-03-15"; "2028-03-15"; "2029-03-15";
   "2030-03-15"; "2031-03-15"; "2032-03-15"; "2033-03-15"; "2034-03-15"].

Lemma rabies_rows petId userId fuel :
  (10 <= fuel)%nat ->
  option_map (map reminder_date)
    (VaccineTab.remindersToCreate fuel 19875 petId userId "Rabies"
       (parseDateString "2019-03-15") (Some 1))
  = Some rabies_due_dates.
Proof.
  intros Hle.
  assert (E : exists rows,
             VaccineTab.remindersToCreate 10 19875 petId userId "Rabies"
               (parseDateString "2019-03-15") (Some 1) = Some rows /\
             map reminder_date rows = rabies_due_dates).
  { eexists. split; [vm_compute; reflexivity | vm_compute; reflexivity]. }
  destruct E as (rows & E & Hd).
  rewrite (vaccine_more_fuel _ _ _ _ _ _ _ _ _ E Hle). cbn [option_map].
  now rewrite Hd.
Qed.

End RecurrenceFacts.

(* ================================================================== *)
(** * Facts about [sort] *)
(* ================================================================== *)

Module SortFacts.
Import JS JSArray.

Section Sort.

Context {A : Type} (comparefn : A -> A -> number).

Lemma insert_perm x l : Permutation (x :: l) (insert comparefn x l).
Proof.
  induction l as [ | y l IH]; cbn [insert]; [reflexivity | ].
  destruct (exceeds comparefn x y); [ | reflexivity].
  rewrite perm_swap. now apply perm_skip.
Qed.

(** The result is a rearrangement of the array, whatever the comparator. *)
Lemma sort_perm l : Permutation l (sort comparefn l).
Proof.
  induction l as [ | x l IH]; cbn [sort]; [reflexivity | ].
  rewrite <- insert_perm. now apply perm_skip.
Qed.

(** A comparator that orders by an integer key, smallest first, on the
    elements that satisfy [ok]. *)
Variable key : A -> Z.
Variable ok : A -> Prop.
Hypothesis by_key :
  forall x y, ok x -> ok y -> exceeds comparefn x y = (key y <? key x).

Definition key_le (a b : A) : Prop := key a <= key b.

Lemma insert_sorted x l :
  ok x -> Forall ok l -> StronglySorted key_le l ->
  StronglySorted key_le (insert comparefn x l).
Proof.
  intros Hx Hl Hs. induction l as [ | y l IH]; cbn [insert].
  - repeat constructor.
  - inversion Hl as [ | ? ? Hy Hl']; subst.
    inversion Hs as [ | ? ? Hs' Hall]; subst.
    rewrite (by_key x y Hx Hy). destruct (Z.ltb_spec (key y) (key x)).
    + constructor; [now apply IH | ].
      apply (Permutation_Forall (insert_perm x l)).
      constructor; [unfold key_le; lia | exact Hall].
    + constructor; [exact Hs | ].
      constructor; [unfold key_le; lia | ].
      eapply Forall_impl; [ | exact Hall]. unfold key_le. intros; lia.
Qed.

Lemma sort_ok l : Forall ok l -> Forall ok (sort comparefn l).
Proof. intros H. apply (Permutation_Forall (sort_perm l) H). Qed.

Lemma sort_sorted l : Forall ok l -> StronglySorted key_le (sort comparefn l).
Proof.
  induction l as [ | x l IH]; intros H; cbn [sort]; [constructor | ].
  inversion H; subst. apply insert_sorted; auto using sort_ok.
Qed.

(** Stability: the elements of one key keep their order. *)
Lemma insert_stable k x l :
  ok x -> Forall ok l ->
  filter (fun e => key e =? k) (insert comparefn x l)
  = filter (fun e => key e =? k) (x :: l).
Proof.
  intros Hx Hl. induction l as [ | y l IH]; cbn [insert]; [reflexivity | ].
  inversion Hl as [ | ? ? Hy Hl']; subst.
  rewrite (by_key x y Hx Hy). destruct (Z.ltb_spec (key y) (key x)); [ | reflexivity].
  cbn [filter] in *. rewrite (IH Hl').
  destruct (Z.eqb_spec (key x) k), (Z.eqb_spec (key y) k); try reflexivity; lia.
Qed.

Lemma sort_stable k l :
  Forall ok l ->
  filter (fun e => key e =? k) (sort comparefn l)
  = filter (fun e => key e =? k) l.
Proof.
  induction l as [ | x l IH]; intros H; cbn [sort]; [reflexivity | ].
  inversion H; subst. rewrite insert_stable by auto using sort_ok.
  cbn [filter]. now rewrite IH.
Qed.

End Sort.

End SortFacts.

(* ================================================================== *)
(** * Facts about decimal strings *)
(* ================================================================== *)

Module StringFacts.
Import JS.

Fixpoint all_digits (s : string) : bool :=
  match s with
  | EmptyString => true
  | String c s' =>
      match digit_of_ascii c with
      | Some _ => all_digits s'
      | None => false
      end
  end.

Lemma digit_roundtrip k :
  0 <= k <= 9 -> digit_of_ascii (ascii_of_digit k) = Some k.
Proof.
  intros H.
  assert (C : k = 0 \/ k = 1 \/ k = 2 \/ k = 3 \/ k = 4 \/ k = 5 \/ k = 6 \/
              k = 7 \/ k = 8 \/ k = 9) by lia.
  repeat (destruct C as [C | C]); subst; reflexivity.
Qed.

Lemma digits_fuel_all_digits fuel n acc :
  0 <= n -> all_digits acc = true -> all_digits (digits_fuel fuel n acc) = true.
Proof.
  revert n acc. induction fuel as [ | fuel IH]; intros n acc Hn Hacc;
    cbn [digits_fuel]; [exact Hacc | ].
  assert (Hd : all_digits (String (ascii_of_digit (n mod 10)) acc) = true).
  { cbn [all_digits]. rewrite digit_roundtrip by CalendarFacts.euclid. exact Hacc. }
  destruct (n / 10 =? 0); [exact Hd | ].
  apply IH; [CalendarFacts.euclid | exact Hd].
Qed.

(** Reading the digits of [n] in front of [acc] leaves [n] in the
    accumulator. *)
Lemma digits_fuel_value fuel n acc :
  0 <= n < 2 ^ Z.of_nat fuel ->
  StringToDigits (digits_fuel fuel n acc) 0 = StringToDigits acc n.
Proof.
  revert n acc. induction fuel as [ | fuel IH]; intros n acc Hn;
    cbn [digits_fuel].
  - change (2 ^ Z.of_nat 0) with 1 in Hn. now replace n with 0 by lia.
  - rewrite Nat2Z.inj_succ, Z.pow_succ_r in Hn by lia.
    assert (Hstep : StringToDigits (String (ascii_of_digit (n mod 10)) acc)
                      (n / 10)
                    = StringToDigits acc n).
    { cbn [StringToDigits]. rewrite digit_roundtrip by CalendarFacts.euclid.
      f_equal. CalendarFacts.euclid. }
    destruct (Z.eqb_spec (n / 10) 0) as [E | E].
    + rewrite <- Hstep, E. reflexivity.
    + rewrite IH; [exact Hstep | ].
      set (p := 2 ^ Z.of_nat fuel) in *. CalendarFacts.euclid.
Qed.

Lemma digits_all_digits n : 0 <= n -> all_digits (digits n) = true.
Proof. intros Hn. now apply digits_fuel_all_digits. Qed.

Lemma Number_digits n : 0 <= n -> Number (digits n) = Some n.
Proof.
  intros Hn. unfold Number, digits. rewrite digits_fuel_value; [reflexivity | ].
  split; [exact Hn | ].
  rewrite Nat2Z.inj_succ.
  destruct (Z.eq_dec n 0) as [-> | Hz]; [reflexivity | ].
  rewrite Z2Nat.id by apply Z.log2_nonneg.
  apply Z.log2_spec. lia.
Qed.

Lemma padStart2_all_digits s : all_digits s = true -> all_digits (padStart2 s) = true.
Proof.
  destruct s as [ | c [ | c' s]]; cbn [padStart2]; auto.
Qed.

Lemma Number_padStart2 s : all_digits s = true -> Number (padStart2 s) = Number s.
Proof.
  destruct s as [ | c [ | c' s]]; cbn [padStart2]; auto.
Qed.

(** A run of digits in front of a dash is the first piece of the split. *)
Lemma split_digits_dash s rest :
  all_digits s = true ->
  split "-" (s ++ String "-" rest) = s :: split "-" rest.
Proof.
  induction s as [ | c s IH]; intros H; [reflexivity | ].
  cbn [all_digits] in H. cbn [String.append split].
  destruct (Ascii.eqb_spec c "-") as [-> | _]; [discriminate | ].
  destruct (digit_of_ascii c); [ | discriminate].
  now rewrite IH.
Qed.

Lemma split_digits s : all_digits s = true -> split "-" s = [s].
Proof.
  induction s as [ | c s IH]; intros H; [reflexivity | ].
  cbn [all_digits] in H. cbn [split].
  destruct (Ascii.eqb_spec c "-") as [-> | _]; [discriminate | ].
  destruct (digit_of_ascii c); [ | discriminate].
  now rewrite IH.
Qed.

End StringFacts.

(* ================================================================== *)
(** * Claims about the recurrence engines *)
(* ================================================================== *)

Import JS JSArray DateUtil Supabase.
Import LoopFacts StepFacts AnniversaryFacts EngineFacts RecurrenceFacts.
Import SortFacts StringFacts.

(** C1, as the code behaves.  For the vaccine "Rabies" given on 2019-03-15
    and repeated every year, with today fixed at 2024-06-01, the vaccine
    engine emits the ten due dates 2025-03-15, 2026-03-15, ..., 2034-03-15,
    in that order, as soon as it is given ten iterations or more: the series
    runs to ten years from today, not to ten years from the vaccine. *)
Theorem C1_rabies_scenario_emits_ten_due_dates :
  forall (petId userId : string) (extra : nat),
    parseDateString "2024-06-01" = DateAt 19875 /\
    option_map (map reminder_date)
      (VaccineTab.remindersToCreate (10 + extra) 19875 petId userId "Rabies"
         (parseDateString "2019-03-15") (Some 1))
    = Some ["2025-03-15"; "2026-03-15"; "2027-03-15"; "2028-03-15";
            "2029-03-15"; "2030-03-15"; "2031-03-15"; "2032-03-15";
            "2033-03-15"; "2034-03-15"].
Proof.
  intros petId userId extra. split; [reflexivity | ].
  apply rabies_rows. lia.
Qed.

(** C1 as stated fails: no run of the engine on the scenario returns the
    five due dates 2025-03-15 ... 2029-03-15 as its whole output. *)
Lemma C1_five_due_dates_refuted :
  ~ exists fuel,
      option_map (map reminder_date)
        (VaccineTab.remindersToCreate fuel 19875 "pet" "user" "Rabies"
           (parseDateString "2019-03-15") (Some 1))
      = Some ["2025-03-15"; "2026-03-15"; "2027-03-15"; "2028-03-15";
              "2029-03-15"].
Proof.
  intros [fuel H].
  destruct (VaccineTab.remindersToCreate fuel 19875 "pet" "user" "Rabies"
              (parseDateString "2019-03-15") (Some 1)) as [rows | ] eqn:E;
    [ | discriminate].
  pose proof (rabies_rows "pet" "user" (fuel + 10) ltac:(lia)) as R.
  rewrite (vaccine_more_fuel _ _ _ _ _ _ (fuel + 10) _ _ E ltac:(lia)) in R.
  cbn [option_map] in H, R. rewrite H in R. discriminate.
Qed.

Lemma DaysInMonth_min y m : 0 <= m <= 11 -> 28 <= DaysInMonth y m.
Proof.
  intros Hm. destruct (Z.eq_dec m 1) as [-> | H1].
  - apply AnniversaryFacts.DaysInMonth_february.
  - rewrite (AnniversaryFacts.DaysInMonth_other_year y 1970 m Hm H1).
    assert (C : m = 0 \/ m = 2 \/ m = 3 \/ m = 4 \/ m = 5 \/ m = 6 \/
                m = 7 \/ m = 8 \/ m = 9 \/ m = 10 \/ m = 11) by lia.
    repeat (destruct C as [C | C]); subst m; vm_compute; discriminate.
Qed.

Lemma MakeDay_carry y m dt :
  MakeDay y m dt = MakeDay (y + m / 12) (m mod 12) dt.
Proof.
  rewrite (CalendarFacts.MakeDay_small (y + m / 12) (m mod 12))
    by CalendarFacts.euclid.
  reflexivity.
Qed.

(** One step of [n] months from a day of the month that every month has. *)
Lemma advance_months_anniversary n d x :
  DateFromDay d <= 28 ->
  DewormingTab.advance "months" (Some n) (DateAt d) = DateAt x ->
  absMonth x = absMonth d + n /\ DateFromDay x = DateFromDay d.
Proof.
  intros Hd H. rewrite advance_months in H. apply TimeClip_inv in H.
  destruct H as [-> _].
  pose proof (CalendarFacts.MonthFromDay_range d) as Hm.
  pose proof (CalendarFacts.DateFromDay_range d) as Hdt.
  rewrite MakeDay_carry.
  set (q := (MonthFromDay d + n) / 12). set (r := (MonthFromDay d + n) mod 12).
  assert (Hr : 0 <= r <= 11) by (unfold r; CalendarFacts.euclid).
  pose proof (DaysInMonth_min (YearFromDay d + q) r Hr) as Hlen.
  destruct (AnniversaryFacts.MakeDay_proper (YearFromDay d + q) r
              (DateFromDay d) Hr ltac:(lia)) as (Ey & Em & Edt).
  split; [ | exact Edt]. unfold absMonth. rewrite Ey, Em.
  unfold q, r. CalendarFacts.euclid.
Qed.

Lemma iter_months_anniversary n k s x :
  DateFromDay s <= 28 ->
  Nat.iter k (DewormingTab.advance "months" (Some n)) (DateAt s) = DateAt x ->
  absMonth x = absMonth s + Z.of_nat k * n /\ DateFromDay x = DateFromDay s.
Proof.
  intros Hs. revert x. induction k as [ | k IH]; intros x H.
  - cbn in H. injection H as <-. split; [lia | reflexivity].
  - rewrite Nat.iter_succ in H.
    destruct (Nat.iter k (DewormingTab.advance "months" (Some n)) (DateAt s))
      as [z | ] eqn:E.
    + destruct (IH z eq_refl) as [Hm Hd].
      destruct (advance_months_anniversary n z x ltac:(lia) H) as [Hm' Hd'].
      split; [lia | congruence].
    + rewrite advance_months in H. discriminate.
Qed.

(** One deworming step forward, with the distance it covers. *)
Lemma advance_forward ty n p :
  0 < n -> ty = "months" \/ ty = "year" ->
  exists raw,
    DewormingTab.advance ty (Some n) (DateAt p) = TimeClip raw /\
    p < raw /\
    (ty = "months" -> raw <= p + 31 * n) /\
    (ty = "year" -> raw <= p + 366 * n).
Proof.
  intros Hn [-> | ->].
  - rewrite advance_months.
    pose proof (CalendarFacts.shift_months_forward p n Hn).
    eexists. split; [reflexivity | ]. repeat split; intros; try discriminate; lia.
  - rewrite advance_year, addYears_eq.
    pose proof (CalendarFacts.shift_years_forward p n Hn).
    eexists. split; [reflexivity | ]. repeat split; intros; try discriminate; lia.
Qed.

(** The next occurrence lies strictly before the horizon day when the care
    event is not dated more than 300 days ahead and one step covers at most
    3348 days (nine years, or 108 months). *)
Lemma next_before_horizon step fuel today s next :
  ascending step ->
  (forall p, exists raw,
      step (DateAt p) = TimeClip raw /\ p < raw <= p + 3348) ->
  - maxDay <= s -> s <= today + 300 -> - maxDay <= today <= maxDay - 3660 ->
  backlog step today fuel (DateAt s) = Some next ->
  exists x m,
    next = DateAt x /\ VaccineTab.maxDate today = DateAt m /\ x < m.
Proof.
  intros Hup Hreach Hlo Hs Htoday Hb.
  (* the occurrence just before the one returned *)
  assert (Hprev : exists p, - maxDay <= p /\ p <= today + 300 /\
                            next = step (DateAt p)).
  { destruct (Z.lt_ge_cases s today) as [Hpast | Hfut].
    - destruct (backlog_past _ _ _ _ _ Hpast Hb) as (k & Hk & E & _ & Hbefore).
      destruct k as [ | k]; [lia | ]. rewrite Nat.iter_succ in E.
      destruct k as [ | k].
      + exists s. cbn [Nat.iter nat_rect] in E. repeat split; auto; lia.
      + specialize (Hbefore (S k) ltac:(lia)).
        destruct (date_lt_valid _ _ Hbefore) as [p Hp].
        pose proof (ascending_iter _ _ _ _ Hup Hp).
        rewrite Hp in Hbefore, E. cbn [date_lt] in Hbefore.
        apply Z.ltb_lt in Hbefore.
        exists p. repeat split; auto; lia.
    - rewrite (backlog_future _ _ _ _ Hfut) in Hb. injection Hb as <-.
      exists s. repeat split; auto; lia. }
  destruct Hprev as (p & Hp1 & Hp2 & ->).
  destruct (Hreach p) as (raw & E & Hraw).
  destruct (maxDate_in_range today ltac:(unfold maxDay in *; lia))
    as (m & Em & Hmm).
  exists raw, m. split; [ | split; [exact Em | lia]].
  rewrite E. apply TimeClip_in_range. unfold maxDay in *. lia.
Qed.

Lemma addYears_reach n p :
  0 < n <= 9 ->
  exists raw,
    VaccineTab.addYears (Some n) (DateAt p) = TimeClip raw /\
    p < raw <= p + 3348.
Proof.
  intros Hn. rewrite addYears_eq.
  pose proof (CalendarFacts.shift_years_forward p n ltac:(lia)).
  eexists. split; [reflexivity | lia].
Qed.

Lemma advance_reach ty n p :
  0 < n -> (ty = "months" /\ n <= 108) \/ (ty = "year" /\ n <= 9) ->
  exists raw,
    DewormingTab.advance ty (Some n) (DateAt p) = TimeClip raw /\
    p < raw <= p + 3348.
Proof.
  intros Hn Hty.
  assert (Hunit : ty = "months" \/ ty = "year") by tauto.
  destruct (advance_forward ty n p Hn Hunit) as (raw & E & Hraw & Hm & Hy).
  exists raw. split; [exact E | ].
  destruct Hty as [[Ht ?] | [Ht ?]]; [specialize (Hm Ht) | specialize (Hy Ht)];
    lia.
Qed.

(** ** The first due date

    [first_due step today s next]: [next] is the occurrence both engines
    look for from a care event of day [s].  For a care event before today it
    is the date reached by the least number [k >= 1] of steps that is not
    before today; for a care event of today or later it is one step after
    the care event.  When it is a valid date it is later than the care event
    and not before today. *)
Definition first_due (step : Date -> Date) (today s : Z) (next : Date)
  : Prop :=
  (s < today ->
   exists k, (1 <= k)%nat /\
     next = Nat.iter k step (DateAt s) /\
     date_lt next (DateAt today) = false /\
     forall j, (1 <= j < k)%nat ->
       date_lt (Nat.iter j step (DateAt s)) (DateAt today) = true) /\
  (today <= s -> next = step (DateAt s)) /\
  (forall x, next = DateAt x -> s < x /\ today <= x).

Lemma backlog_first_due step today fuel s next :
  ascending step ->
  backlog step today fuel (DateAt s) = Some next ->
  first_due step today s next.
Proof.
  intros Hup Hb. split; [ | split].
  - intros Hs. now apply (backlog_past _ _ fuel).
  - intros Hs. rewrite (backlog_future _ _ _ _ Hs) in Hb. now injection Hb.
  - intros x Hx.
    destruct (backlog_ascending _ _ _ _ _ x Hup Hb Hx) as [Hsx Htx].
    split; [exact Hsx | ]. destruct (Z.lt_ge_cases s today); [auto | lia].
Qed.

(** [first_emitted today s next row rows]: the first row of [rows], if
    there is one, is the row of [next]; there is one whenever [next] falls
    before the horizon day; and every row is dated after the care event and
    not before today. *)
Definition first_emitted (today s : Z) (next : Date) (row : Date -> Reminder)
  (rows : list Reminder) : Prop :=
  (forall r, hd_error rows = Some r ->
     r = row next /\ reminder_date r = formatDateString next) /\
  (forall x m,
     next = DateAt x -> VaccineTab.maxDate today = DateAt m -> x < m ->
     hd_error rows = Some (row next)) /\
  (forall r, In r rows ->
     exists d, r = row (DateAt d) /\
               reminder_date r = formatDateString (DateAt d) /\
               s < d /\ today <= d).

Lemma vaccine_first_emitted fuel today s n petId userId label next rows :
  0 < n ->
  backlog (VaccineTab.addYears (Some n)) today fuel (DateAt s) = Some next ->
  VaccineTab.remindersToCreate fuel today petId userId label (DateAt s) (Some n)
  = Some rows ->
  first_emitted today s next (VaccineTab.reminderFor petId userId label) rows.
Proof.
  intros Hn Hb H. split; [ | split].
  - intros r Hr.
    destruct (vaccine_rows_head _ _ _ _ _ _ _ _ _ H Hr) as (d & Hb' & ->).
    rewrite Hb in Hb'. injection Hb' as ->. split; reflexivity.
  - intros x m -> Em Hlt.
    destruct (vaccine_rows_spec _ _ _ _ _ _ _ _ H)
      as (next' & k & Hb' & -> & Hstop & _).
    rewrite Hb in Hb'. injection Hb' as <-.
    destruct k as [ | k]; [ | reflexivity].
    cbn [Nat.iter nat_rect] in Hstop. rewrite Em in Hstop. cbn [date_le] in Hstop.
    apply Z.leb_gt in Hstop. lia.
  - intros r Hr.
    destruct (vaccine_rows_after _ _ _ _ _ _ _ _ _ Hn H Hr)
      as (d & -> & Hs & Ht & _).
    exists d. split; [reflexivity | ]. split; [reflexivity | ].
    split; [exact Hs | ]. destruct (Z.lt_ge_cases s today); [auto | lia].
Qed.

Lemma deworming_first_emitted fuel today s ty n petId userId label next :
  0 < n -> ty = "months" \/ ty = "year" ->
  backlog (DewormingTab.advance ty (Some n)) today fuel (DateAt s) = Some next ->
  first_emitted today s next (DewormingTab.reminderFor petId userId label)
    (if date_le next (DewormingTab.maxDate today)
     then [DewormingTab.reminderFor petId userId label next]
     else []).
Proof.
  intros Hn Hty Hb.
  pose proof (advance_ascending ty n Hn Hty) as Hup.
  destruct (backlog_first_due _ _ _ _ _ Hup Hb) as (_ & _ & Hafter).
  split; [ | split].
  - intros r Hr. destruct (date_le next (DewormingTab.maxDate today));
      [ | discriminate].
    cbn [hd_error] in Hr. injection Hr as <-. split; reflexivity.
  - intros x m -> Em Hlt. rewrite maxDate_same, Em. cbn [date_le].
    destruct (Z.leb_spec x m); [reflexivity | lia].
  - intros r Hr.
    destruct (date_le next (DewormingTab.maxDate today)) eqn:Hle;
      [ | destruct Hr].
    destruct Hr as [<- | []]. destruct (date_le_valid _ _ Hle) as [d ->].
    exists d. split; [reflexivity | ]. split; [reflexivity | ].
    now apply Hafter.
Qed.

(** ** [start + k·interval], in the words of the specification

    The care-event date moved by [k * interval] calendar years at once. *)
Definition start_plus (start : Date) (k : nat) (interval : Z) : Date :=
  VaccineTab.addYears (Some (Z.of_nat k * interval)) start.

(** C2 as stated fails for a vaccine given on 29 February.  For a yearly
    vaccine of 2020-02-29 seen from 2024-02-15, the smallest
    [start + k·interval] on or after today is 2024-02-29 ([k = 4]); the code
    steps 2021-03-01, 2022-03-01, 2023-03-01, 2024-03-01 and emits
    2024-03-01 first. *)
Lemma C2_leap_day_start_is_not_start_plus_k_intervals :
  ~ (forall rows r,
       VaccineTab.remindersToCreate 20 19768 "pet" "user" "Rabies"
         (parseDateString "2020-02-29") (Some 1) = Some rows ->
       hd_error rows = Some r ->
       exists k,
         (1 <= k)%nat /\
         reminder_date r
         = formatDateString (start_plus (parseDateString "2020-02-29") k 1) /\
         date_lt (start_plus (parseDateString "2020-02-29") k 1) (DateAt 19768)
         = false /\
         forall j, (1 <= j < k)%nat ->
           date_lt (start_plus (parseDateString "2020-02-29") j 1)
                   (DateAt 19768) = true).
Proof.
  intros H.
  assert (E : exists rows r,
             VaccineTab.remindersToCreate 20 19768 "pet" "user" "Rabies"
               (parseDateString "2020-02-29") (Some 1) = Some rows /\
             hd_error rows = Some r /\
             reminder_date r = "2024-03-01").
  { eexists. eexists. split; [vm_compute; reflexivity | ].
    split; [vm_compute; reflexivity | vm_compute; reflexivity]. }
  destruct E as (rows & r & E1 & E2 & E3).
  destruct (H rows r E1 E2) as (k & Hk & Hdate & Hnot & Hmin).
  rewrite E3 in Hdate.
  destruct k as [ | [ | [ | [ | [ | k]]]]].
  - lia.
  - vm_compute in Hnot. discriminate Hnot.
  - vm_compute in Hnot. discriminate Hnot.
  - vm_compute in Hnot. discriminate Hnot.
  - vm_compute in Hdate. discriminate Hdate.
  - specialize (Hmin 4%nat ltac:(lia)). vm_compute in Hmin. discriminate Hmin.
Qed.

(** C2, as the code behaves.  For a vaccine or a deworming with recurrence
    enabled and a positive interval the run comes to an end, and:
    - if the care event is dated before today, the first due date is the
      date reached from it by [k >= 1] interval steps, [k] being the least
      number of steps that reaches today or later (the dates reached by
      fewer steps are before today and none of them is emitted);
    - if the care event is dated today or later, the first due date is one
      interval step after it;
    - the first due date is the first Reminder emitted, and it is emitted
      whenever it falls before the horizon day, which is the case for every
      care event dated no more than 300 days ahead with an interval of at
      most 9 years or 108 months;
    - no emitted due date is the date of the care event: all are later, and
      none is before today;
    - an interval step is the code's [setFullYear(getFullYear() + n)] or
      [setMonth(getMonth() + n)]: [k] yearly steps from a date other than
      29 February give the same day and month [k * n] years later, and [k]
      monthly steps from the 1st to the 28th give the same day of the month
      [k * n] months later. *)
Theorem C2_first_due_date_after_backlog :
  forall (today s n : Z) (petId userId label ty : string),
    0 < n -> ty = "months" \/ ty = "year" ->
    exists (fuel : nat) (vnext dnext : Date) (vrows drows : list Reminder),
      (forall fuel', (fuel <= fuel')%nat ->
         VaccineTab.remindersToCreate fuel' today petId userId label
           (DateAt s) (Some n) = Some vrows /\
         DewormingTab.remindersToCreate fuel' today petId userId label
           (DateAt s) ty (Some n) = Some drows) /\
      first_due (VaccineTab.addYears (Some n)) today s vnext /\
      first_due (DewormingTab.advance ty (Some n)) today s dnext /\
      first_emitted today s vnext (VaccineTab.reminderFor petId userId label)
        vrows /\
      first_emitted today s dnext (DewormingTab.reminderFor petId userId label)
        drows /\
      (List.length drows <= 1)%nat /\
      (- maxDay <= s <= today + 300 -> - maxDay <= today <= maxDay - 3660 ->
       (n <= 9 ->
        exists x,
          vnext = DateAt x /\
          hd_error vrows
          = Some (VaccineTab.reminderFor petId userId label (DateAt x))) /\
       ((ty = "months" /\ n <= 108) \/ (ty = "year" /\ n <= 9) ->
        exists x,
          dnext = DateAt x /\
          drows = [DewormingTab.reminderFor petId userId label (DateAt x)])) /\
      (forall k x,
         plain_date s ->
         Nat.iter k (VaccineTab.addYears (Some n)) (DateAt s) = DateAt x ->
         YearFromDay x = YearFromDay s + Z.of_nat k * n /\
         MonthFromDay x = MonthFromDay s /\
         DateFromDay x = DateFromDay s) /\
      (forall d,
         DewormingTab.advance "year" (Some n) d
         = VaccineTab.addYears (Some n) d) /\
      (forall k x,
         DateFromDay s <= 28 ->
         Nat.iter k (DewormingTab.advance "months" (Some n)) (DateAt s)
         = DateAt x ->
         absMonth x = absMonth s + Z.of_nat k * n /\
         DateFromDay x = DateFromDay s).
Proof.
  intros today s n petId userId label ty Hn Hty.
  pose proof (addYears_ascending n Hn) as Hvup.
  pose proof (advance_ascending ty n Hn Hty) as Hdup.
  destruct (vaccine_terminates today petId userId label (Some n) (DateAt s)
              (or_introl Hvup)) as (f1 & vrows & Hv).
  destruct (backlog_terminates (DewormingTab.advance ty (Some n)) today
              (DateAt s) (or_introl Hdup)) as (f2 & dnext & Hd).
  destruct (vaccine_rows_spec _ _ _ _ _ _ _ _ Hv) as (vnext & _ & Hvb & _).
  set (drows := if date_le dnext (DewormingTab.maxDate today)
                then [DewormingTab.reminderFor petId userId label dnext]
                else []).
  exists (Nat.max f1 f2), vnext, dnext, vrows, drows.
  split; [ | split; [ | split; [ | split; [ | split; [ | split; [ | split]]]]]].
  - intros fuel' Hle. split.
    + apply (vaccine_more_fuel _ _ _ _ _ f1); [exact Hv | lia].
    + rewrite deworming_rows_unfold.
      rewrite (backlog_more_fuel _ _ f2 fuel' _ _ Hd) by lia. reflexivity.
  - apply (backlog_first_due _ _ _ _ _ Hvup Hvb).
  - apply (backlog_first_due _ _ _ _ _ Hdup Hd).
  - apply (vaccine_first_emitted _ _ _ _ _ _ _ _ _ Hn Hvb Hv).
  - apply (deworming_first_emitted _ _ _ _ _ _ _ _ _ Hn Hty Hd).
  - unfold drows. destruct (date_le _ _); cbn; lia.
  - intros Hs Htoday. split.
    + intros Hn9.
      destruct (next_before_horizon _ _ _ _ _ Hvup
                  (fun p => addYears_reach n p (conj Hn Hn9))
                  (proj1 Hs) (proj2 Hs) Htoday Hvb) as (x & m & Ex & Em & Hlt).
      exists x. split; [exact Ex | ].
      destruct (vaccine_first_emitted _ _ _ _ _ _ _ _ _ Hn Hvb Hv)
        as (_ & Hemit & _).
      rewrite <- Ex. apply (Hemit x m Ex Em Hlt).
    + intros Hbound.
      destruct (next_before_horizon _ _ _ _ _ Hdup
                  (fun p => advance_reach ty n p Hn Hbound)
                  (proj1 Hs) (proj2 Hs) Htoday Hd) as (x & m & Ex & Em & Hlt).
      exists x. split; [exact Ex | ].
      unfold drows. rewrite Ex, maxDate_same, Em. cbn [date_le].
      destruct (Z.leb_spec x m); [reflexivity | lia].
  - split; [ | split].
    + intros k x Hp Hk. apply (iter_anniversary _ _ _ _ Hp Hk).
    + intros d. apply advance_year.
    + intros k x Hs Hk. apply (iter_months_anniversary _ _ _ _ Hs Hk).
Qed.

Lemma C2_first_due_date_after_backlog_witness :
  0 < 1 /\ ("months" = "months" \/ "months" = "year") /\
  exists (fuel : nat) (vrows drows : list Reminder) (r : Reminder),
    (forall fuel', (fuel <= fuel')%nat ->
       VaccineTab.remindersToCreate fuel' 19875 "pet" "user" "Rabies"
         (DateAt 17970) (Some 1) = Some vrows /\
       DewormingTab.remindersToCreate fuel' 19875 "pet" "user" "Rabies"
         (DateAt 17970) "months" (Some 1) = Some drows) /\
    hd_error vrows = Some r /\
    reminder_date r = "2025-03-15" /\
    map reminder_date drows = ["2024-06-15"].
Proof.
  split; [lia | ]. split; [left; reflexivity | ].
  destruct (C2_first_due_date_after_backlog 19875 17970 1 "pet" "user"
              "Rabies" "months" ltac:(lia) (or_introl eq_refl))
    as (fuel & vnext & dnext & vrows & drows & Hrun & _ & _ & _ & _ & _ & Hin
        & _).
  assert (Hs : - maxDay <= 17970 <= 19875 + 300) by (unfold maxDay; lia).
  assert (Ht : - maxDay <= 19875 <= maxDay - 3660) by (unfold maxDay; lia).
  assert (H9 : 1 <= 9) by lia.
  assert (H108 : ("months" = "months" /\ 1 <= 108)
                 \/ ("months" = "year" /\ 1 <= 9))
    by (left; split; [reflexivity | lia]).
  destruct (Hin Hs Ht) as [Hv Hd].
  destruct (Hv H9) as (x & _ & Hhead).
  destruct (Hd H108) as (y & _ & Hrows).
  assert (E : exists vrows0 drows0,
             VaccineTab.remindersToCreate 100 19875 "pet" "user" "Rabies"
               (DateAt 17970) (Some 1) = Some vrows0 /\
             DewormingTab.remindersToCreate 100 19875 "pet" "user" "Rabies"
               (DateAt 17970) "months" (Some 1) = Some drows0 /\
             option_map reminder_date (hd_error vrows0) = Some "2025-03-15" /\
             map reminder_date drows0 = ["2024-06-15"]).
  { eexists. eexists. split; [vm_compute; reflexivity | ].
    split; [vm_compute; reflexivity | ].
    split; [vm_compute; reflexivity | vm_compute; reflexivity]. }
  destruct E as (vrows0 & drows0 & E1 & E2 & E3 & E4).
  destruct (Hrun (Nat.max fuel 100) (Nat.le_max_l _ _)) as [R1 R2].
  rewrite (vaccine_more_fuel _ _ _ _ _ 100%nat (Nat.max fuel 100) _ _ E1
             (Nat.le_max_r _ _)) in R1.
  rewrite (deworming_more_fuel _ _ _ _ _ _ 100%nat (Nat.max fuel 100) _ _ E2
             (Nat.le_max_r _ _)) in R2.
  injection R1 as ->. injection R2 as ->.
  exists fuel, vrows, drows,
    (VaccineTab.reminderFor "pet" "user" "Rabies" (DateAt x)).
  split; [exact Hrun | ]. split; [exact Hhead | ].
  rewrite Hhead in E3. cbn [option_map] in E3. injection E3 as E3.
  split; [exact E3 | exact E4].
Defined.

(** The reminders table after the steps of an edit or a delete. *)
Lemma reminders_delete petId tp dp db :
  reminders (delete_reminders petId tp dp db)
  = filter (fun r => negb (selected petId tp dp r)) (reminders db).
Proof. reflexivity. Qed.

Lemma parsed_date_nonempty d s :
  parseDateString d = DateAt s -> VaccineTab.is_empty d = false.
Proof.
  destruct d; [ | reflexivity]. intros H. vm_compute in H. discriminate H.
Qed.

Lemma truthy_positive n : 0 < n -> truthy (Some n) = true.
Proof.
  intros Hn. cbn [truthy]. destruct (Z.eqb_spec n 0); [lia | reflexivity].
Qed.

(** C3 as stated fails: a run need not emit a Reminder.  A deworming dated
    2029-01-01, recorded on 2024-06-01 with the cadence [6-months] of the
    form (stored as six years), has its next occurrence on 2035-01-01,
    beyond the horizon of 2034-06-01, and the run emits nothing; so does a
    deworming dated 2034-01-01 with the cadence [1-year]. *)
Lemma C3_occurrence_beyond_the_horizon_emits_nothing :
  ~ (forall fuel db,
       DewormingTab.handleSubmit fuel 19875 "pet" (Some "user")
         (DewormingTab.mkForm "Drontal" "2029-01-01" "" true "6-months")
         empty_db = Some db ->
       List.length (reminders db) = 1%nat) /\
  ~ (forall fuel db,
       DewormingTab.handleSubmit fuel 19875 "pet" (Some "user")
         (DewormingTab.mkForm "Drontal" "2034-01-01" "" true "1-year")
         empty_db = Some db ->
       List.length (reminders db) = 1%nat).
Proof.
  split.
  - intros H.
    assert (E : exists db,
               DewormingTab.handleSubmit 20 19875 "pet" (Some "user")
                 (DewormingTab.mkForm "Drontal" "2029-01-01" "" true "6-months")
                 empty_db = Some db /\
               reminders db = []).
    { eexists. split; [vm_compute; reflexivity | vm_compute; reflexivity]. }
    destruct E as (db & E1 & E2). specialize (H _ _ E1).
    rewrite E2 in H. discriminate H.
  - intros H.
    assert (E : exists db,
               DewormingTab.handleSubmit 20 19875 "pet" (Some "user")
                 (DewormingTab.mkForm "Drontal" "2034-01-01" "" true "1-year")
                 empty_db = Some db /\
               reminders db = []).
    { eexists. split; [vm_compute; reflexivity | vm_compute; reflexivity]. }
    destruct E as (db & E1 & E2). specialize (H _ _ E1).
    rewrite E2 in H. discriminate H.
Qed.

(** C3, as the code behaves.  A run of the deworming recurrence with a
    positive interval in months or years comes to an end and emits at most
    one Reminder, never the series: the next occurrence (the first step from
    the deworming date that is not before today when that date is in the
    past, one step after the deworming date when it is today or later) when
    it falls before the horizon day, and nothing when it falls after it.
    [createNextReminder] inserts exactly that row, a create appends it to
    the stored reminders, and an edit appends it to those it keeps.  For a
    deworming dated no more than 300 days ahead and a cadence of at most 108
    months or 9 years the occurrence is before the horizon, so that exactly
    one Reminder is emitted. *)
Theorem C3_deworming_emits_single_next_occurrence :
  forall (today s n : Z) (petId userId label ty : string),
    0 < n -> ty = "months" \/ ty = "year" ->
    exists (fuel : nat) (next : Date) (rows : list Reminder),
      (forall fuel', (fuel <= fuel')%nat ->
         DewormingTab.remindersToCreate fuel' today petId userId label
           (DateAt s) ty (Some n) = Some rows /\
         (forall dewormingDate db,
            parseDateString dewormingDate = DateAt s ->
            DewormingTab.createNextReminder fuel' today petId userId label
              dewormingDate ty (Some n) db
            = Some (insert_reminders rows db)) /\
         (forall f db,
            VaccineTab.is_empty petId = false ->
            VaccineTab.is_empty label = false ->
            DewormingTab.dewormingType f = label ->
            parseDateString (DewormingTab.date f) = DateAt s ->
            DewormingTab.createReminder f = true ->
            DewormingTab.frequencyOf f = (Some ty, Some n) ->
            (exists db',
               DewormingTab.handleSubmit fuel' today petId (Some userId) f db
               = Some db' /\
               reminders db' = (reminders db ++ rows)%list) /\
            (forall editing,
               exists db' keep,
                 DewormingTab.handleUpdate fuel' today petId (Some userId)
                   (Some editing) f db = Some db' /\
                 reminders db' = (filter keep (reminders db) ++ rows)%list))) /\
      first_due (DewormingTab.advance ty (Some n)) today s next /\
      (rows = [] \/
       rows = [DewormingTab.reminderFor petId userId label next]) /\
      (forall x m,
         next = DateAt x -> DewormingTab.maxDate today = DateAt m -> x < m ->
         rows = [DewormingTab.reminderFor petId userId label (DateAt x)]) /\
      (forall x m,
         next = DateAt x -> DewormingTab.maxDate today = DateAt m -> m < x ->
         rows = []) /\
      (next = InvalidDate -> rows = []) /\
      (forall r, In r rows ->
         exists d,
           next = DateAt d /\
           r = DewormingTab.reminderFor petId userId label (DateAt d) /\
           reminder_date r = formatDateString (DateAt d) /\
           s < d /\ today <= d /\
           date_le (DateAt d) (DewormingTab.maxDate today) = true) /\
      ((ty = "months" /\ n <= 108) \/ (ty = "year" /\ n <= 9) ->
       - maxDay <= s <= today + 300 ->
       - maxDay <= today <= maxDay - 3660 ->
       exists x,
         next = DateAt x /\
         rows = [DewormingTab.reminderFor petId userId label (DateAt x)]).
Proof.
  intros today s n petId userId label ty Hn Hty.
  pose proof (advance_ascending ty n Hn Hty) as Hup.
  destruct (backlog_terminates (DewormingTab.advance ty (Some n)) today
              (DateAt s) (or_introl Hup)) as (fuel & next & Hb).
  set (rows := if date_le next (DewormingTab.maxDate today)
               then [DewormingTab.reminderFor petId userId label next]
               else []).
  assert (Hrun : forall fuel', (fuel <= fuel')%nat ->
            DewormingTab.remindersToCreate fuel' today petId userId label
              (DateAt s) ty (Some n) = Some rows).
  { intros fuel' Hle. rewrite deworming_rows_unfold.
    now rewrite (backlog_more_fuel _ _ _ _ _ _ Hb Hle). }
  assert (Hcreate : forall fuel' dewormingDate db, (fuel <= fuel')%nat ->
            parseDateString dewormingDate = DateAt s ->
            DewormingTab.createNextReminder fuel' today petId userId label
              dewormingDate ty (Some n) db
            = Some (insert_reminders rows db)).
  { intros fuel' dewormingDate db Hle Hd.
    unfold DewormingTab.createNextReminder. rewrite Hd, (Hrun fuel' Hle).
    reflexivity. }
  assert (Hunit : VaccineTab.is_empty ty = false)
    by (destruct Hty as [-> | ->]; reflexivity).
  pose proof (deworming_first_emitted _ _ _ _ _ petId userId label _ Hn Hty Hb)
    as (_ & Hemit & Hafter).
  fold rows in Hemit, Hafter.
  exists fuel, next, rows.
  split; [ | split; [ | split; [ | split; [ | split; [ | split; [ | split]]]]]].
  - intros fuel' Hle. split; [now apply Hrun | ]. split.
    + intros dewormingDate db Hd. now apply Hcreate.
    + intros f db Hpet Hlabel Hf Hdate Hc Hfr.
      pose proof (parsed_date_nonempty _ _ Hdate) as Hne.
      split.
      * unfold DewormingTab.handleSubmit.
        rewrite Hpet, Hf, Hlabel, Hne. cbn [orb].
        unfold DewormingTab.createIfRequested. rewrite Hfr. cbn [fst snd].
        rewrite Hc, Hunit, (truthy_positive n Hn). cbn [negb andb].
        rewrite Hf, (Hcreate fuel' _ _ Hle Hdate).
        eexists. split; reflexivity.
      * intros editing. unfold DewormingTab.handleUpdate.
        rewrite Hf, Hlabel, Hne. cbn [orb].
        unfold DewormingTab.createIfRequested. rewrite Hfr. cbn [fst snd].
        rewrite Hc, Hunit, (truthy_positive n Hn). cbn [negb andb].
        rewrite Hf, (Hcreate fuel' _ _ Hle Hdate).
        eexists. eexists. split; [reflexivity | ].
        cbn [insert_reminders reminders DewormingTab.update_deworming].
        rewrite reminders_delete. reflexivity.
  - apply (backlog_first_due _ _ _ _ _ Hup Hb).
  - unfold rows. destruct (date_le _ _); [now right | now left].
  - intros x m Ex Em Hlt. unfold rows. rewrite Ex, Em. cbn [date_le].
    destruct (Z.leb_spec x m); [reflexivity | lia].
  - intros x m Ex Em Hlt. unfold rows. rewrite Ex, Em. cbn [date_le].
    destruct (Z.leb_spec x m); [lia | reflexivity].
  - intros ->. reflexivity.
  - intros r Hr. unfold rows in Hr.
    destruct (date_le next (DewormingTab.maxDate today)) eqn:Hle;
      [ | destruct Hr].
    destruct Hr as [<- | []]. destruct (date_le_valid _ _ Hle) as [d ->].
    destruct (backlog_first_due _ _ _ _ _ Hup Hb) as (_ & _ & Hlater).
    destruct (Hlater d eq_refl) as [Hsd Htd].
    exists d. split; [reflexivity | ]. split; [reflexivity | ].
    split; [reflexivity | ]. split; [exact Hsd | ]. split; [exact Htd | ].
    exact Hle.
  - intros Hbound Hs Htoday.
    destruct (next_before_horizon _ _ _ _ _ Hup
                (fun p => advance_reach ty n p Hn Hbound)
                (proj1 Hs) (proj2 Hs) Htoday Hb) as (x & m & Ex & Em & Hlt).
    exists x. split; [exact Ex | ].
    unfold rows. rewrite Ex, maxDate_same, Em. cbn [date_le].
    destruct (Z.leb_spec x m); [reflexivity | lia].
Qed.

Lemma C3_deworming_emits_single_next_occurrence_witness :
  0 < 1 /\ ("months" = "months" \/ "months" = "year") /\
  exists (fuel : nat) (rows : list Reminder) (db' : DB),
    (forall fuel', (fuel <= fuel')%nat ->
       DewormingTab.remindersToCreate fuel' 19875 "pet" "user" "Drontal"
         (DateAt 19753) "months" (Some 1) = Some rows) /\
    map reminder_date rows = ["2024-06-02"] /\
    DewormingTab.handleSubmit (Nat.max fuel 20) 19875 "pet" (Some "user")
      (DewormingTab.mkForm "Drontal" "2024-01-31" "" true "1-month") empty_db
    = Some db' /\
    reminders db' = rows.
Proof.
  split; [lia | ]. split; [left; reflexivity | ].
  destruct (C3_deworming_emits_single_next_occurrence 19875 19753 1 "pet"
              "user" "Drontal" "months" ltac:(lia) (or_introl eq_refl))
    as (fuel & next & rows & Hrun & _).
  assert (E : exists rows0,
             DewormingTab.remindersToCreate 20 19875 "pet" "user" "Drontal"
               (DateAt 19753) "months" (Some 1) = Some rows0 /\
             map reminder_date rows0 = ["2024-06-02"]).
  { eexists. split; [vm_compute; reflexivity | vm_compute; reflexivity]. }
  destruct E as (rows0 & E1 & E2).
  destruct (Hrun (Nat.max fuel 20) (Nat.le_max_l _ _)) as (R & _ & Hform).
  rewrite (deworming_more_fuel _ _ _ _ _ _ 20%nat (Nat.max fuel 20) _ _ E1
             (Nat.le_max_r _ _)) in R.
  injection R as ->.
  assert (Hd : parseDateString "2024-01-31" = DateAt 19753)
    by (vm_compute; reflexivity).
  destruct (Hform (DewormingTab.mkForm "Drontal" "2024-01-31" "" true "1-month")
              empty_db eq_refl eq_refl eq_refl Hd eq_refl eq_refl)
    as [(db' & S1 & S2) _].
  exists fuel, rows, db'.
  split; [intros fuel' Hle; apply (Hrun fuel' Hle) | ].
  split; [exact E2 | ]. split; [exact S1 | exact S2].
Defined.

(** C4.  Whatever the start date, the unit and the interval, every
    Reminder emitted by a run of either engine is dated on or before
    [maxDate], which is today moved ten calendar years forward and lies at
    most 3660 days after today. *)
Theorem C4_no_due_date_beyond_ten_years :
  forall (fuel : nat) (today : Z) (petId userId label ty : string)
         (start : Date) (fv : number) (rows : list Reminder),
    VaccineTab.remindersToCreate fuel today petId userId label start fv
    = Some rows \/
    DewormingTab.remindersToCreate fuel today petId userId label start ty fv
    = Some rows ->
    forall r, In r rows ->
    exists d m,
      reminder_date r = formatDateString (DateAt d) /\
      VaccineTab.maxDate today = DateAt m /\
      DewormingTab.maxDate today = DateAt m /\
      VaccineTab.maxDate today
      = setFullYear (DateAt today) (Some (YearFromDay today + 10)) /\
      d <= m <= today + 3660.
Proof.
  intros fuel today petId userId label ty start fv rows H r Hin.
  assert (Hd : exists d, reminder_date r = formatDateString (DateAt d) /\
                         date_le (DateAt d) (VaccineTab.maxDate today) = true).
  { destruct H as [H | H].
    - destruct (vaccine_rows_in _ _ _ _ _ _ _ _ _ H Hin)
        as (next & i & d & _ & _ & -> & Hle).
      exists d. split; [reflexivity | exact Hle].
    - rewrite deworming_rows_unfold in H.
      destruct (backlog _ today fuel start) as [next | ]; [ | discriminate].
      injection H as <-.
      destruct (date_le next (DewormingTab.maxDate today)) eqn:Hle;
        [ | destruct Hin].
      destruct Hin as [<- | []].
      destruct (date_le_valid _ _ Hle) as [d ->].
      exists d. split; [reflexivity | ]. now rewrite <- maxDate_same. }
  destruct Hd as (d & Hr & Hle).
  assert (Hm : exists m, VaccineTab.maxDate today = DateAt m /\ d <= m).
  { destruct (VaccineTab.maxDate today) as [m | ]; [ | discriminate].
    exists m. cbn [date_le] in Hle. apply Z.leb_le in Hle. auto. }
  destruct Hm as (m & Em & Hdm).
  pose proof (maxDate_day today m Em).
  exists d, m. split; [exact Hr | ]. split; [exact Em | ].
  split; [rewrite maxDate_same; exact Em | ].
  split; [ | lia].
  unfold VaccineTab.maxDate. reflexivity.
Qed.

Lemma C4_no_due_date_beyond_ten_years_witness :
  DewormingTab.remindersToCreate 5 19875 "pet" "user" "Drontal" (DateAt 19753)
    "months" (Some 1)
  = Some [DewormingTab.reminderFor "pet" "user" "Drontal" (DateAt 19876)] /\
  exists d m,
    reminder_date (DewormingTab.reminderFor "pet" "user" "Drontal" (DateAt 19876))
    = formatDateString (DateAt d) /\
    VaccineTab.maxDate 19875 = DateAt m /\ d <= m <= 19875 + 3660.
Proof.
  assert (E : DewormingTab.remindersToCreate 5 19875 "pet" "user" "Drontal"
                (DateAt 19753) "months" (Some 1)
              = Some [DewormingTab.reminderFor "pet" "user" "Drontal"
                        (DateAt 19876)]) by (vm_compute; reflexivity).
  split; [exact E | ].
  destruct (C4_no_due_date_beyond_ten_years 5 19875 "pet" "user" "Drontal"
              "months" (DateAt 19753) (Some 1) _ (or_intror E) _
              (or_introl eq_refl))
    as (d & m & H1 & H2 & _ & _ & H3).
  exists d, m. auto.
Defined.

(** With an interval of zero and a start before today the backlog loop
    never ends. *)
Lemma backlog_zero_stuck step today fuel s :
  s < today -> step (DateAt s) = DateAt s ->
  backlog step today fuel (DateAt s) = None.
Proof.
  intros Hs Hstep. unfold backlog. cbn [date_lt].
  destruct (Z.ltb_spec s today); [ | lia]. rewrite Hstep.
  apply while_stuck; [ | exact Hstep].
  cbn [date_lt]. now apply Z.ltb_lt.
Qed.

Lemma nonzero_step_monotone n :
  n <> 0 ->
  ascending (VaccineTab.addYears (Some n)) \/
  descending (VaccineTab.addYears (Some n)).
Proof.
  intros Hn. destruct (Z.lt_trichotomy n 0) as [H | [H | H]]; [ | lia | ].
  - right. now apply addYears_descending.
  - left. now apply addYears_ascending.
Qed.

Lemma nonzero_advance_monotone ty n :
  n <> 0 -> ty = "months" \/ ty = "year" ->
  ascending (DewormingTab.advance ty (Some n)) \/
  descending (DewormingTab.advance ty (Some n)).
Proof.
  intros Hn Hty. destruct (Z.lt_trichotomy n 0) as [H | [H | H]]; [ | lia | ].
  - right. now apply advance_descending.
  - left. now apply advance_ascending.
Qed.

(** C5 as stated fails: for the rabies vaccine of 2019-03-15, seen from
    2024-06-01, an interval of 0 makes [createReminders] (and likewise
    [createNextReminder]) run for ever; no error is reported. *)
Lemma C5_zero_interval_never_returns :
  ~ (exists fuel db,
       VaccineTab.createReminders fuel 19875 "pet" "user" "Rabies"
         "2019-03-15" (Some 0) empty_db = Some db) /\
  ~ (exists fuel db,
       DewormingTab.createNextReminder fuel 19875 "pet" "user" "Drontal"
         "2019-03-15" "months" (Some 0) empty_db = Some db).
Proof.
  assert (Hd : parseDateString "2019-03-15" = DateAt 17970) by reflexivity.
  assert (Hr : - maxDay <= 17970 <= maxDay) by (unfold maxDay; lia).
  split; intros (fuel & db & H).
  - unfold VaccineTab.createReminders in H.
    rewrite Hd, vaccine_rows_unfold in H.
    rewrite backlog_zero_stuck in H; [discriminate | lia | ].
    now apply addYears_zero.
  - unfold DewormingTab.createNextReminder in H.
    rewrite Hd, deworming_rows_unfold in H.
    rewrite backlog_zero_stuck in H; [discriminate | lia | ].
    now apply advance_zero.
Qed.

(** C5, as the code behaves.  Neither engine checks the interval and
    neither has an error result.  For every integer interval other than
    zero a run comes to an end with a list of rows (in months or years for
    the deworming engine).  With an interval of zero and a start before
    today the run never ends.  The create handlers do not call the engine
    when the interval read from the form is zero or not a number: they
    return with the reminders untouched. *)
Theorem C5_interval_is_not_validated :
  forall (today n : Z) (petId userId label ty : string),
    ty = "months" \/ ty = "year" ->
    (n <> 0 ->
     forall start,
       (exists fuel rows,
          VaccineTab.remindersToCreate fuel today petId userId label start
            (Some n) = Some rows) /\
       (exists fuel rows,
          DewormingTab.remindersToCreate fuel today petId userId label start
            ty (Some n) = Some rows)) /\
    (forall s fuel,
       - maxDay <= s <= maxDay -> s < today ->
       VaccineTab.remindersToCreate fuel today petId userId label (DateAt s)
         (Some 0) = None /\
       DewormingTab.remindersToCreate fuel today petId userId label (DateAt s)
         ty (Some 0) = None) /\
    (forall fuel user f db,
       truthy (parseInt (VaccineTab.reminderFrequency f)) = false ->
       exists db',
         VaccineTab.handleSubmit fuel today petId user f db = Some db' /\
         reminders db' = reminders db) /\
    (forall fuel user f db,
       truthy (snd (DewormingTab.frequencyOf f)) = false ->
       exists db',
         DewormingTab.handleSubmit fuel today petId user f db = Some db' /\
         reminders db' = reminders db).
Proof.
  intros today n petId userId label ty Hty. repeat split.
  - now apply vaccine_terminates, nonzero_step_monotone.
  - now apply deworming_terminates, nonzero_advance_monotone.
  - rewrite vaccine_rows_unfold, backlog_zero_stuck; auto; try lia.
    now apply addYears_zero.
  - rewrite deworming_rows_unfold, backlog_zero_stuck; auto; try lia.
    now apply advance_zero.
  - intros fuel user f db Hf. unfold VaccineTab.handleSubmit.
    destruct (_ || _ || _); [eauto | ]. destruct user as [u | ]; [ | eauto].
    unfold VaccineTab.frequencyYearsOf.
    destruct (VaccineTab.createReminder f); cbn [andb truthy];
      [rewrite Hf | ]; eexists; split; reflexivity.
  - intros fuel user f db Hf. unfold DewormingTab.handleSubmit.
    destruct (_ || _ || _); [eauto | ]. destruct user as [u | ]; [ | eauto].
    unfold DewormingTab.createIfRequested.
    destruct (fst (DewormingTab.frequencyOf f)); [ | eexists; split; reflexivity].
    rewrite Hf, !andb_false_r. eexists; split; reflexivity.
Qed.

Lemma C5_interval_is_not_validated_witness :
  ("months" = "months" \/ "months" = "year") /\
  (exists fuel rows,
     VaccineTab.remindersToCreate fuel 19875 "pet" "user" "Rabies"
       (DateAt 17970) (Some (-1)) = Some rows) /\
  VaccineTab.remindersToCreate 1000 19875 "pet" "user" "Rabies" (DateAt 17970)
    (Some 0) = None.
Proof.
  destruct (C5_interval_is_not_validated 19875 (-1) "pet" "user" "Rabies"
              "months" (or_introl eq_refl)) as (Hrun & _).
  destruct (C5_interval_is_not_validated 19875 0 "pet" "user" "Rabies"
              "months" (or_introl eq_refl)) as (_ & Hzero & _).
  split; [left; reflexivity | ].
  destruct (Hrun ltac:(lia) (DateAt 17970)) as [Hv _].
  assert (Hr : - maxDay <= 17970 <= maxDay) by (unfold maxDay; lia).
  destruct (Hzero 17970 1000%nat Hr ltac:(lia)) as [Hz _].
  split; [exact Hv | exact Hz].
Defined.

(* ================================================================== *)
(** * Claims about reminder reconciliation *)
(* ================================================================== *)

(** ** What a pattern [%label%] selects *)

(** [f] holds of some suffix of [s]. *)
Fixpoint anywhere (f : string -> bool) (s : string) : bool :=
  f s || match s with
         | EmptyString => false
         | String _ s' => anywhere f s'
         end.

(** [hay] begins with [needle]. *)
Fixpoint starts_with (needle hay : string) : bool :=
  match needle with
  | EmptyString => true
  | String c needle' =>
      match hay with
      | EmptyString => false
      | String c' hay' => Ascii.eqb c c' && starts_with needle' hay'
      end
  end.

(** [needle] occurs in [hay], byte for byte. *)
Definition contains (needle hay : string) : bool :=
  anywhere (starts_with needle) hay.

(** A character that stands for itself in a pattern. *)
Definition plain_char (c : ascii) : bool :=
  negb (Ascii.eqb c "\" || Ascii.eqb c "%" || Ascii.eqb c "_" || Ascii.eqb c "*").

Fixpoint plain (s : string) : bool :=
  match s with
  | EmptyString => true
  | String c s' => plain_char c && plain s'
  end.

Definition literals (s : string) : list like_token :=
  map Literal (list_ascii_of_string s).

Lemma like_tokens_plain s rest :
  plain s = true ->
  like_tokens (map_string star (s ++ rest))
  = option_map (app (literals s)) (like_tokens (map_string star rest)).
Proof.
  induction s as [ | c s IH]; intros H.
  - cbn [String.append literals list_ascii_of_string map].
    now destruct (like_tokens (map_string star rest)).
  - cbn [plain] in H. apply andb_true_iff in H. destruct H as [Hc Hs].
    unfold plain_char in Hc. apply negb_true_iff in Hc.
    apply orb_false_iff in Hc. destruct Hc as [Hc Hstar].
    apply orb_false_iff in Hc. destruct Hc as [Hc Hu].
    apply orb_false_iff in Hc. destruct Hc as [Hb Hp].
    cbn [String.append map_string]. unfold star at 1. rewrite Hstar.
    cbn [like_tokens]. rewrite Hb, Hp, Hu, (IH Hs).
    now destruct (like_tokens (map_string star rest)).
Qed.

Lemma like_match_any_string s : like_match [AnyString] s = true.
Proof. induction s as [ | c s IH]; [reflexivity | exact IH]. Qed.

Lemma like_match_literals l s :
  like_match (literals l ++ [AnyString]) s = starts_with l s.
Proof.
  revert s. induction l as [ | c l IH]; intros s.
  - cbn [literals list_ascii_of_string map app starts_with].
    apply like_match_any_string.
  - change (literals (String c l) ++ [AnyString])%list
      with (Literal c :: (literals l ++ [AnyString]))%list.
    destruct s as [ | c' s]; [reflexivity | ].
    cbn [like_match starts_with]. now rewrite IH.
Qed.

Lemma like_match_anywhere p s :
  like_match (AnyString :: p) s = anywhere (like_match p) s.
Proof.
  induction s as [ | c s IH]; [reflexivity | ].
  change (like_match (AnyString :: p) (String c s))
    with (like_match p (String c s) || like_match (AnyString :: p) s).
  now rewrite IH.
Qed.

Lemma anywhere_ext f g s : (forall x, f x = g x) -> anywhere f s = anywhere g s.
Proof.
  intros H. induction s as [ | c s IH]; cbn [anywhere]; rewrite H; [reflexivity | ].
  now rewrite IH.
Qed.

(** A pattern [%label%] with a plain label selects the values that contain
    the label. *)
Lemma like_contains label value :
  plain label = true ->
  like ("%" ++ label ++ "%") value = contains label value.
Proof.
  intros H. unfold like.
  change (map_string star ("%" ++ label ++ "%"))
    with (String "%" (map_string star (label ++ "%"))).
  cbn [like_tokens]. change (Ascii.eqb "%" "\") with false.
  change (Ascii.eqb "%" "%") with true. cbv iota.
  rewrite (like_tokens_plain label "%" H).
  change (like_tokens (map_string star "%")) with (Some [AnyString]).
  cbn [option_map]. rewrite like_match_anywhere.
  apply anywhere_ext. intros x. apply like_match_literals.
Qed.

Lemma starts_with_spec l s :
  starts_with l s = true <-> exists b, s = (l ++ b)%string.
Proof.
  revert s. induction l as [ | c l IH]; intros s.
  - cbn. split; [intros _; now exists s | reflexivity].
  - destruct s as [ | c' s]; cbn [starts_with String.append].
    + split; [discriminate | intros [b Hb]; discriminate].
    + rewrite andb_true_iff, IH. split.
      * intros [Hc [b Hb]]. apply Ascii.eqb_eq in Hc. exists b. congruence.
      * intros [b Hb]. injection Hb as -> ->.
        split; [apply Ascii.eqb_refl | now exists b].
Qed.

Lemma contains_spec needle hay :
  contains needle hay = true
  <-> exists a b, hay = (a ++ needle ++ b)%string.
Proof.
  unfold contains. induction hay as [ | c hay IH]; cbn [anywhere].
  - rewrite orb_false_r, starts_with_spec. split.
    + intros [b Hb]. now exists EmptyString, b.
    + intros (a & b & H). destruct a; [now exists b | discriminate].
  - rewrite orb_true_iff, starts_with_spec, IH. split.
    + intros [[b Hb] | (a & b & H)].
      * now exists EmptyString, b.
      * exists (String c a), b. cbn [String.append]. now rewrite H.
    + intros (a & b & H). destruct a as [ | c' a].
      * left. now exists b.
      * right. cbn [String.append] in H. injection H as _ H. now exists a, b.
Qed.

(** The reminders of a pet whose title contains [label] and whose
    description contains [marker]. *)
Definition tagged (petId label marker : string) (r : Reminder) : bool :=
  match pet_id r with
  | Some p => String.eqb p petId
  | None => false
  end
  && contains label (title r)
  && match description r with
     | Some d => contains marker d
     | None => false
     end.

Lemma selected_tagged petId label marker r :
  plain label = true -> plain marker = true ->
  selected petId ("%" ++ label ++ "%") ("%" ++ marker ++ "%") r
  = tagged petId label marker r.
Proof.
  intros Hl Hm. unfold selected, tagged. rewrite (like_contains label _ Hl).
  destruct (description r) as [d | ]; [ | reflexivity].
  now rewrite (like_contains marker d Hm).
Qed.

Lemma vaccine_createReminders_rows fuel today petId userId label d fy db db' :
  VaccineTab.createReminders fuel today petId userId label d fy db = Some db' ->
  exists rows,
    VaccineTab.remindersToCreate fuel today petId userId label
      (parseDateString d) fy = Some rows /\
    reminders db' = (reminders db ++ rows)%list.
Proof.
  unfold VaccineTab.createReminders.
  destruct (VaccineTab.remindersToCreate _ _ _ _ _ _ _) as [rows | ];
    [ | discriminate].
  intros H. injection H as <-. exists rows. split; [reflexivity | ].
  destruct rows; cbn; [now rewrite app_nil_r | reflexivity].
Qed.

Lemma deworming_createNextReminder_rows fuel today petId userId label d ty fv
  db db' :
  DewormingTab.createNextReminder fuel today petId userId label d ty fv db
  = Some db' ->
  exists rows,
    DewormingTab.remindersToCreate fuel today petId userId label
      (parseDateString d) ty fv = Some rows /\
    reminders db' = (reminders db ++ rows)%list /\
    (List.length rows <= 1)%nat.
Proof.
  unfold DewormingTab.createNextReminder.
  destruct (DewormingTab.remindersToCreate _ _ _ _ _ _ _ _) as [rows | ] eqn:E;
    [ | discriminate].
  intros H. injection H as <-. exists rows. repeat split.
  rewrite deworming_rows_unfold in E.
  destruct (backlog _ _ _ _); [ | discriminate]. injection E as <-.
  destruct (date_le _ _); cbn; lia.
Qed.

(** ** Ownership, in the words of the specification

    A Reminder is owned by the care event whose ["{kind}: {label}"] text is
    its title; it is a future Reminder when its due date is today or
    later. *)
Definition owned_by (petId kind label : string) (r : Reminder) : bool :=
  match pet_id r with
  | Some p => String.eqb p petId
  | None => false
  end
  && String.eqb (title r) (kind ++ ": " ++ label).

Definition is_future (today : Z) (r : Reminder) : bool :=
  date_le (DateAt today) (parseDateString (reminder_date r)).

Definition owned_future (today : Z) (petId kind label : string)
  (rs : list Reminder) : nat :=
  List.length (filter (fun r => owned_by petId kind label r && is_future today r) rs).

(** The scenario: a yearly rabies vaccine of 2019-03-15 and a yearly
    booster of 2023-09-01, both recorded on 2024-06-01 for the same pet. *)
Definition rabiesForm : VaccineTab.Form :=
  VaccineTab.mkForm "Rabies" "2019-03-15" "" true "1".

Definition boosterForm : VaccineTab.Form :=
  VaccineTab.mkForm "Rabies Booster" "2023-09-01" "" true "1".

Definition rabies_and_booster : option DB :=
  db1 <- VaccineTab.handleSubmit 20 19875 "pet" (Some "user") rabiesForm
           empty_db ;;
  VaccineTab.handleSubmit 20 19875 "pet" (Some "user") boosterForm db1.


(** The rows a vaccine create or edit asks the engine for: those of
    [createReminders] when [createReminder && frequencyYears] holds, none
    otherwise. *)
Definition vaccine_rows_requested (fuel : nat) (today : Z)
  (petId userId : string) (f : VaccineTab.Form) (rows : list Reminder)
  : Prop :=
  if VaccineTab.createReminder f && truthy (VaccineTab.frequencyYearsOf f)
  then VaccineTab.remindersToCreate fuel today petId userId
         (VaccineTab.vaccineType f) (parseDateString (VaccineTab.date f))
         (VaccineTab.frequencyYearsOf f) = Some rows
  else rows = [].

(** The same for a deworming: the row of [createNextReminder] when
    [createReminder && frequencyType && frequencyValue] holds. *)
Definition deworming_rows_requested (fuel : nat) (today : Z)
  (petId userId : string) (f : DewormingTab.Form) (rows : list Reminder)
  : Prop :=
  match fst (DewormingTab.frequencyOf f) with
  | Some frequencyType =>
      if DewormingTab.createReminder f
         && negb (VaccineTab.is_empty frequencyType)
         && truthy (snd (DewormingTab.frequencyOf f))
      then DewormingTab.remindersToCreate fuel today petId userId
             (DewormingTab.dewormingType f)
             (parseDateString (DewormingTab.date f)) frequencyType
             (snd (DewormingTab.frequencyOf f)) = Some rows
      else rows = []
  | None => rows = []
  end.

Lemma vaccine_requested_rows fuel today petId userId f db db' :
  (if VaccineTab.createReminder f && truthy (VaccineTab.frequencyYearsOf f)
   then VaccineTab.createReminders fuel today petId userId
          (VaccineTab.vaccineType f) (VaccineTab.date f)
          (VaccineTab.frequencyYearsOf f) db
   else Some db) = Some db' ->
  exists rows,
    reminders db' = (reminders db ++ rows)%list /\
    vaccine_rows_requested fuel today petId userId f rows.
Proof.
  unfold vaccine_rows_requested.
  destruct (VaccineTab.createReminder f && truthy (VaccineTab.frequencyYearsOf f)).
  - intros H. apply vaccine_createReminders_rows in H.
    destruct H as (rows & Hr & E). exists rows. split; [exact E | exact Hr].
  - intros H. injection H as <-. exists []. split; [ | reflexivity].
    now rewrite app_nil_r.
Qed.

Lemma deworming_requested_rows fuel today petId userId f db db' :
  DewormingTab.createIfRequested fuel today petId userId f
    (DewormingTab.frequencyOf f) db = Some db' ->
  exists rows,
    reminders db' = (reminders db ++ rows)%list /\
    deworming_rows_requested fuel today petId userId f rows /\
    (List.length rows <= 1)%nat.
Proof.
  unfold DewormingTab.createIfRequested, deworming_rows_requested.
  assert (Hskip : Some db = Some db' ->
            exists rows : list Reminder,
              reminders db' = (reminders db ++ rows)%list /\
              rows = [] /\ (List.length rows <= 1)%nat).
  { intros H. injection H as <-. exists []. rewrite app_nil_r.
    repeat split. cbn. lia. }
  destruct (fst (DewormingTab.frequencyOf f)) as [ty | ]; [ | exact Hskip].
  destruct (_ && _ && _); [ | exact Hskip].
  intros H. apply deworming_createNextReminder_rows in H.
  destruct H as (rows & Hr & E & Hl). exists rows. auto.
Qed.

Lemma filter_tagged petId label marker rs :
  plain label = true -> plain marker = true ->
  filter (fun r => negb (selected petId ("%" ++ label ++ "%")
                           ("%" ++ marker ++ "%") r)) rs
  = filter (fun r => negb (tagged petId label marker r)) rs.
Proof.
  intros Hl Hm. apply filter_ext. intros r.
  now rewrite (selected_tagged petId label marker r Hl Hm).
Qed.



(* ================================================================== *)
(** * Claims about the date helpers *)
(* ================================================================== *)

Lemma ToString_nonneg n : 0 <= n -> ToString (Some n) = digits n.
Proof.
  intros H. unfold ToString. destruct (Z.ltb_spec n 0); [lia | reflexivity].
Qed.

(** The text of a date whose year is not negative. *)
Lemma formatDateString_nonneg d :
  0 <= YearFromDay d ->
  formatDateString (DateAt d)
  = (digits (YearFromDay d)
     ++ String "-" (padStart2 (digits (MonthFromDay d + 1))
                    ++ String "-" (padStart2 (digits (DateFromDay d)))))%string.
Proof.
  intros Hy. pose proof (CalendarFacts.MonthFromDay_range d).
  pose proof (CalendarFacts.DateFromDay_range d).
  unfold formatDateString. cbn [getFullYear getMonth getDate num_add].
  rewrite !ToString_nonneg by lia. reflexivity.
Qed.

Lemma parse_format_pieces d :
  0 <= YearFromDay d ->
  map Number (split "-" (formatDateString (DateAt d)))
  = [Some (YearFromDay d); Some (MonthFromDay d + 1); Some (DateFromDay d)].
Proof.
  intros Hy. pose proof (CalendarFacts.MonthFromDay_range d).
  pose proof (CalendarFacts.DateFromDay_range d).
  rewrite formatDateString_nonneg by exact Hy.
  rewrite split_digits_dash by (apply digits_all_digits; lia).
  rewrite split_digits_dash
    by (apply padStart2_all_digits, digits_all_digits; lia).
  rewrite split_digits by (apply padStart2_all_digits, digits_all_digits; lia).
  cbn [map].
  rewrite !Number_padStart2 by (apply digits_all_digits; lia).
  rewrite !Number_digits by lia. reflexivity.
Qed.

(** C7 as stated fails: 15 March of the year 50 is printed as "50-03-15",
    which is read back as 15 March 1950. *)
Lemma C7_year_50_comes_back_as_1950 :
  DateAt (-701192) = TimeClip (MakeDay 50 2 15) /\
  formatDateString (DateAt (-701192)) = "50-03-15" /\
  getFullYear (DateAt (-701192)) = Some 50 /\
  getFullYear (parseDateString (formatDateString (DateAt (-701192))))
  = Some 1950 /\
  getFullYear (parseDateString (formatDateString (DateAt (-701192))))
  <> getFullYear (DateAt (-701192)).
Proof.
  split; [vm_compute; reflexivity | ].
  split; [vm_compute; reflexivity | ].
  split; [vm_compute; reflexivity | ].
  split; [vm_compute; reflexivity | vm_compute; discriminate].
Qed.

(** C7, as the code behaves.  For every date within the range of [Date]
    whose year is 100 or more, parsing the formatted date gives the same day
    back, hence a date of the same year, month and day.  Both helpers work on
    local calendar components only: no time zone enters the computation. *)
Theorem C7_parse_format_round_trip_from_year_100 :
  forall d : Z,
    - maxDay <= d <= maxDay ->
    100 <= YearFromDay d ->
    let d' := parseDateString (formatDateString (DateAt d)) in
    d' = DateAt d /\
    getFullYear d' = getFullYear (DateAt d) /\
    getMonth d' = getMonth (DateAt d) /\
    getDate d' = getDate (DateAt d).
Proof.
  intros d Hr Hy d'.
  assert (E : d' = DateAt d).
  { unfold d', parseDateString. rewrite parse_format_pieces by lia.
    unfold newDate, num_sub.
    destruct (Z.leb_spec (YearFromDay d) 99); [lia | ].
    rewrite andb_false_r.
    replace (MonthFromDay d + 1 - 1) with (MonthFromDay d) by lia.
    rewrite CalendarFacts.MakeDay_components.
    now apply TimeClip_in_range. }
  rewrite E. auto.
Qed.

Lemma C7_parse_format_round_trip_from_year_100_witness :
  - maxDay <= 19875 <= maxDay /\ 100 <= YearFromDay 19875 /\
  parseDateString (formatDateString (DateAt 19875)) = DateAt 19875.
Proof.
  assert (Hr : - maxDay <= 19875 <= maxDay) by (unfold maxDay; lia).
  assert (Hy : 100 <= YearFromDay 19875) by (vm_compute; discriminate).
  split; [exact Hr | ]. split; [exact Hy | ].
  exact (proj1 (C7_parse_format_round_trip_from_year_100 19875 Hr Hy)).
Defined.

(* ================================================================== *)
(** * Claims about the timeline and the weight series *)
(* ================================================================== *)

(** The day a date-only string stands for ([0] if it is not one). *)
Definition dayOf (s : string) : Z :=
  match newDateFromString s with
  | DateAt d => d
  | InvalidDate => 0
  end.

Definition valid_date (s : string) : Prop := newDateFromString s <> InvalidDate.

Lemma StronglySorted_weaken {A : Type} (R R' : A -> A -> Prop) l :
  (forall a b, R a b -> R' a b) -> StronglySorted R l -> StronglySorted R' l.
Proof.
  intros HR H. induction H; constructor; auto.
  eapply Forall_impl; [ | eassumption]. auto.
Qed.

Lemma mostRecentFirst_by_key a b :
  valid_date (TimelineTab.date a) -> valid_date (TimelineTab.date b) ->
  exceeds TimelineTab.mostRecentFirst a b
  = (- dayOf (TimelineTab.date b) <? - dayOf (TimelineTab.date a)).
Proof.
  unfold valid_date, exceeds, TimelineTab.mostRecentFirst, dayOf.
  destruct (newDateFromString (TimelineTab.date a)) as [x | ]; [ | congruence].
  destruct (newDateFromString (TimelineTab.date b)) as [y | ]; [ | congruence].
  intros _ _. cbn [getTime num_sub]. unfold msPerDay.
  destruct (Z.ltb_spec 0 (y * 86400000 - x * 86400000)),
    (Z.ltb_spec (- y) (- x)); try reflexivity; lia.
Qed.



Definition is_initial {num : Type} (e : WeightTab.Entry num) : bool :=
  match WeightTab.isInitial num e with
  | Some true => true
  | _ => false
  end.

Lemma existsb_date_false {num : Type} (records : list (WeightTab.WeightRecord num)) d :
  existsb (fun record => String.eqb (WeightTab.r_date num record) d) records
  = false <->
  forall r, In r records -> WeightTab.r_date num r <> d.
Proof.
  induction records as [ | r records IH]; cbn [existsb].
  - split; [intros _ r [] | reflexivity].
  - rewrite orb_false_iff, IH. destruct (String.eqb_spec (WeightTab.r_date num r) d).
    + split; [intros [? _]; discriminate | ].
      intros H. exfalso. apply (H r); [now left | assumption].
    + split.
      * intros [_ H] r' [<- | Hin]; auto.
      * intros H. split; [reflexivity | ]. intros r' Hin. apply H. now right.
Qed.

Lemma filter_perm {A : Type} (f : A -> bool) l l' :
  Permutation l l' -> Permutation (filter f l) (filter f l').
Proof.
  induction 1 as [ | x l l' _ IH | x y l | l l' l'' _ IH1 _ IH2]; cbn [filter].
  - reflexivity.
  - destruct (f x); [now apply perm_skip | exact IH].
  - destruct (f x), (f y); try reflexivity. apply perm_swap.
  - now rewrite IH1.
Qed.

Lemma record_entries_not_initial {num : Type}
  (records : list (WeightTab.WeightRecord num)) :
  filter is_initial (map (WeightTab.recordEntry num) records) = [].
Proof. induction records as [ | r l IH]; [reflexivity | exact IH]. Qed.


(* ================================================================== *)
(** * The delete filter at work *)
(* ================================================================== *)

(** C10, at its own example.  The delete filter looks at the pet, the title
    and the description of a reminder and at nothing else.  With the
    vaccines "Rabies" and "Rabies Booster" of one pet, every generated
    reminder has a title that matches [%Rabies%]; but no generated
    description matches [%Vacuna%], since [like] is case-sensitive and the
    descriptions read "... la vacuna ...".  Deleting or editing "Rabies"
    therefore removes no reminder at all: the ten reminders of the booster
    stay, and so do the ten of "Rabies" itself.  (The deworming marker has
    the same mismatch.  Were the marker to match, as it does when the label
    itself contains "Vacuna", the reminders of the longer label would go
    with those of the shorter one.) *)
Theorem C10_substring_label_delete_removes_nothing :
  (forall petId tp dp r r',
     pet_id r = pet_id r' -> title r = title r' ->
     description r = description r' ->
     selected petId tp dp r = selected petId tp dp r') /\
  (exists db,
     rabies_and_booster = Some db /\
     map title (reminders db)
     = (repeat "Vacuna: Rabies" 10 ++ repeat "Vacuna: Rabies Booster" 10)%list /\
     forallb (fun r => like "%Rabies%" (title r)) (reminders db) = true /\
     forallb (fun r => match description r with
                       | Some d => negb (like "%Vacuna%" d)
                       | None => true
                       end) (reminders db) = true /\
     reminders (VaccineTab.handleDelete "pet" 0 "Rabies" db) = reminders db /\
     exists db',
       VaccineTab.handleUpdate 20 19875 "pet" (Some "user")
         (nth_error (vaccinations db) 0) rabiesForm db = Some db' /\
       firstn 20 (reminders db') = reminders db /\
       List.length (reminders db') = 30%nat) /\
  like "%Desparasitación%" "Recordatorio para aplicar la desparasitación Drontal"
  = false /\
  option_map (forallb (selected "pet" "%Vacuna Rabia%" "%Vacuna%"))
    (VaccineTab.remindersToCreate 20 19875 "pet" "user" "Vacuna Rabia Refuerzo"
       (parseDateString "2023-09-01") (Some 1))
  = Some true.
Proof.
  split.
  { intros petId tp dp r r' Hp Ht Hd. unfold selected.
    now rewrite Hp, Ht, Hd. }
  split.
  { eexists. split; [vm_compute; reflexivity | ].
    split; [vm_compute; reflexivity | ].
    split; [vm_compute; reflexivity | ].
    split; [vm_compute; reflexivity | ].
    split; [vm_compute; reflexivity | ].
    eexists. split; [vm_compute; reflexivity | ].
    split; vm_compute; reflexivity. }
  split; vm_compute; reflexivity.
Qed.

(* ================================================================== *)
(** * Further properties of the recurrence engines *)
(* ================================================================== *)

(** Under a descending step the iterates of a date are in decreasing order
    for as long as they are valid. *)
Lemma descending_iter step k x y :
  descending step ->
  Nat.iter k step (DateAt x) = DateAt y -> y <= x - Z.of_nat k.
Proof.
  intros [Hi Hs]. revert y. induction k as [ | k IH]; intros y H.
  - cbn in H. inversion H. lia.
  - rewrite Nat.iter_succ in H.
    destruct (Nat.iter k step (DateAt x)) as [z | ] eqn:E.
    + specialize (IH z eq_refl). destruct (Hs _ _ H). lia.
    + rewrite Hi in H. discriminate.
Qed.

(** Each yearly step of a positive interval covers at least [365 n] days. *)
Lemma addYears_iter_gap n k x y :
  0 < n ->
  Nat.iter k (VaccineTab.addYears (Some n)) (DateAt x) = DateAt y ->
  x + 365 * n * Z.of_nat k <= y.
Proof.
  intros Hn. revert y. induction k as [ | k IH]; intros y H.
  - cbn in H. inversion H. lia.
  - rewrite Nat.iter_succ in H.
    destruct (Nat.iter k (VaccineTab.addYears (Some n)) (DateAt x)) as [z | ] eqn:E;
      [ | discriminate].
    specialize (IH z eq_refl). rewrite addYears_eq in H.
    apply TimeClip_inv in H. destruct H as [-> _].
    pose proof (CalendarFacts.shift_years_forward z n Hn). lia.
Qed.

Lemma iter_valid_before step k j x y :
  step InvalidDate = InvalidDate ->
  Nat.iter k step (DateAt x) = DateAt y -> (j <= k)%nat ->
  exists z, Nat.iter j step (DateAt x) = DateAt z.
Proof.
  intros Hi H Hle.
  destruct (Nat.iter j step (DateAt x)) as [z | ] eqn:E; [eauto | ].
  assert (H' : Nat.iter (k - j) step (Nat.iter j step (DateAt x)) = DateAt y).
  { rewrite <- Nat.iter_add. now replace (k - j + j)%nat with k by lia. }
  rewrite E, iter_invalid in H' by exact Hi. discriminate.
Qed.

Lemma StronglySorted_map_seq (f : nat -> Z) a k :
  (forall i j, (a <= i < j)%nat -> (j < a + k)%nat -> f i < f j) ->
  StronglySorted Z.lt (map f (seq a k)).
Proof.
  revert a. induction k as [ | k IH]; intros a H; cbn [seq map]; constructor.
  - apply IH. intros i j Hij Hj. apply H; lia.
  - apply Forall_forall. intros y Hy. apply in_map_iff in Hy.
    destruct Hy as (j & <- & Hj). apply in_seq in Hj. apply H; lia.
Qed.

(** The day of a valid date ([0] for an invalid one). *)
Definition dayOfDate (t : Date) : Z :=
  match t with
  | DateAt d => d
  | InvalidDate => 0
  end.



(** A descending step never brings a start before today up to today: the
    backlog loop ends only when the date has left the range of [Date]. *)
Lemma backlog_descending_past step today fuel s next :
  descending step -> s < today ->
  backlog step today fuel (DateAt s) = Some next -> next = InvalidDate.
Proof.
  intros Hdown Hs Hb.
  destruct (backlog_past _ _ _ _ _ Hs Hb) as (k & _ & E & Hc & _).
  destruct next as [x | ]; [ | reflexivity].
  symmetry in E. apply (descending_iter _ _ _ _ Hdown) in E.
  cbn [date_lt] in Hc. apply Z.ltb_ge in Hc. lia.
Qed.

Lemma vaccine_rows_from_invalid fuel today petId userId label fy start rows :
  backlog (VaccineTab.addYears fy) today fuel start = Some InvalidDate ->
  VaccineTab.remindersToCreate fuel today petId userId label start fy = Some rows ->
  rows = [].
Proof.
  intros Hb H. destruct (vaccine_rows_spec _ _ _ _ _ _ _ _ H)
    as (next & k & Hb' & -> & _ & Hin).
  rewrite Hb in Hb'. injection Hb' as <-.
  destruct k as [ | k]; [reflexivity | ].
  specialize (Hin 0%nat ltac:(lia)). discriminate.
Qed.

(** X2.  With a negative interval and a care event dated before today,
    both engines come to an end without emitting anything: the backlog loop
    walks the date backwards until it leaves the range of [Date], and an
    invalid date passes no comparison. *)
Theorem negative_interval_with_past_start_emits_nothing :
  forall (today s n : Z) (petId userId label ty : string),
    n < 0 -> s < today -> ty = "months" \/ ty = "year" ->
    exists fuel,
      forall fuel', (fuel <= fuel')%nat ->
        VaccineTab.remindersToCreate fuel' today petId userId label (DateAt s)
          (Some n) = Some [] /\
        DewormingTab.remindersToCreate fuel' today petId userId label
          (DateAt s) ty (Some n) = Some [].
Proof.
  intros today s n petId userId label ty Hn Hs Hty.
  pose proof (addYears_descending n Hn) as Hv.
  pose proof (advance_descending ty n Hn Hty) as Hd.
  destruct (vaccine_terminates today petId userId label (Some n) (DateAt s)
              (or_intror Hv)) as (f1 & rows1 & H1).
  destruct (backlog_terminates (DewormingTab.advance ty (Some n)) today
              (DateAt s) (or_intror Hd)) as (f2 & next2 & H2).
  exists (Nat.max f1 f2). intros fuel' Hle. split.
  - apply (vaccine_more_fuel _ _ _ _ _ _ fuel') in H1; [ | lia].
    destruct (vaccine_rows_spec _ _ _ _ _ _ _ _ H1) as (next & k & Hb & _).
    pose proof (backlog_descending_past _ _ _ _ _ Hv Hs Hb) as ->.
    now rewrite (vaccine_rows_from_invalid _ _ _ _ _ _ _ _ Hb H1) in H1.
  - apply (backlog_more_fuel _ _ _ fuel') in H2; [ | lia].
    pose proof (backlog_descending_past _ _ _ _ _ Hd Hs H2) as ->.
    rewrite deworming_rows_unfold, H2. reflexivity.
Qed.

Lemma negative_interval_with_past_start_emits_nothing_witness :
  -1 < 0 /\ 17970 < 19875 /\ ("year" = "months" \/ "year" = "year") /\
  exists fuel,
    VaccineTab.remindersToCreate fuel 19875 "pet" "user" "Rabies" (DateAt 17970)
      (Some (-1)) = Some [].
Proof.
  split; [lia | ]. split; [lia | ]. split; [right; reflexivity | ].
  destruct (negative_interval_with_past_start_emits_nothing 19875 17970 (-1)
              "pet" "user" "Rabies" "year" ltac:(lia) ltac:(lia)
              (or_intror eq_refl)) as (fuel & H).
  exists fuel. exact (proj1 (H fuel (le_n fuel))).
Defined.

Lemma addYears_invalid fy : VaccineTab.addYears fy InvalidDate = InvalidDate.
Proof. destruct fy; reflexivity. Qed.

Lemma addYears_NaN t : VaccineTab.addYears NaN t = InvalidDate.
Proof. destruct t; reflexivity. Qed.

Lemma advance_invalid ty fv : DewormingTab.advance ty fv InvalidDate = InvalidDate.
Proof.
  rewrite advance_unfold. rewrite addYears_invalid.
  destruct (String.eqb ty "months"); [reflexivity | ].
  destruct (String.eqb ty "year"); reflexivity.
Qed.

Lemma advance_NaN ty t :
  ty = "months" \/ ty = "year" -> DewormingTab.advance ty NaN t = InvalidDate.
Proof.
  intros [-> | ->]; rewrite advance_unfold.
  - change (String.eqb "months" "months") with true. destruct t; reflexivity.
  - change (String.eqb "year" "months") with false.
    change (String.eqb "year" "year") with true. apply addYears_NaN.
Qed.

(** When the first step gives an invalid date, no loop runs. *)
Lemma backlog_invalid_step step today fuel start :
  step start = InvalidDate -> step InvalidDate = InvalidDate ->
  backlog step today fuel start = Some InvalidDate.
Proof.
  intros H Hi. unfold backlog. rewrite H.
  destruct (date_lt start (DateAt today)); [ | reflexivity].
  destruct fuel; reflexivity.
Qed.

(** A date string with fewer than three pieces between dashes does not
    parse: the missing month or day is [undefined]. *)
Lemma parseDateString_short d :
  (List.length (split "-" d) < 3)%nat -> parseDateString d = InvalidDate.
Proof.
  unfold parseDateString. destruct (split "-" d) as [ | a [ | b [ | c l]]];
    cbn [map List.length]; intros H; try reflexivity; lia.
Qed.

(** X3.  An unparseable date or a NaN interval makes both engines return
    at once, whatever the fuel, without inserting anything: the date stays
    or becomes invalid, every comparison with it is false, and neither loop
    body runs.  This is the case in particular for a date string with fewer
    than three dash-separated pieces. *)
Theorem invalid_date_or_NaN_interval_inserts_nothing :
  forall (fuel : nat) (today : Z) (petId userId label ty : string)
         (fv : number) (db : DB),
    (VaccineTab.remindersToCreate fuel today petId userId label InvalidDate fv
     = Some [] /\
     DewormingTab.remindersToCreate fuel today petId userId label InvalidDate
       ty fv = Some []) /\
    (forall start,
       VaccineTab.remindersToCreate fuel today petId userId label start NaN
       = Some [] /\
       (ty = "months" \/ ty = "year" ->
        DewormingTab.remindersToCreate fuel today petId userId label start ty
          NaN = Some [])) /\
    (forall d,
       (List.length (split "-" d) < 3)%nat ->
       VaccineTab.createReminders fuel today petId userId label d fv db
       = Some db /\
       exists db',
         DewormingTab.createNextReminder fuel today petId userId label d ty fv
           db = Some db' /\
         reminders db' = reminders db).
Proof.
  intros fuel today petId userId label ty fv db.
  assert (Hv : forall start fy,
             VaccineTab.addYears fy start = InvalidDate ->
             VaccineTab.remindersToCreate fuel today petId userId label start fy
             = Some []).
  { intros start fy H. rewrite vaccine_rows_unfold.
    rewrite (backlog_invalid_step _ _ _ _ H (addYears_invalid fy)).
    destruct fuel; reflexivity. }
  assert (Hd : forall start fy,
             DewormingTab.advance ty fy start = InvalidDate ->
             DewormingTab.remindersToCreate fuel today petId userId label start
               ty fy = Some []).
  { intros start fy H. rewrite deworming_rows_unfold.
    now rewrite (backlog_invalid_step _ _ _ _ H (advance_invalid ty fy)). }
  split; [ | split].
  - split; [apply Hv, addYears_invalid | apply Hd, advance_invalid].
  - intros start. split; [apply Hv, addYears_NaN | ].
    intros Hty. now apply Hd, advance_NaN.
  - intros d Hshort. pose proof (parseDateString_short d Hshort) as Hp. split.
    + unfold VaccineTab.createReminders.
      now rewrite Hp, (Hv _ _ (addYears_invalid fv)).
    + unfold DewormingTab.createNextReminder.
      rewrite Hp, (Hd _ _ (advance_invalid ty fv)).
      eexists. split; [reflexivity | ]. cbn [insert_reminders reminders].
      apply app_nil_r.
Qed.

Lemma invalid_date_or_NaN_interval_inserts_nothing_witness :
  (List.length (split "-" "2024-06") < 3)%nat /\
  VaccineTab.createReminders 0 19875 "pet" "user" "Rabies" "2024-06" (Some 1)
    empty_db = Some empty_db.
Proof.
  assert (H : (List.length (split "-" "2024-06") < 3)%nat) by (cbn; lia).
  split; [exact H | ].
  destruct (invalid_date_or_NaN_interval_inserts_nothing 0 19875 "pet" "user"
              "Rabies" "year" (Some 1) empty_db) as (_ & _ & Hs).
  exact (proj1 (Hs "2024-06" H)).
Defined.

(* ================================================================== *)
(** * Further properties of the handlers *)
(* ================================================================== *)

(** A reminder of another pet, or of no pet. *)
Definition other_pet (petId : string) (r : Reminder) : bool :=
  negb match pet_id r with
       | Some p => String.eqb p petId
       | None => false
       end.

Lemma selected_not_other petId tp dp r :
  other_pet petId r = true -> selected petId tp dp r = false.
Proof.
  unfold other_pet, selected.
  destruct (match pet_id r with Some p => String.eqb p petId | None => false end);
    [discriminate | reflexivity].
Qed.

Lemma filter_other_after_delete petId tp dp l :
  filter (other_pet petId) (filter (fun r => negb (selected petId tp dp r)) l)
  = filter (other_pet petId) l.
Proof.
  induction l as [ | r l IH]; [reflexivity | ]. cbn [filter].
  destruct (other_pet petId r) eqn:E.
  - rewrite (selected_not_other _ tp dp _ E). cbn [negb filter].
    now rewrite E, IH.
  - destruct (negb (selected petId tp dp r)); [cbn [filter]; rewrite E | ];
      exact IH.
Qed.

Lemma vaccine_rows_same_pet fuel today petId userId label start fy rows :
  VaccineTab.remindersToCreate fuel today petId userId label start fy = Some rows ->
  filter (other_pet petId) rows = [].
Proof.
  intros H. destruct (vaccine_rows_spec _ _ _ _ _ _ _ _ H) as (next & k & _ & -> & _).
  clear H. induction (seq 0 k) as [ | i l IH]; [reflexivity | ].
  cbn [map filter]. unfold other_pet at 1. cbn [pet_id VaccineTab.reminderFor].
  rewrite String.eqb_refl. cbn [negb]. exact IH.
Qed.

Lemma deworming_rows_same_pet fuel today petId userId label start ty fv rows :
  DewormingTab.remindersToCreate fuel today petId userId label start ty fv
  = Some rows ->
  filter (other_pet petId) rows = [].
Proof.
  rewrite deworming_rows_unfold.
  destruct (backlog _ _ _ _) as [next | ]; [ | discriminate].
  intros H. injection H as <-. destruct (date_le _ _); [ | reflexivity].
  cbn [filter]. unfold other_pet. cbn [pet_id DewormingTab.reminderFor].
  now rewrite String.eqb_refl.
Qed.

Lemma vaccine_createReminders_other fuel today petId userId label d fy db db' :
  VaccineTab.createReminders fuel today petId userId label d fy db = Some db' ->
  filter (other_pet petId) (reminders db')
  = filter (other_pet petId) (reminders db) /\
  exists rows, reminders db' = (reminders db ++ rows)%list.
Proof.
  intros H. apply vaccine_createReminders_rows in H. destruct H as (rows & Hr & E).
  rewrite E, filter_app, (vaccine_rows_same_pet _ _ _ _ _ _ _ _ Hr), app_nil_r.
  eauto.
Qed.

Lemma deworming_createNextReminder_other fuel today petId userId label d ty fv
  db db' :
  DewormingTab.createNextReminder fuel today petId userId label d ty fv db
  = Some db' ->
  filter (other_pet petId) (reminders db')
  = filter (other_pet petId) (reminders db) /\
  exists rows, reminders db' = (reminders db ++ rows)%list.
Proof.
  intros H. apply deworming_createNextReminder_rows in H.
  destruct H as (rows & Hr & E & _).
  rewrite E, filter_app, (deworming_rows_same_pet _ _ _ _ _ _ _ _ _ Hr), app_nil_r.
  eauto.
Qed.

Lemma deworming_createIfRequested_other fuel today petId userId f fr db db' :
  DewormingTab.createIfRequested fuel today petId userId f fr db = Some db' ->
  filter (other_pet petId) (reminders db')
  = filter (other_pet petId) (reminders db) /\
  exists rows, reminders db' = (reminders db ++ rows)%list.
Proof.
  unfold DewormingTab.createIfRequested.
  assert (Hsame : Some db = Some db' ->
            filter (other_pet petId) (reminders db')
            = filter (other_pet petId) (reminders db) /\
            exists rows, reminders db' = (reminders db ++ rows)%list).
  { intros E. injection E as <-. split; [reflexivity | ].
    exists []. now rewrite app_nil_r. }
  destruct (fst fr); [ | exact Hsame].
  destruct (_ && _ && _); [ | exact Hsame].
  apply deworming_createNextReminder_other.
Qed.

(** X4.  What the six care-event handlers never do.  Creating a vaccine or
    a deworming never removes or alters a stored reminder: the new rows go
    after the old ones.  Editing or deleting a care event of one pet leaves
    the reminders of every other pet, and those attached to no pet, exactly
    as they were, in the same order. *)
Theorem handlers_spare_existing_and_foreign_reminders :
  forall (fuel : nat) (today : Z) (petId : string) (user : option string)
         (db db' : DB),
    (forall f : VaccineTab.Form,
       VaccineTab.handleSubmit fuel today petId user f db = Some db' ->
       exists rows, reminders db' = (reminders db ++ rows)%list /\
                    filter (other_pet petId) rows = []) /\
    (forall f : DewormingTab.Form,
       DewormingTab.handleSubmit fuel today petId user f db = Some db' ->
       exists rows, reminders db' = (reminders db ++ rows)%list /\
                    filter (other_pet petId) rows = []) /\
    (forall editing f,
       VaccineTab.handleUpdate fuel today petId user editing f db = Some db' ->
       filter (other_pet petId) (reminders db')
       = filter (other_pet petId) (reminders db)) /\
    (forall editing f,
       DewormingTab.handleUpdate fuel today petId user editing f db = Some db' ->
       filter (other_pet petId) (reminders db')
       = filter (other_pet petId) (reminders db)) /\
    (forall id label,
       filter (other_pet petId)
         (reminders (VaccineTab.handleDelete petId id label db))
       = filter (other_pet petId) (reminders db) /\
       filter (other_pet petId)
         (reminders (DewormingTab.handleDelete petId id label db))
       = filter (other_pet petId) (reminders db)).
Proof.
  intros fuel today petId user db db'.
  assert (Hnone : forall d0 : DB, Some d0 = Some db' ->
            exists rows, reminders db' = (reminders d0 ++ rows)%list /\
                         filter (other_pet petId) rows = []).
  { intros d0 E. injection E as <-. exists []. now rewrite app_nil_r. }
  split; [ | split; [ | split; [ | split]]].
  - intros f H. unfold VaccineTab.handleSubmit in H.
    destruct (_ || _ || _); [now apply Hnone | ].
    destruct user as [u | ]; [ | now apply Hnone].
    destruct (_ && _); [ | now apply (Hnone _ H)].
    apply vaccine_createReminders_rows in H. destruct H as (rows & Hr & E).
    exists rows. split; [exact E | ].
    apply (vaccine_rows_same_pet _ _ _ _ _ _ _ _ Hr).
  - intros f H. unfold DewormingTab.handleSubmit in H.
    destruct (_ || _ || _); [now apply Hnone | ].
    destruct user as [u | ]; [ | now apply Hnone].
    unfold DewormingTab.createIfRequested in H.
    destruct (fst (DewormingTab.frequencyOf f)); [ | now apply (Hnone _ H)].
    destruct (_ && _ && _); [ | now apply (Hnone _ H)].
    apply deworming_createNextReminder_rows in H.
    destruct H as (rows & Hr & E & _). exists rows. split; [exact E | ].
    apply (deworming_rows_same_pet _ _ _ _ _ _ _ _ _ Hr).
  - intros editing f H. unfold VaccineTab.handleUpdate in H.
    destruct editing as [e | ]; [ | now injection H as <-].
    destruct (_ || _); [now injection H as <- | ].
    destruct user as [u | ]; [ | now injection H as <-].
    destruct (_ && _).
    + apply vaccine_createReminders_other in H. destruct H as [H _].
      rewrite H. cbn [VaccineTab.update_vaccination reminders].
      rewrite reminders_delete. apply filter_other_after_delete.
    + injection H as <-. cbn [VaccineTab.update_vaccination reminders].
      rewrite reminders_delete. apply filter_other_after_delete.
  - intros editing f H. unfold DewormingTab.handleUpdate in H.
    destruct editing as [e | ]; [ | now injection H as <-].
    destruct (_ || _); [now injection H as <- | ].
    destruct user as [u | ]; [ | now injection H as <-].
    apply deworming_createIfRequested_other in H. destruct H as [H _].
    rewrite H. cbn [DewormingTab.update_deworming reminders].
    rewrite reminders_delete. apply filter_other_after_delete.
  - intros id label. split.
    + unfold VaccineTab.handleDelete.
      cbn [VaccineTab.delete_vaccination reminders].
      rewrite reminders_delete. apply filter_other_after_delete.
    + unfold DewormingTab.handleDelete.
      cbn [DewormingTab.delete_deworming reminders].
      rewrite reminders_delete. apply filter_other_after_delete.
Qed.

Lemma handlers_spare_existing_and_foreign_reminders_witness :
  exists db db',
    rabies_and_booster = Some db /\
    VaccineTab.handleUpdate 20 19875 "other pet" (Some "user")
      (Some (mkVaccine 7 "other pet" "user" "Rabies" "2020-01-01" None true
               (Some 1)))
      rabiesForm db = Some db' /\
    filter (other_pet "other pet") (reminders db') = reminders db.
Proof.
  assert (E : exists db db',
             rabies_and_booster = Some db /\
             VaccineTab.handleUpdate 20 19875 "other pet" (Some "user")
               (Some (mkVaccine 7 "other pet" "user" "Rabies" "2020-01-01" None
                        true (Some 1)))
               rabiesForm db = Some db' /\
             filter (other_pet "other pet") (reminders db) = reminders db).
  { eexists. eexists. split; [vm_compute; reflexivity | ].
    split; [vm_compute; reflexivity | vm_compute; reflexivity]. }
  destruct E as (db & db' & E1 & E2 & E3). exists db, db'.
  destruct (handlers_spare_existing_and_foreign_reminders 20 19875 "other pet"
              (Some "user") db db') as (_ & _ & Hu & _).
  rewrite (Hu _ _ E2). auto.
Defined.

(* ================================================================== *)
(** * The edit form and the cadence selector *)
(* ================================================================== *)

Lemma leading_digits_all s : all_digits s = true -> leading_digits s = s.
Proof.
  induction s as [ | c s IH]; [reflexivity | ]. cbn [all_digits leading_digits].
  destruct (digit_of_ascii c); [ | discriminate]. intros H. now rewrite IH.
Qed.

Lemma digits_fuel_nonempty fuel n acc :
  acc <> EmptyString -> digits_fuel fuel n acc <> EmptyString.
Proof.
  revert n acc. induction fuel as [ | fuel IH]; intros n acc H;
    cbn [digits_fuel]; [exact H | ].
  destruct (n / 10 =? 0); [discriminate | ]. apply IH. discriminate.
Qed.

Lemma digits_nonempty n : digits n <> EmptyString.
Proof.
  unfold digits. cbn [digits_fuel].
  destruct (n / 10 =? 0); [discriminate | ].
  apply digits_fuel_nonempty. discriminate.
Qed.

Lemma parseInt_digits n : 0 <= n -> parseInt (digits n) = Some n.
Proof.
  intros Hn. pose proof (digits_all_digits n Hn) as Hall.
  pose proof (digits_nonempty n) as Hne.
  pose proof (Number_digits n Hn) as Hnum.
  destruct (digits n) as [ | c s] eqn:E; [now destruct Hne | ].
  unfold parseInt.
  assert (Hc : digit_of_ascii c <> None).
  { cbn [all_digits] in Hall. destruct (digit_of_ascii c); [discriminate | discriminate]. }
  destruct (Ascii.eqb_spec c "-") as [-> | _]; [now destruct Hc | ].
  destruct (Ascii.eqb_spec c "+") as [-> | _]; [now destruct Hc | ].
  unfold parseDigits. rewrite (leading_digits_all _ Hall). exact Hnum.
Qed.

(** [parseInt] reads back what [String] prints, for every integer. *)
Lemma parseInt_ToString n : parseInt (ToString (Some n)) = Some n.
Proof.
  unfold ToString. destruct (Z.ltb_spec n 0) as [Hneg | Hpos].
  - cbn [parseInt]. change (Ascii.eqb "-" "-") with true. cbv iota.
    pose proof (digits_all_digits (- n) ltac:(lia)) as Hall.
    pose proof (digits_nonempty (- n)) as Hne.
    unfold parseDigits. rewrite (leading_digits_all _ Hall).
    destruct (digits (- n)) as [ | c s] eqn:E; [now destruct Hne | ].
    rewrite <- E, Number_digits by lia. cbn [option_map]. f_equal. lia.
  - now apply parseInt_digits.
Qed.

Lemma or_null_notes (o : option string) :
  o <> Some EmptyString ->
  VaccineTab.or_null (match o with Some s => s | None => EmptyString end) = o.
Proof.
  destruct o as [[ | c s] | ]; intros H; try reflexivity. now destruct H.
Qed.

Lemma createReminders_vaccinations fuel today petId userId label d fy db db' :
  VaccineTab.createReminders fuel today petId userId label d fy db = Some db' ->
  vaccinations db' = vaccinations db /\ dewormings db' = dewormings db.
Proof.
  unfold VaccineTab.createReminders.
  destruct (VaccineTab.remindersToCreate _ _ _ _ _ _ _) as [rows | ];
    [ | discriminate].
  intros H. injection H as <-. destruct (_ <? _)%nat; auto.
Qed.

Lemma createIfRequested_dewormings fuel today petId userId f fr db db' :
  DewormingTab.createIfRequested fuel today petId userId f fr db = Some db' ->
  vaccinations db' = vaccinations db /\ dewormings db' = dewormings db.
Proof.
  unfold DewormingTab.createIfRequested, DewormingTab.createNextReminder.
  assert (Hsame : Some db = Some db' ->
            vaccinations db' = vaccinations db /\ dewormings db' = dewormings db)
    by (intros E; injection E as <-; auto).
  destruct (fst fr); [ | exact Hsame].
  destruct (_ && _ && _); [ | exact Hsame].
  destruct (DewormingTab.remindersToCreate _ _ _ _ _ _ _ _) as [rows | ];
    [ | discriminate].
  intros H. injection H as <-. auto.
Qed.

(** A stored row as the create handlers write it: empty notes are stored as
    null, and the frequency is there exactly when reminders were asked for,
    in months or years and positive for a deworming. *)
Definition vaccine_row_ok (v : Vaccine) : Prop :=
  v_notes v <> Some EmptyString /\
  (if v_create_reminder v
   then reminder_frequency_years v <> None
   else reminder_frequency_years v = None).

Definition deworming_row_ok (d : Deworming) : Prop :=
  d_notes d <> Some EmptyString /\
  (if d_create_reminder d
   then exists ty n,
       reminder_frequency_type d = Some ty /\ (ty = "months" \/ ty = "year") /\
       reminder_frequency_value d = Some n /\ 0 < n
   else reminder_frequency_type d = None /\ reminder_frequency_value d = None).

Lemma vaccine_edit_frequency v :
  vaccine_row_ok v ->
  VaccineTab.frequencyYearsOf (snd (VaccineTab.handleEdit v))
  = reminder_frequency_years v.
Proof.
  intros [_ H]. unfold VaccineTab.frequencyYearsOf.
  cbn [VaccineTab.handleEdit snd VaccineTab.createReminder
       VaccineTab.reminderFrequency].
  destruct (v_create_reminder v); [ | now rewrite H].
  destruct (reminder_frequency_years v) as [n | ]; [ | now destruct H].
  apply parseInt_ToString.
Qed.

Lemma deworming_edit_frequency d :
  deworming_row_ok d ->
  DewormingTab.frequencyOf (snd (DewormingTab.handleEdit d))
  = (reminder_frequency_type d, reminder_frequency_value d).
Proof.
  intros [_ H]. unfold DewormingTab.frequencyOf.
  cbn [DewormingTab.handleEdit snd DewormingTab.createReminder
       DewormingTab.reminderFrequency].
  destruct (d_create_reminder d).
  - destruct H as (ty & n & -> & Hty & -> & Hn).
    assert (Ht : truthy (Some n) = true).
    { cbn [truthy]. destruct (Z.eqb_spec n 0); [lia | reflexivity]. }
    rewrite Ht, ToString_nonneg by lia.
    pose proof (digits_all_digits n ltac:(lia)) as Hall.
    destruct Hty as [-> | ->].
    + change (negb (VaccineTab.is_empty "months") && true) with true. cbv iota.
      change (String.eqb "months" "months") with true. cbv iota.
      change (digits n ++ "-" ++ "month")%string
        with (digits n ++ String "-" "month")%string.
      rewrite (split_digits_dash _ _ Hall).
      change (split "-" "month") with ["month"].
      change (String.eqb "month" "month") with true. cbv iota.
      now rewrite parseInt_digits by lia.
    + change (negb (VaccineTab.is_empty "year") && true) with true. cbv iota.
      change (String.eqb "year" "months") with false. cbv iota.
      change (digits n ++ "-" ++ "year")%string
        with (digits n ++ String "-" "year")%string.
      rewrite (split_digits_dash _ _ Hall).
      change (split "-" "year") with ["year"].
      change (String.eqb "year" "month") with false. cbv iota.
      now rewrite parseInt_digits by lia.
  - destruct H as [-> ->]. reflexivity.
Qed.

(** X5.  Opening a care event for editing and saving the form untouched
    writes the same row back: for a vaccine or deworming row as the create
    handlers store it, the edit form decodes to the stored frequency, and
    after [handleUpdate] the vaccinations and dewormings tables are what
    they were (the row's identifier being a key of its table). *)
Theorem untouched_edit_keeps_the_care_event :
  forall (fuel : nat) (today : Z) (petId : string) (user : option string)
         (db db' : DB),
    (forall v,
       vaccine_row_ok v ->
       (forall w, In w (vaccinations db) -> v_id w = v_id v -> w = v) ->
       VaccineTab.handleUpdate fuel today petId user
         (fst (VaccineTab.handleEdit v)) (snd (VaccineTab.handleEdit v)) db
       = Some db' ->
       vaccinations db' = vaccinations db /\ dewormings db' = dewormings db) /\
    (forall d,
       deworming_row_ok d ->
       (forall w, In w (dewormings db) -> d_id w = d_id d -> w = d) ->
       DewormingTab.handleUpdate fuel today petId user
         (fst (DewormingTab.handleEdit d)) (snd (DewormingTab.handleEdit d)) db
       = Some db' ->
       vaccinations db' = vaccinations db /\ dewormings db' = dewormings db).
Proof.
  intros fuel today petId user db db'. split.
  - intros v Hok Hkey H. unfold VaccineTab.handleUpdate in H.
    cbn [fst VaccineTab.handleEdit] in H. fold (VaccineTab.handleEdit v) in H.
    destruct (_ || _); [now injection H as <- | ].
    destruct user as [u | ]; [ | now injection H as <-].
    rewrite (vaccine_edit_frequency v Hok) in H.
    assert (Hrow : forall db0,
               vaccinations (VaccineTab.update_vaccination (v_id v)
                               (snd (VaccineTab.handleEdit v))
                               (reminder_frequency_years v)
                               (delete_reminders petId db0 "%Vacuna%" db))
               = vaccinations db).
    { intros db0. cbn [VaccineTab.update_vaccination vaccinations delete_reminders].
      rewrite <- (map_id (vaccinations db)) at 2. apply map_ext_in.
      intros w Hw. destruct (Nat.eqb_spec (v_id w) (v_id v)) as [E | _];
        [ | reflexivity].
      rewrite (Hkey w Hw E).
      cbn [snd VaccineTab.handleEdit VaccineTab.vaccineType VaccineTab.date
           VaccineTab.notes VaccineTab.createReminder].
      rewrite (or_null_notes _ (proj1 Hok)). now destruct v. }
    destruct (_ && _).
    + apply createReminders_vaccinations in H. destruct H as [H1 H2].
      rewrite H1, H2, Hrow. auto.
    + injection H as <-. rewrite Hrow. auto.
  - intros d Hok Hkey H. unfold DewormingTab.handleUpdate in H.
    cbn [fst DewormingTab.handleEdit] in H. fold (DewormingTab.handleEdit d) in H.
    destruct (_ || _); [now injection H as <- | ].
    destruct user as [u | ]; [ | now injection H as <-].
    rewrite (deworming_edit_frequency d Hok) in H.
    apply createIfRequested_dewormings in H. destruct H as [H1 H2].
    rewrite H1, H2. split; [reflexivity | ].
    cbn [DewormingTab.update_deworming dewormings delete_reminders fst snd].
    rewrite <- (map_id (dewormings db)) at 2. apply map_ext_in.
    intros w Hw. destruct (Nat.eqb_spec (d_id w) (d_id d)) as [E | _];
      [ | reflexivity].
    rewrite (Hkey w Hw E).
    cbn [snd DewormingTab.handleEdit DewormingTab.dewormingType
         DewormingTab.date DewormingTab.notes DewormingTab.createReminder].
    rewrite (or_null_notes _ (proj1 Hok)). now destruct d.
Qed.

Lemma untouched_edit_keeps_the_care_event_witness :
  exists v db db',
    VaccineTab.handleSubmit 20 19875 "pet" (Some "user") rabiesForm empty_db
    = Some db /\
    vaccinations db = [v] /\
    vaccine_row_ok v /\
    VaccineTab.handleUpdate 20 19875 "pet" (Some "user")
      (fst (VaccineTab.handleEdit v)) (snd (VaccineTab.handleEdit v)) db
    = Some db' /\
    vaccinations db' = [v].
Proof.
  assert (E : exists v db db',
             VaccineTab.handleSubmit 20 19875 "pet" (Some "user") rabiesForm
               empty_db = Some db /\
             vaccinations db = [v] /\
             (v_notes v = None /\ v_create_reminder v = true /\
              reminder_frequency_years v = Some 1) /\
             VaccineTab.handleUpdate 20 19875 "pet" (Some "user")
               (fst (VaccineTab.handleEdit v)) (snd (VaccineTab.handleEdit v))
               db = Some db').
  { exists (mkVaccine 0 "pet" "user" "Rabies" "2019-03-15" None true (Some 1)).
    eexists. eexists. split; [vm_compute; reflexivity | ].
    split; [vm_compute; reflexivity | ].
    split; [repeat split | vm_compute; reflexivity]. }
  destruct E as (v & db & db' & E1 & E2 & (N & C & F) & E3).
  assert (Hok : vaccine_row_ok v).
  { split; [rewrite N; discriminate | rewrite C, F; discriminate]. }
  assert (Hkey : forall w, In w (vaccinations db) -> v_id w = v_id v -> w = v).
  { rewrite E2. intros w [<- | []] _. reflexivity. }
  destruct (untouched_edit_keeps_the_care_event 20 19875 "pet" (Some "user")
              db db') as [Hv _].
  destruct (Hv v Hok Hkey E3) as [H _]. rewrite E2 in H.
  exists v, db, db'.
  split; [exact E1 | ]. split; [exact E2 | ]. split; [exact Hok | ].
  split; [exact E3 | exact H].
Defined.

(** X6.  The deworming form reads its cadence as [value-unit] and stores
    months only when the unit is exactly [month].  The selector's plural
    values ([3-months], [6-months]) are therefore stored, and later stepped,
    as that many years; only [n-month] gives months. *)
Theorem plural_months_are_stored_as_years :
  forall (f : DewormingTab.Form) (n : Z),
    0 <= n ->
    DewormingTab.createReminder f = true ->
    (DewormingTab.reminderFrequency f = (digits n ++ "-months")%string ->
     DewormingTab.frequencyOf f = (Some "year", Some n) /\
     forall d, DewormingTab.advance "year" (Some n) d
               = VaccineTab.addYears (Some n) d) /\
    (DewormingTab.reminderFrequency f = (digits n ++ "-month")%string ->
     DewormingTab.frequencyOf f = (Some "months", Some n)) /\
    (DewormingTab.reminderFrequency f = (digits n ++ "-year")%string ->
     DewormingTab.frequencyOf f = (Some "year", Some n)).
Proof.
  intros f n Hn Hc. pose proof (digits_all_digits n Hn) as Hall.
  unfold DewormingTab.frequencyOf. rewrite Hc.
  split; [ | split]; intros ->.
  - split; [ | intros d; apply advance_year].
    change (digits n ++ "-months")%string
      with (digits n ++ String "-" "months")%string.
    rewrite (split_digits_dash _ _ Hall).
    change (split "-" "months") with ["months"].
    change (String.eqb "months" "month") with false. cbv iota.
    now rewrite parseInt_digits.
  - change (digits n ++ "-month")%string
      with (digits n ++ String "-" "month")%string.
    rewrite (split_digits_dash _ _ Hall).
    change (split "-" "month") with ["month"].
    change (String.eqb "month" "month") with true. cbv iota.
    now rewrite parseInt_digits.
  - change (digits n ++ "-year")%string
      with (digits n ++ String "-" "year")%string.
    rewrite (split_digits_dash _ _ Hall).
    change (split "-" "year") with ["year"].
    change (String.eqb "year" "month") with false. cbv iota.
    now rewrite parseInt_digits.
Qed.

Lemma plural_months_are_stored_as_years_witness :
  DewormingTab.frequencyOf
    (DewormingTab.mkForm "Drontal" "2024-05-10" "" true "3-months")
  = (Some "year", Some 3).
Proof.
  exact (proj1 (proj1 (plural_months_are_stored_as_years
                         (DewormingTab.mkForm "Drontal" "2024-05-10" "" true
                            "3-months")
                         3 ltac:(lia) eq_refl) eq_refl)).
Defined.

(* ================================================================== *)
(** * The description markers of the delete filters *)
(* ================================================================== *)

Fixpoint has_char (c : ascii) (s : string) : bool :=
  match s with
  | EmptyString => false
  | String c' s' => Ascii.eqb c c' || has_char c s'
  end.

Lemma has_char_app c s t :
  has_char c (s ++ t)%string = has_char c s || has_char c t.
Proof.
  induction s as [ | a s IH]; [reflexivity | ].
  cbn [String.append has_char]. now rewrite IH, orb_assoc.
Qed.

(** A pattern [%c...] matches only values in which [c] occurs. *)
Lemma like_match_needs_char c p s :
  has_char c s = false -> like_match (AnyString :: Literal c :: p) s = false.
Proof.
  induction s as [ | a s IH]; intros H; [reflexivity | ].
  cbn [has_char] in H. apply orb_false_iff in H. destruct H as [Ha Hs].
  change (like_match (AnyString :: Literal c :: p) (String a s))
    with (Ascii.eqb c a && like_match p s
          || like_match (AnyString :: Literal c :: p) s).
  now rewrite Ha, (IH Hs).
Qed.

Lemma like_Vacuna d : has_char "V" d = false -> like "%Vacuna%" d = false.
Proof.
  intros H. unfold like.
  replace (like_tokens (map_string star "%Vacuna%"))
    with (Some (AnyString :: Literal "V"
                :: map Literal (list_ascii_of_string "acuna") ++ [AnyString])%list)
    by reflexivity.
  now apply like_match_needs_char.
Qed.

Lemma like_Desparasitacion d :
  has_char "D" d = false -> like "%Desparasitación%" d = false.
Proof.
  intros H. unfold like.
  replace (like_tokens (map_string star "%Desparasitación%"))
    with (Some (AnyString :: Literal "D"
                :: map Literal (list_ascii_of_string "esparasitación")
                ++ [AnyString])%list)
    by reflexivity.
  now apply like_match_needs_char.
Qed.

(** A reminder written by one of the two engines for a care event whose
    name has neither a capital V nor a capital D. *)
Definition engine_row (r : Reminder) : Prop :=
  exists petId userId label d,
    has_char "V" label = false /\ has_char "D" label = false /\
    (r = VaccineTab.reminderFor petId userId label d \/
     r = DewormingTab.reminderFor petId userId label d).

Lemma engine_row_not_selected petId tp r :
  engine_row r ->
  selected petId tp "%Vacuna%" r = false /\
  selected petId tp "%Desparasitación%" r = false.
Proof.
  intros (p & u & label & d & HV & HD & [-> | ->]); unfold selected;
    cbn [description VaccineTab.reminderFor DewormingTab.reminderFor];
    (rewrite like_Vacuna by (rewrite has_char_app, HV; reflexivity));
    (rewrite like_Desparasitacion by (rewrite has_char_app, HD; reflexivity));
    now rewrite !andb_false_r.
Qed.

Lemma delete_keeps_engine_rows petId tp db :
  Forall engine_row (reminders db) ->
  reminders (delete_reminders petId tp "%Vacuna%" db) = reminders db /\
  reminders (delete_reminders petId tp "%Desparasitación%" db) = reminders db.
Proof.
  intros H. rewrite !reminders_delete.
  induction H as [ | r l Hr _ [IH1 IH2]]; [split; reflexivity | ].
  destruct (engine_row_not_selected petId tp r Hr) as [E1 E2].
  cbn [filter]. rewrite E1, E2. cbn [negb]. now rewrite IH1, IH2.
Qed.

Lemma vaccine_rows_engine fuel today petId userId label start fy rows :
  has_char "V" label = false -> has_char "D" label = false ->
  VaccineTab.remindersToCreate fuel today petId userId label start fy
  = Some rows ->
  Forall engine_row rows.
Proof.
  intros HV HD H. apply Forall_forall. intros r Hr.
  destruct (vaccine_rows_in _ _ _ _ _ _ _ _ _ H Hr) as (_ & _ & d & _ & _ & -> & _).
  exists petId, userId, label, (DateAt d). auto.
Qed.

Lemma deworming_rows_engine fuel today petId userId label start ty fv rows :
  has_char "V" label = false -> has_char "D" label = false ->
  DewormingTab.remindersToCreate fuel today petId userId label start ty fv
  = Some rows ->
  Forall engine_row rows.
Proof.
  intros HV HD. rewrite deworming_rows_unfold.
  destruct (EngineFacts.backlog _ _ _ _) as [next | ]; [ | discriminate].
  intros H. injection H as <-.
  destruct (date_le _ _); constructor; [ | constructor].
  exists petId, userId, label, next. auto.
Qed.

(** X7.  The description markers never match what the engines write: the
    delete filters ask for a description containing [Vacuna] or
    [Desparasitación], while the engines write "... la vacuna ..." and
    "... la desparasitación ...".  So, while every care event has a name
    without a capital V or D, all stored reminders are engine rows of that
    kind (the create handlers keep it so), and then deleting a care event
    removes no reminder and editing one only appends reminders to those
    already stored. *)
Theorem delete_and_edit_never_remove_generated_reminders :
  forall db : DB,
    Forall engine_row (reminders db) ->
    (forall fuel today petId user f db',
       has_char "V" (VaccineTab.vaccineType f) = false ->
       has_char "D" (VaccineTab.vaccineType f) = false ->
       VaccineTab.handleSubmit fuel today petId user f db = Some db' ->
       Forall engine_row (reminders db')) /\
    (forall fuel today petId user f db',
       has_char "V" (DewormingTab.dewormingType f) = false ->
       has_char "D" (DewormingTab.dewormingType f) = false ->
       DewormingTab.handleSubmit fuel today petId user f db = Some db' ->
       Forall engine_row (reminders db')) /\
    (forall petId id label,
       reminders (VaccineTab.handleDelete petId id label db) = reminders db /\
       reminders (DewormingTab.handleDelete petId id label db) = reminders db) /\
    (forall fuel today petId user editing f db',
       VaccineTab.handleUpdate fuel today petId user editing f db = Some db' ->
       exists rows, reminders db' = (reminders db ++ rows)%list) /\
    (forall fuel today petId user editing f db',
       DewormingTab.handleUpdate fuel today petId user editing f db = Some db' ->
       exists rows, reminders db' = (reminders db ++ rows)%list).
Proof.
  intros db Hdb.
  assert (Hnone : forall d0 db' : DB,
             Some d0 = Some db' -> reminders d0 = reminders db ->
             exists rows, reminders db' = (reminders db ++ rows)%list).
  { intros d0 db' E R. injection E as <-. exists []. now rewrite app_nil_r. }
  split; [ | split; [ | split; [ | split]]].
  - intros fuel today petId user f db' HV HD H.
    unfold VaccineTab.handleSubmit in H.
    destruct (_ || _ || _); [now injection H as <- | ].
    destruct user as [u | ]; [ | now injection H as <-].
    destruct (_ && _); [ | now injection H as <-].
    apply vaccine_createReminders_rows in H. destruct H as (rows & Hr & ->).
    apply Forall_app. split; [exact Hdb | ].
    now apply (vaccine_rows_engine _ _ _ _ _ _ _ _ HV HD Hr).
  - intros fuel today petId user f db' HV HD H.
    unfold DewormingTab.handleSubmit in H.
    destruct (_ || _ || _); [now injection H as <- | ].
    destruct user as [u | ]; [ | now injection H as <-].
    unfold DewormingTab.createIfRequested in H.
    destruct (fst (DewormingTab.frequencyOf f)); [ | now injection H as <-].
    destruct (_ && _ && _); [ | now injection H as <-].
    apply deworming_createNextReminder_rows in H.
    destruct H as (rows & Hr & -> & _).
    apply Forall_app. split; [exact Hdb | ].
    now apply (deworming_rows_engine _ _ _ _ _ _ _ _ _ HV HD Hr).
  - intros petId id label.
    destruct (delete_keeps_engine_rows petId ("%" ++ label ++ "%") db Hdb)
      as [E1 E2].
    split; [exact E1 | exact E2].
  - intros fuel today petId user editing f db' H.
    unfold VaccineTab.handleUpdate in H.
    destruct editing as [e | ]; [ | now apply (Hnone _ _ H)].
    destruct (_ || _); [now apply (Hnone _ _ H) | ].
    destruct user as [u | ]; [ | now apply (Hnone _ _ H)].
    destruct (delete_keeps_engine_rows petId
                ("%" ++ vaccine_type e ++ "%") db Hdb) as [E _].
    destruct (_ && _).
    + apply vaccine_createReminders_rows in H. destruct H as (rows & _ & H).
      exists rows. rewrite H. cbn [VaccineTab.update_vaccination reminders].
      now rewrite E.
    + apply (Hnone _ _ H). cbn [VaccineTab.update_vaccination reminders].
      exact E.
  - intros fuel today petId user editing f db' H.
    unfold DewormingTab.handleUpdate in H.
    destruct editing as [e | ]; [ | now apply (Hnone _ _ H)].
    destruct (_ || _); [now apply (Hnone _ _ H) | ].
    destruct user as [u | ]; [ | now apply (Hnone _ _ H)].
    destruct (delete_keeps_engine_rows petId
                ("%" ++ deworming_type e ++ "%") db Hdb) as [_ E].
    unfold DewormingTab.createIfRequested in H.
    destruct (fst (DewormingTab.frequencyOf f)).
    + destruct (_ && _ && _).
      * apply deworming_createNextReminder_rows in H.
        destruct H as (rows & _ & H & _). exists rows. rewrite H.
        cbn [DewormingTab.update_deworming reminders]. now rewrite E.
      * apply (Hnone _ _ H). cbn [DewormingTab.update_deworming reminders].
        exact E.
    + apply (Hnone _ _ H). cbn [DewormingTab.update_deworming reminders].
      exact E.
Qed.

Lemma delete_and_edit_never_remove_generated_reminders_witness :
  exists db,
    rabies_and_booster = Some db /\
    Forall engine_row (reminders db) /\
    List.length (reminders db) = 20%nat /\
    reminders (VaccineTab.handleDelete "pet" 0 "Rabies" db) = reminders db.
Proof.
  assert (E : exists db1 db,
             VaccineTab.handleSubmit 20 19875 "pet" (Some "user") rabiesForm
               empty_db = Some db1 /\
             VaccineTab.handleSubmit 20 19875 "pet" (Some "user") boosterForm
               db1 = Some db /\
             rabies_and_booster = Some db /\
             List.length (reminders db) = 20%nat).
  { eexists. eexists. split; [vm_compute; reflexivity | ].
    split; [vm_compute; reflexivity | ].
    split; [vm_compute; reflexivity | vm_compute; reflexivity]. }
  destruct E as (db1 & db & E1 & E2 & E3 & E4).
  assert (H0 : Forall engine_row (reminders empty_db)) by constructor.
  assert (H1 : Forall engine_row (reminders db1)).
  { destruct (delete_and_edit_never_remove_generated_reminders empty_db H0)
      as [Hs _].
    apply (Hs 20%nat 19875 "pet" (Some "user") rabiesForm db1);
      [reflexivity | reflexivity | exact E1]. }
  assert (H2 : Forall engine_row (reminders db)).
  { destruct (delete_and_edit_never_remove_generated_reminders db1 H1)
      as [Hs _].
    apply (Hs 20%nat 19875 "pet" (Some "user") boosterForm db);
      [reflexivity | reflexivity | exact E2]. }
  exists db. split; [exact E3 | ]. split; [exact H2 | ]. split; [exact E4 | ].
  destruct (delete_and_edit_never_remove_generated_reminders db H2)
    as (_ & _ & Hd & _).
  exact (proj1 (Hd "pet" 0%nat "Rabies")).
Defined.

(* ================================================================== *)
(** * The calendar page and the reminders of the engines *)
(* ================================================================== *)

Lemma DayFromYear_mono a b : a <= b -> DayFromYear a <= DayFromYear b.
Proof. intros H. unfold DayFromYear. CalendarFacts.euclid. Qed.

Lemma YearFromDay_from y d : DayFromYear y <= d -> y <= YearFromDay d.
Proof.
  intros H. pose proof (CalendarFacts.YearFromDay_spec d) as S.
  destruct (Z.le_gt_cases y (YearFromDay d)) as [L | G]; [exact L | ].
  pose proof (DayFromYear_mono (YearFromDay d + 1) y ltac:(lia)). lia.
Qed.

Lemma parse_format_day d :
  - maxDay <= d <= maxDay -> 100 <= YearFromDay d ->
  parseDateString (formatDateString (DateAt d)) = DateAt d.
Proof.
  intros Hr Hy. unfold parseDateString. rewrite parse_format_pieces by lia.
  unfold newDate, num_sub.
  destruct (Z.leb_spec (YearFromDay d) 99); [lia | ].
  rewrite andb_false_r.
  replace (MonthFromDay d + 1 - 1) with (MonthFromDay d) by lia.
  rewrite CalendarFacts.MakeDay_components.
  now apply TimeClip_in_range.
Qed.

Lemma within_horizon_in_range today d :
  date_le (DateAt d) (VaccineTab.maxDate today) = true -> d <= maxDay.
Proof.
  intros H. destruct (VaccineTab.maxDate today) as [m | ] eqn:E;
    [ | discriminate].
  rewrite maxDate_eq, addYears_eq in E. apply TimeClip_inv in E.
  cbn [date_le] in H. apply Z.leb_le in H. lia.
Qed.

(** A due date on or after today, within the horizon. *)
Definition due (today : Z) (r : Reminder) : Prop :=
  exists d, today <= d /\
            date_le (DateAt d) (VaccineTab.maxDate today) = true /\
            reminder_date r = formatDateString (DateAt d) /\
            completed r = false.

Lemma due_parse today r :
  DayFromYear 100 <= today -> due today r ->
  exists d, today <= d /\
            reminder_date r = formatDateString (DateAt d) /\
            parseDateString (reminder_date r) = DateAt d /\
            completed r = false.
Proof.
  intros Ht (d & Hd & Hle & E & C). exists d. split; [exact Hd | ].
  split; [exact E | ].
  split; [ | exact C]. rewrite E. apply parse_format_day.
  - pose proof (within_horizon_in_range _ _ Hle).
    assert (- maxDay <= DayFromYear 100) by (vm_compute; discriminate). lia.
  - apply YearFromDay_from. lia.
Qed.

Lemma vaccine_rows_due fuel today petId userId label s n rows :
  0 < n ->
  VaccineTab.remindersToCreate fuel today petId userId label (DateAt s) (Some n)
  = Some rows ->
  Forall (due today) rows.
Proof.
  intros Hn H. apply Forall_forall. intros r Hr.
  destruct (vaccine_rows_after _ _ _ _ _ _ _ _ _ Hn H Hr)
    as (d & -> & Hs & Ht & Hle).
  exists d. split; [lia | ]. split; [exact Hle | ]. split; reflexivity.
Qed.

Lemma deworming_rows_due fuel today petId userId label s ty n rows :
  0 < n -> ty = "months" \/ ty = "year" ->
  DewormingTab.remindersToCreate fuel today petId userId label (DateAt s) ty
    (Some n) = Some rows ->
  Forall (due today) rows.
Proof.
  intros Hn Hty. rewrite deworming_rows_unfold.
  destruct (EngineFacts.backlog _ _ _ _) as [next | ] eqn:Hb; [ | discriminate].
  intros H. injection H as <-.
  destruct (date_le next (DewormingTab.maxDate today)) eqn:Hle;
    constructor; [ | constructor].
  destruct (date_le_valid _ _ Hle) as [x ->].
  destruct (EngineFacts.backlog_ascending _ _ _ _ _ x
              (advance_ascending ty n Hn Hty) Hb eq_refl) as [Hs Ht].
  exists x. split; [lia | ]. rewrite <- maxDate_same.
  split; [exact Hle | ]. split; reflexivity.
Qed.

Lemma filter_all {A : Type} (p : A -> bool) (l : list A) :
  Forall (fun x => p x = true) l -> filter p l = l.
Proof.
  induction 1 as [ | x l Hx _ IH]; [reflexivity | ].
  cbn [filter]. now rewrite Hx, IH.
Qed.

(** X8.  What the engines write is what the calendar shows.  On the day a
    vaccine or deworming run with a positive interval stores its reminders
    (today's year being 100 or later), every one of them is read back by the
    calendar page as the due date it was written for, which is today or
    later; it is listed for that day, and it passes the filter of the
    upcoming list.  The upcoming list of a user who has these reminders only
    is therefore their first five. *)
Theorem generated_reminders_show_on_the_calendar :
  forall (fuel : nat) (today s n : Z) (petId userId label : string)
         (rows : list Reminder) (page : list CalendarPage.Row),
    0 < n ->
    DayFromYear 100 <= today ->
    VaccineTab.remindersToCreate fuel today petId userId label (DateAt s)
      (Some n) = Some rows \/
    (exists ty, (ty = "months" \/ ty = "year") /\
                DewormingTab.remindersToCreate fuel today petId userId label
                  (DateAt s) ty (Some n) = Some rows) ->
    map CalendarPage.columns page = rows ->
    (forall r, In r page ->
       exists d,
         today <= d /\
         reminder_date (CalendarPage.columns r) = formatDateString (DateAt d) /\
         CalendarPage.parseDateString (reminder_date (CalendarPage.columns r))
         = DateAt d /\
         In r (CalendarPage.selectedDateReminders (Some (DateAt d)) page) /\
         CalendarPage.isUpcoming today r = true) /\
    CalendarPage.getUpcomingReminders today page = firstn 5 page.
Proof.
  intros fuel today s n petId userId label rows page Hn Ht Hrun Hpage.
  assert (Hdue : Forall (due today) rows).
  { destruct Hrun as [H | (ty & Hty & H)].
    - now apply (vaccine_rows_due _ _ _ _ _ _ _ _ Hn H).
    - now apply (deworming_rows_due _ _ _ _ _ _ _ _ _ Hn Hty H). }
  assert (Hall : forall r, In r page ->
            exists d,
              today <= d /\
              reminder_date (CalendarPage.columns r)
              = formatDateString (DateAt d) /\
              CalendarPage.parseDateString
                (reminder_date (CalendarPage.columns r)) = DateAt d /\
              In r (CalendarPage.selectedDateReminders (Some (DateAt d)) page) /\
              CalendarPage.isUpcoming today r = true).
  { intros r Hr.
    assert (Hd : due today (CalendarPage.columns r)).
    { rewrite Forall_forall in Hdue. apply Hdue. rewrite <- Hpage.
      now apply in_map. }
    destruct (due_parse _ _ Ht Hd) as (d & Hle & E0 & E & C).
    exists d. split; [exact Hle | ]. split; [exact E0 | ].
    split; [exact E | ]. split.
    - cbn [CalendarPage.selectedDateReminders]. apply filter_In.
      split; [exact Hr | ]. unfold CalendarPage.parseDateString. rewrite E.
      cbn [CalendarPage.isSameDay]. apply Z.eqb_refl.
    - unfold CalendarPage.isUpcoming, CalendarPage.parseDateString.
      rewrite E, C. cbn [date_le negb]. rewrite andb_true_r.
      now apply Z.leb_le. }
  split; [exact Hall | ].
  unfold CalendarPage.getUpcomingReminders. f_equal. apply filter_all.
  apply Forall_forall. intros r Hr.
  destruct (Hall r Hr) as (_ & _ & _ & _ & _ & H). exact H.
Qed.

Lemma generated_reminders_show_on_the_calendar_witness :
  exists (s : Z) (rows : list Reminder),
    parseDateString "2019-03-15" = DateAt s /\
    VaccineTab.remindersToCreate 20 19875 "pet" "user" "Rabies" (DateAt s)
      (Some 1) = Some rows /\
    List.length rows = 10%nat /\
    let page := map (fun r => CalendarPage.mkRow (reminder_date r) r) rows in
    CalendarPage.getUpcomingReminders 19875 page = firstn 5 page.
Proof.
  assert (E : exists (s : Z) (rows : list Reminder),
             parseDateString "2019-03-15" = DateAt s /\
             VaccineTab.remindersToCreate 20 19875 "pet" "user" "Rabies"
               (DateAt s) (Some 1) = Some rows /\
             List.length rows = 10%nat).
  { eexists. eexists. split; [vm_compute; reflexivity | ].
    split; [vm_compute; reflexivity | vm_compute; reflexivity]. }
  destruct E as (s & rows & E1 & E2 & E3). exists s, rows.
  split; [exact E1 | ]. split; [exact E2 | ]. split; [exact E3 | ].
  intros page.
  assert (Ht : DayFromYear 100 <= 19875) by (vm_compute; discriminate).
  assert (Hp : map CalendarPage.columns page = rows).
  { unfold page. rewrite map_map. cbn [CalendarPage.columns]. apply map_id. }
  exact (proj2 (generated_reminders_show_on_the_calendar 20 19875 s 1 "pet"
                  "user" "Rabies" rows page ltac:(lia) Ht (or_introl E2) Hp)).
Defined.

Lemma In_firstn {A : Type} (n : nat) (x : A) (l : list A) :
  In x (firstn n l) -> In x l.
Proof.
  intros H. rewrite <- (firstn_skipn n l). apply in_or_app. now left.
Qed.

Lemma upcoming_after_marking today i rs :
  filter (CalendarPage.isUpcoming today) (CalendarPage.markAsCompleted i rs)
  = filter (fun r => negb (String.eqb (CalendarPage.id r) i))
           (filter (CalendarPage.isUpcoming today) rs).
Proof.
  unfold CalendarPage.markAsCompleted.
  induction rs as [ | r rs IH]; [reflexivity | ].
  cbn [map filter]. destruct (String.eqb (CalendarPage.id r) i) eqn:E.
  - unfold CalendarPage.isUpcoming at 1.
    cbn [CalendarPage.columns completed negb]. rewrite andb_false_r.
    destruct (CalendarPage.isUpcoming today r); [ | exact IH].
    cbn [filter]. rewrite E. exact IH.
  - destruct (CalendarPage.isUpcoming today r); [ | exact IH].
    cbn [filter]. rewrite E. cbn [negb]. now rewrite IH.
Qed.

(** X9.  Marking a reminder as completed takes exactly the rows of that id
    out of the upcoming list and lets later rows move up: the list becomes
    the first five of the upcoming rows with another id.  It changes no id
    and no date, the days with reminders stay what they were, and marking
    again changes nothing. *)
Theorem completing_a_reminder_frees_its_upcoming_slot :
  forall (today : Z) (reminderId : string) (reminders : list CalendarPage.Row),
    let after := CalendarPage.markAsCompleted reminderId reminders in
    CalendarPage.getUpcomingReminders today after
    = firstn 5 (filter (fun r => negb (String.eqb (CalendarPage.id r) reminderId))
                       (filter (CalendarPage.isUpcoming today) reminders)) /\
    (forall r, In r (CalendarPage.getUpcomingReminders today after) ->
               CalendarPage.id r <> reminderId /\ In r reminders) /\
    map CalendarPage.id after = map CalendarPage.id reminders /\
    CalendarPage.getDatesWithReminders after
    = CalendarPage.getDatesWithReminders reminders /\
    CalendarPage.markAsCompleted reminderId after = after.
Proof.
  intros today i rs after. unfold after.
  assert (E : CalendarPage.getUpcomingReminders today
                (CalendarPage.markAsCompleted i rs)
              = firstn 5 (filter (fun r => negb (String.eqb (CalendarPage.id r) i))
                            (filter (CalendarPage.isUpcoming today) rs))).
  { unfold CalendarPage.getUpcomingReminders. now rewrite upcoming_after_marking. }
  split; [exact E | ]. split; [ | split; [ | split]].
  - intros r Hr. rewrite E in Hr. apply In_firstn in Hr.
    apply filter_In in Hr. destruct Hr as [Hr Hi].
    apply filter_In in Hr. destruct Hr as [Hr _]. split; [ | exact Hr].
    intros Heq. rewrite Heq, String.eqb_refl in Hi. discriminate.
  - unfold CalendarPage.markAsCompleted. rewrite map_map. apply map_ext.
    intros r. now destruct (String.eqb (CalendarPage.id r) i).
  - unfold CalendarPage.getDatesWithReminders, CalendarPage.markAsCompleted.
    rewrite map_map. apply map_ext.
    intros r. now destruct (String.eqb (CalendarPage.id r) i).
  - unfold CalendarPage.markAsCompleted. rewrite map_map.
    apply map_ext. intros r.
    cbv beta. destruct (String.eqb (CalendarPage.id r) i) eqn:Hi; cbv iota.
    + cbn [CalendarPage.id CalendarPage.columns]. rewrite Hi.
      cbn [user_id pet_id title description reminder_date type]. reflexivity.
    + now rewrite Hi.
Qed.

(* ================================================================== *)
(** * The weight series and its table *)
(* ================================================================== *)

Lemma oldestFirst_by_key (num : Type) (a b : WeightTab.Entry num) :
  valid_date (WeightTab.e_date num a) -> valid_date (WeightTab.e_date num b) ->
  exceeds (WeightTab.oldestFirst num) a b
  = (dayOf (WeightTab.e_date num b) <? dayOf (WeightTab.e_date num a)).
Proof.
  unfold valid_date, exceeds, WeightTab.oldestFirst, dayOf.
  destruct (newDateFromString (WeightTab.e_date num a)) as [x | ]; [ | congruence].
  destruct (newDateFromString (WeightTab.e_date num b)) as [y | ]; [ | congruence].
  intros _ _. cbn [getTime num_sub]. unfold msPerDay.
  destruct (Z.ltb_spec 0 (x * 86400000 - y * 86400000)),
    (Z.ltb_spec y x); try reflexivity; lia.
Qed.

Lemma StronglySorted_snoc {A : Type} (R : A -> A -> Prop) l x :
  StronglySorted R l -> Forall (fun a => R a x) l ->
  StronglySorted R (l ++ [x]).
Proof.
  induction 1 as [ | a l Hs IH Ha]; intros Hx; cbn [app].
  - repeat constructor.
  - inversion Hx; subst. constructor; [now apply IH | ].
    apply Forall_app. split; [exact Ha | now constructor].
Qed.

Lemma StronglySorted_rev {A : Type} (R : A -> A -> Prop) l :
  StronglySorted R l -> StronglySorted (fun a b => R b a) (rev l).
Proof.
  induction 1 as [ | a l Hs IH Ha]; cbn [rev]; [constructor | ].
  apply StronglySorted_snoc; [exact IH | ].
  apply Forall_forall. intros b Hb. apply in_rev in Hb.
  rewrite Forall_forall in Ha. now apply Ha.
Qed.

(** X10.  The weight series is the synthetic initial entry (if any) and the
    weight records, ordered by date, oldest first, entries of one date
    keeping the order they were pushed in; the table, which shows the series
    reversed, runs from the most recent date to the oldest. *)
Theorem weight_series_oldest_first :
  forall (num : Type) (pets : list (WeightTab.Pet num)) (selectedPetId : string)
         (weightRecords : list (WeightTab.WeightRecord num)),
    let pushed := (WeightTab.initialEntry num pets selectedPetId weightRecords
                   ++ map (WeightTab.recordEntry num) weightRecords)%list in
    let series := WeightTab.allWeightRecords num pets selectedPetId
                    weightRecords in
    Forall (fun e => valid_date (WeightTab.e_date num e)) pushed ->
    Permutation pushed series /\
    StronglySorted
      (fun a b => dayOf (WeightTab.e_date num a) <= dayOf (WeightTab.e_date num b))
      series /\
    (forall day,
       filter (fun e => dayOf (WeightTab.e_date num e) =? day) series
       = filter (fun e => dayOf (WeightTab.e_date num e) =? day) pushed) /\
    StronglySorted
      (fun a b => dayOf (WeightTab.e_date num b) <= dayOf (WeightTab.e_date num a))
      (rev series).
Proof.
  intros num pets selectedPetId weightRecords pushed series Hok.
  unfold series, WeightTab.allWeightRecords. fold pushed.
  set (key := fun e => dayOf (WeightTab.e_date num e)).
  assert (Hsorted : StronglySorted (fun a b => key a <= key b)
                      (sort (WeightTab.oldestFirst num) pushed)).
  { apply (sort_sorted (WeightTab.oldestFirst num) key
             (fun e => valid_date (WeightTab.e_date num e))
             (oldestFirst_by_key num) pushed Hok). }
  split; [apply sort_perm | ]. split; [exact Hsorted | ]. split.
  - intros day.
    apply (sort_stable (WeightTab.oldestFirst num) key
             (fun e => valid_date (WeightTab.e_date num e))
             (oldestFirst_by_key num) day pushed Hok).
  - apply (StronglySorted_rev _ _ Hsorted).
Qed.

Lemma weight_series_oldest_first_witness :
  let pet := WeightTab.mkPet Z "pet" "Luna" "cat" (Some 4)
               "2024-01-05T10:00:00Z" in
  let records :=
    [WeightTab.mkWeightRecord Z "a" "pet" 5 "2024-01-10" None "t1";
     WeightTab.mkWeightRecord Z "b" "pet" 3 "2024-01-02" None "t2"] in
  map (WeightTab.e_date Z) (WeightTab.allWeightRecords Z [pet] "pet" records)
  = ["2024-01-02"; "2024-01-05"; "2024-01-10"] /\
  StronglySorted
    (fun a b => dayOf (WeightTab.e_date Z a) <= dayOf (WeightTab.e_date Z b))
    (WeightTab.allWeightRecords Z [pet] "pet" records).
Proof.
  intros pet records. split; [vm_compute; reflexivity | ].
  assert (Hok : Forall (fun e => valid_date (WeightTab.e_date Z e))
                  (WeightTab.initialEntry Z [pet] "pet" records
                   ++ map (WeightTab.recordEntry Z) records)%list).
  { repeat constructor; vm_compute; discriminate. }
  exact (proj1 (proj2 (weight_series_oldest_first Z [pet] "pet" records Hok))).
Defined.

Lemma NoDup_map_inj {A B : Type} (f : A -> B) (l : list A) a b :
  NoDup (map f l) -> In a l -> In b l -> f a = f b -> a = b.
Proof.
  induction l as [ | x l IH]; intros Hn Ha Hb E; [destruct Ha | ].
  cbn [map] in Hn. inversion Hn as [ | ? ? Hx Hn']; subst.
  destruct Ha as [-> | Ha], Hb as [-> | Hb]; auto.
  - destruct Hx. rewrite E. now apply in_map.
  - destruct Hx. rewrite <- E. now apply in_map.
Qed.

Lemma find_prefix {A : Type} (p : A -> bool) (l1 : list A) x rest :
  p x = true ->
  exists y, find p (l1 ++ x :: rest) = Some y /\ In y (l1 ++ [x]).
Proof.
  intros Hx. induction l1 as [ | a l1 IH]; cbn [app find].
  - rewrite Hx. exists x. split; [reflexivity | now left].
  - destruct (p a).
    + exists a. split; [reflexivity | now left].
    + destruct IH as (y & E & Hy). exists y. split; [exact E | now right].
Qed.

Definition deletes (num : Type) (i : string) (row : WeightTab.TableRow num)
  : bool :=
  match row with
  | WeightTab.RecordRow _ _ _ _ _ deleteId => String.eqb deleteId i
  | _ => false
  end.

Lemma table_row_of_record (num : Type)
  (weightRecords : list (WeightTab.WeightRecord num)) e row :
  In e (map (WeightTab.recordEntry num) weightRecords) ->
  WeightTab.tableRow num weightRecords e = row ->
  exists wr,
    find (fun wr => String.eqb (WeightTab.r_date num wr) (WeightTab.e_date num e))
         weightRecords = Some wr /\
    row = WeightTab.RecordRow num (WeightTab.r_id num wr)
            (WeightTab.e_weight num e) (WeightTab.e_date num e)
            (WeightTab.r_notes num wr) (WeightTab.r_id num wr).
Proof.
  intros He <-. apply in_map_iff in He. destruct He as (r & <- & Hr).
  unfold WeightTab.tableRow.
  cbn [WeightTab.recordEntry WeightTab.isInitial WeightTab.e_date
       WeightTab.e_weight].
  destruct (find _ weightRecords) as [wr | ] eqn:E.
  - exists wr. split; reflexivity.
  - exfalso. apply (find_none _ _ E) in Hr. now rewrite String.eqb_refl in Hr.
Qed.

(** X11.  In the table of weight records every weight record has a card,
    but the card takes its key, its notes and the id its delete button sends
    from the first record of the same date.  With distinct record ids, a
    record can be deleted from the table exactly when it is the first record
    of its date; a later record of a date that already has one has no delete
    button of its own. *)
Theorem only_the_first_record_of_a_date_can_be_deleted :
  forall (num : Type) (pets : list (WeightTab.Pet num)) (selectedPetId : string)
         (weightRecords : list (WeightTab.WeightRecord num)),
    let rows := WeightTab.table num pets selectedPetId weightRecords in
    NoDup (map (WeightTab.r_id num) weightRecords) ->
    ~ In (WeightTab.NoRow num) rows /\
    (forall r, In r weightRecords ->
       (existsb (deletes num (WeightTab.r_id num r)) rows = true <->
        find (fun wr => String.eqb (WeightTab.r_date num wr)
                                   (WeightTab.r_date num r))
             weightRecords = Some r)) /\
    (forall l1 r1 l2 r2 l3,
       weightRecords = (l1 ++ r1 :: l2 ++ r2 :: l3)%list ->
       WeightTab.r_date num r1 = WeightTab.r_date num r2 ->
       existsb (deletes num (WeightTab.r_id num r2)) rows = false).
Proof.
  intros num pets selectedPetId weightRecords rows Hnd.
  set (pushed := (WeightTab.initialEntry num pets selectedPetId weightRecords
                  ++ map (WeightTab.recordEntry num) weightRecords)%list).
  assert (Hin : forall e,
             In e (rev (WeightTab.allWeightRecords num pets selectedPetId
                          weightRecords)) <-> In e pushed).
  { intros e. rewrite <- in_rev. unfold WeightTab.allWeightRecords. fold pushed.
    split; apply Permutation_in;
      [symmetry; apply sort_perm | apply sort_perm]. }
  assert (Hinit : forall e,
             In e (WeightTab.initialEntry num pets selectedPetId weightRecords) ->
             WeightTab.isInitial num e = Some true).
  { intros e. unfold WeightTab.initialEntry.
    destruct (WeightTab.selectedPet num pets selectedPetId) as [pet | ];
      [ | intros []].
    destruct (WeightTab.weight num pet) as [w | ]; [ | intros []].
    destruct (negb _); [ | intros []]. intros [<- | []]. reflexivity. }
  assert (Hrow : forall row, In row rows ->
             (exists w d, row = WeightTab.InitialRow num w d) \/
             exists e wr,
               In e (map (WeightTab.recordEntry num) weightRecords) /\
               find (fun wr => String.eqb (WeightTab.r_date num wr)
                                          (WeightTab.e_date num e))
                    weightRecords = Some wr /\
               row = WeightTab.RecordRow num (WeightTab.r_id num wr)
                       (WeightTab.e_weight num e) (WeightTab.e_date num e)
                       (WeightTab.r_notes num wr) (WeightTab.r_id num wr)).
  { intros row Hr. unfold rows, WeightTab.table in Hr.
    apply in_map_iff in Hr. destruct Hr as (e & E & He).
    apply Hin in He. unfold pushed in He. apply in_app_or in He.
    destruct He as [He | He].
    - left. apply Hinit in He. unfold WeightTab.tableRow in E.
      rewrite He in E. eauto.
    - right. destruct (table_row_of_record num weightRecords e row He E)
        as (wr & F & ->). eauto. }
  assert (Hfirst : forall r, In r weightRecords ->
            existsb (deletes num (WeightTab.r_id num r)) rows = true ->
            exists d,
              find (fun wr => String.eqb (WeightTab.r_date num wr) d)
                   weightRecords = Some r).
  { intros r Hr H. apply existsb_exists in H. destruct H as (row & Hrow' & Hd).
    destruct (Hrow row Hrow') as [(w & d & ->) | (e & wr & _ & F & ->)];
      [discriminate | ].
    cbn [deletes] in Hd. apply String.eqb_eq in Hd.
    destruct (find_some _ _ F) as [Hwr _].
    rewrite (NoDup_map_inj _ _ _ _ Hnd Hwr Hr Hd) in F. eauto. }
  split; [ | split].
  - intros H. destruct (Hrow _ H) as [(w & d & E) | (e & wr & _ & _ & E)];
      discriminate.
  - intros r Hr. split.
    + intros H. destruct (Hfirst r Hr H) as (d & F).
      destruct (find_some _ _ F) as [_ Hd]. apply String.eqb_eq in Hd.
      now rewrite Hd.
    + intros F. apply existsb_exists.
      exists (WeightTab.tableRow num weightRecords (WeightTab.recordEntry num r)).
      split.
      * unfold rows, WeightTab.table. apply in_map. apply Hin. unfold pushed.
        apply in_or_app. right. now apply in_map.
      * unfold WeightTab.tableRow.
        cbn [WeightTab.recordEntry WeightTab.isInitial WeightTab.e_date
             WeightTab.e_weight].
        rewrite F. cbn [deletes]. apply String.eqb_refl.
  - intros l1 r1 l2 r2 l3 E Hdate.
    destruct (existsb (deletes num (WeightTab.r_id num r2)) rows) eqn:H;
      [exfalso | reflexivity].
    assert (Hr2 : In r2 weightRecords).
    { rewrite E. apply in_or_app. right. right. apply in_or_app. right.
      now left. }
    destruct (Hfirst r2 Hr2 H) as (d & F).
    destruct (find_some _ _ F) as [_ Hd]. apply String.eqb_eq in Hd.
    subst d. rewrite E in F.
    destruct (find_prefix
                (fun wr => String.eqb (WeightTab.r_date num wr)
                                      (WeightTab.r_date num r2))
                l1 r1 (l2 ++ r2 :: l3)%list) as (y & Fy & Hy).
    { rewrite Hdate. apply String.eqb_refl. }
    rewrite Fy in F. injection F as ->.
    rewrite E in Hnd.
    replace (l1 ++ r1 :: l2 ++ r2 :: l3)%list
      with (((l1 ++ [r1]) ++ l2) ++ r2 :: l3)%list in Hnd
      by (rewrite <- !app_assoc; reflexivity).
    rewrite map_app in Hnd. cbn [map] in Hnd.
    apply NoDup_remove_2 in Hnd. apply Hnd.
    apply in_or_app. left. rewrite map_app. apply in_or_app. left.
    now apply in_map.
Qed.

Lemma only_the_first_record_of_a_date_can_be_deleted_witness :
  let records :=
    [WeightTab.mkWeightRecord Z "a" "pet" 5 "2024-01-10" (Some "morning") "t1";
     WeightTab.mkWeightRecord Z "b" "pet" 6 "2024-01-10" (Some "evening") "t2"] in
  NoDup (map (WeightTab.r_id Z) records) /\
  existsb (deletes Z "b") (WeightTab.table Z [] "pet" records) = false /\
  WeightTab.table Z [] "pet" records
  = [WeightTab.RecordRow Z "a" 6 "2024-01-10" (Some "morning") "a";
     WeightTab.RecordRow Z "a" 5 "2024-01-10" (Some "morning") "a"].
Proof.
  intros records.
  assert (Hnd : NoDup (map (WeightTab.r_id Z) records)).
  { repeat constructor; cbn; intuition discriminate. }
  split; [exact Hnd | ]. split; [ | vm_compute; reflexivity].
  destruct (only_the_first_record_of_a_date_can_be_deleted Z [] "pet" records
              Hnd) as (_ & _ & H).
  apply (H [] (WeightTab.mkWeightRecord Z "a" "pet" 5 "2024-01-10"
                 (Some "morning") "t1")
           [] (WeightTab.mkWeightRecord Z "b" "pet" 6 "2024-01-10"
                 (Some "evening") "t2") []); reflexivity.
Defined.

(* ================================================================== *)
(** * The monthly cadence *)
(* ================================================================== *)

(** X12.  The monthly cadence keeps the day of the month.  For a deworming
    applied on the 1st to the 28th, the reminder of a run every [n] months
    falls on the same day of the month, a whole number [k >= 1] of intervals
    after the deworming: [k] is 1 for a deworming dated today or later, and
    otherwise the first multiple that is not before today. *)
Theorem monthly_reminder_keeps_the_day_of_the_month :
  forall (fuel : nat) (today s n : Z) (petId userId label : string)
         (rows : list Reminder) (r : Reminder),
    0 < n ->
    DateFromDay s <= 28 ->
    DewormingTab.remindersToCreate fuel today petId userId label (DateAt s)
      "months" (Some n) = Some rows ->
    In r rows ->
    exists (k : nat) (x : Z),
      r = DewormingTab.reminderFor petId userId label (DateAt x) /\
      (1 <= k)%nat /\
      (today <= s -> k = 1%nat) /\
      absMonth x = absMonth s + Z.of_nat k * n /\
      DateFromDay x = DateFromDay s /\
      today <= x /\
      (s < today -> forall x',
         absMonth x' = absMonth s + (Z.of_nat k - 1) * n ->
         DateFromDay x' = DateFromDay s -> (1 < k)%nat -> x' < today).
Proof.
  intros fuel today s n petId userId label rows r Hn Hs H Hr.
  set (step := DewormingTab.advance "months" (Some n)).
  assert (Hup : ascending step)
    by (apply advance_ascending; [exact Hn | now left]).
  rewrite deworming_rows_unfold in H. fold step in H.
  destruct (EngineFacts.backlog step today fuel (DateAt s)) as [next | ] eqn:Hb;
    [ | discriminate].
  injection H as <-.
  destruct (date_le next (DewormingTab.maxDate today)) eqn:Hle;
    [ | destruct Hr].
  destruct Hr as [<- | []].
  destruct (date_le_valid _ _ Hle) as [x ->].
  destruct (EngineFacts.backlog_ascending _ _ _ _ _ x Hup Hb eq_refl)
    as [Hsx Htx].
  destruct (Z.lt_ge_cases s today) as [Hpast | Hfut].
  - destruct (EngineFacts.backlog_past _ _ _ _ _ Hpast Hb)
      as (k & Hk & E & _ & Hbefore).
    symmetry in E.
    destruct (iter_months_anniversary n k s x Hs E) as [Hm Hd].
    exists k, x. split; [reflexivity | ]. split; [exact Hk | ].
    split; [lia | ]. split; [exact Hm | ]. split; [exact Hd | ].
    split; [lia | ].
    intros _ x' Hm' Hd' Hk1.
    specialize (Hbefore (k - 1)%nat ltac:(lia)).
    destruct (Nat.iter (k - 1) step (DateAt s)) as [z | ] eqn:Ez;
      [ | discriminate].
    destruct (iter_months_anniversary n (k - 1) s z Hs Ez) as [Hmz Hdz].
    cbn [date_lt] in Hbefore. apply Z.ltb_lt in Hbefore.
    assert (x' = z); [ | lia].
    rewrite (CalendarFacts.day_absMonth x'), (CalendarFacts.day_absMonth z).
    rewrite Hm', Hmz, Hd', Hdz.
    replace (Z.of_nat (k - 1)) with (Z.of_nat k - 1) by lia. reflexivity.
  - rewrite (EngineFacts.backlog_future _ _ _ _ Hfut) in Hb.
    injection Hb as Hb.
    destruct (advance_months_anniversary n s x Hs Hb) as [Hm Hd].
    exists 1%nat, x. split; [reflexivity | ]. split; [lia | ].
    split; [reflexivity | ]. split; [lia | ]. split; [exact Hd | ].
    split; [lia | ]. intros; lia.
Qed.

Lemma monthly_reminder_keeps_the_day_of_the_month_witness :
  exists (s : Z) (r : Reminder) (k : nat) (x : Z),
    parseDateString "2024-01-15" = DateAt s /\
    DateFromDay s <= 28 /\
    DewormingTab.remindersToCreate 20 19875 "pet" "user" "Drontal" (DateAt s)
      "months" (Some 1) = Some [r] /\
    reminder_date r = "2024-06-15" /\
    r = DewormingTab.reminderFor "pet" "user" "Drontal" (DateAt x) /\
    absMonth x = absMonth s + Z.of_nat k * 1 /\
    DateFromDay x = DateFromDay s.
Proof.
  assert (E : exists (s : Z) (r : Reminder),
             parseDateString "2024-01-15" = DateAt s /\
             DateFromDay s <= 28 /\
             DewormingTab.remindersToCreate 20 19875 "pet" "user" "Drontal"
               (DateAt s) "months" (Some 1) = Some [r] /\
             reminder_date r = "2024-06-15").
  { eexists. eexists. split; [vm_compute; reflexivity | ].
    split; [vm_compute; discriminate | ].
    split; [vm_compute; reflexivity | vm_compute; reflexivity]. }
  destruct E as (s & r & E1 & E2 & E3 & E4).
  destruct (monthly_reminder_keeps_the_day_of_the_month 20 19875 s 1 "pet"
              "user" "Drontal" [r] r ltac:(lia) E2 E3 (or_introl eq_refl))
    as (k & x & Hr & _ & _ & Hm & Hd & _).
  exists s, r, k, x. repeat split; assumption.
Defined.

(* ================================================================== *)
(** * What the delete filter selects *)
(* ================================================================== *)

(** X13.  What deleting a care event removes.  For a name without the
    pattern characters [%], [_], [*] and backslash, deleting a vaccine
    removes exactly the reminders of the selected pet whose title contains
    the name and whose description contains [Vacuna], byte for byte and so
    case-sensitively, whoever wrote them; every other reminder stays, in
    order.  Deleting a deworming does the same with [Desparasitación].
    The care-event row of the given id is removed from its own table and the
    other table is untouched. *)
Theorem delete_removes_the_tagged_reminders :
  forall (petId label : string) (id : nat) (db : DB),
    plain label = true ->
    (forall needle hay,
       contains needle hay = true
       <-> exists a b, hay = (a ++ needle ++ b)%string) /\
    reminders (VaccineTab.handleDelete petId id label db)
    = filter (fun r => negb (tagged petId label "Vacuna" r)) (reminders db) /\
    reminders (DewormingTab.handleDelete petId id label db)
    = filter (fun r => negb (tagged petId label "Desparasitación" r))
             (reminders db) /\
    vaccinations (VaccineTab.handleDelete petId id label db)
    = filter (fun v => negb (Nat.eqb (v_id v) id)) (vaccinations db) /\
    dewormings (VaccineTab.handleDelete petId id label db) = dewormings db /\
    dewormings (DewormingTab.handleDelete petId id label db)
    = filter (fun d => negb (Nat.eqb (d_id d) id)) (dewormings db) /\
    vaccinations (DewormingTab.handleDelete petId id label db)
    = vaccinations db.
Proof.
  intros petId label id db Hl.
  split; [exact contains_spec | ].
  split; [ | split; [ | repeat split]].
  - unfold VaccineTab.handleDelete.
    cbn [VaccineTab.delete_vaccination reminders]. rewrite reminders_delete.
    apply filter_ext. intros r. f_equal.
    apply (selected_tagged petId label "Vacuna" r Hl). reflexivity.
  - unfold DewormingTab.handleDelete.
    cbn [DewormingTab.delete_deworming reminders]. rewrite reminders_delete.
    apply filter_ext. intros r. f_equal.
    apply (selected_tagged petId label "Desparasitación" r Hl). reflexivity.
Qed.

Lemma delete_removes_the_tagged_reminders_witness :
  let manual :=
    mkReminder "user" (Some "pet") "Rabies booster visit"
      (Some "Vacuna anual en la clínica") "2025-01-10" "vaccination" false in
  let generated :=
    VaccineTab.reminderFor "pet" "user" "Rabies" (DateAt 20162) in
  plain "Rabies" = true /\
  reminders (VaccineTab.handleDelete "pet" 0 "Rabies"
               (mkDB [manual; generated] [] [] 0))
  = [generated].
Proof.
  intros manual generated.
  assert (Hl : plain "Rabies" = true) by reflexivity.
  split; [exact Hl | ].
  destruct (delete_removes_the_tagged_reminders "pet" "Rabies" 0
              (mkDB [manual; generated] [] [] 0) Hl) as (_ & H & _).
  rewrite H. vm_compute. reflexivity.
Defined.
